(** * Client-side synchronisation core of the trading dashboard

    A shallow embedding of the dashboard script (the current script and the
    older copy kept under [static/app.js]): the polling tick
    [fetchSystemData], the P&L history buffer, the chart downsampler
    [getFilteredChartData], the session reset of [controlSystem], the
    execution-mode switch [confirmModeSwitch] and the per-instrument price
    box of [updateMarketHeader].

    Conventions of the model.
    - JavaScript values are the inductive [JsVal]; numbers are exact
      rationals (IEEE rounding, infinities and NaN payloads are abstracted).
    - The global [state] object is the record [State]; the module-level
      variables [isSwitchingMode] and [pnlChart] and the observable effects
      (requests issued, alerts shown, header texts) live in [World].
    - Code that can throw runs in the monad [JS]: a computation takes a
      world and returns a result (a value or a thrown error) and the world
      reached at that point.
    - What the host decides (responses, dialog answers, the clock, the
      random source, the presence of page elements) is an explicit input. *)

From Stdlib Require Import ZArith QArith Qround Lqa.
From stdpp Require Import base tactics option list strings pretty.

Local Open Scope string_scope.
Local Open Scope list_scope.
Local Open Scope nat_scope.

(** ** JavaScript values *)

#[local] Set Warnings "-register-all,-abstract-large-number".

Inductive JsVal : Type :=
  | JUndefined
  | JNull
  | JBool (b : bool)
  | JNum (q : Q)
  | JStr (s : string)
  | JArr (items : list JsVal)
  | JObj (fields : list (string * JsVal)).

(** Errors carry the two fields the script inspects: [e.name] and
    [e.message]. *)
Record JsError : Type := mkError { ename : string; emessage : string }.

Definition TypeError (msg : string) : JsError := mkError "TypeError" msg.
Definition PlainError (msg : string) : JsError := mkError "Error" msg.

(** ToBoolean. *)
Definition truthy (v : JsVal) : bool :=
  match v with
  | JUndefined | JNull => false
  | JBool b => b
  | JNum q => negb (Qeq_bool q 0)
  | JStr s => negb (String.eqb s "")
  | JArr _ | JObj _ => true
  end.

(** [a || b]. *)
Definition js_or (a b : JsVal) : JsVal := if truthy a then a else b.

(** [v === 0]. *)
Definition is_zero_number (v : JsVal) : bool :=
  match v with JNum q => Qeq_bool q 0 | _ => false end.

(** [v === s] for a string literal [s]. *)
Definition is_string (s : string) (v : JsVal) : bool :=
  match v with JStr s' => String.eqb s' s | _ => false end.

Definition is_undefined (v : JsVal) : bool :=
  match v with JUndefined => true | _ => false end.

Definition is_null (v : JsVal) : bool :=
  match v with JNull => true | _ => false end.

Fixpoint assoc {A} (k : string) (fs : list (string * A)) : option A :=
  match fs with
  | [] => None
  | (k', v) :: rest => if String.eqb k' k then Some v else assoc k rest
  end.

Fixpoint assoc_set (k : string) (v : JsVal) (fs : list (string * JsVal))
  : list (string * JsVal) :=
  match fs with
  | [] => [(k, v)]
  | (k', v') :: rest =>
      if String.eqb k' k then (k, v) :: rest else (k', v') :: assoc_set k v rest
  end.

(** Reading [v.k] where it cannot throw ([v] is neither null nor
    undefined), for the member names the script reads from payloads; none
    of them exists on a primitive or on an array, where the read gives
    undefined. *)
Definition member (v : JsVal) (k : string) : JsVal :=
  match v with
  | JObj fs => default JUndefined (assoc k fs)
  | _ => JUndefined
  end.

(** Writing [v.k = x] on a value that is neither null nor undefined: a
    plain object gets the member; the assignment on a primitive is dropped
    (the script is not in strict mode). A member added to an array is not
    representable here and is dropped as well. *)
Definition with_member (v : JsVal) (k : string) (x : JsVal) : JsVal :=
  match v with
  | JObj fs => JObj (assoc_set k x fs)
  | _ => v
  end.

(** ** The global state *)

Record ChartData : Type := mkChartData {
  labels : list string;
  data : list JsVal;
  fullTimestamps : list string
}.

Record State : Type := mkState {
  isAuth : bool;
  selectedMarket : string;
  selectedCommodity : string;
  metrics : JsVal;
  trades : JsVal;
  logs : JsVal;
  pnlHistory : list JsVal;
  pnlTimestamps : list string;
  pnlFullTimestamps : list string;
  chartTimeRange : string;
  account_update : JsVal;
  agentV2Status : JsVal;
  auditTrail : JsVal;
  market_data : JsVal;
  dataEngineStatus : JsVal;
  executionMode : JsVal
}.

(** The literal the script starts from. *)
Definition initial_state : State :=
  mkState false "NIFTY" "GOLD" JNull (JArr []) (JArr []) [] [] [] "1D"
          JNull (JObj []) (JArr []) JUndefined JUndefined JUndefined.

Definition set_isAuth (x : bool) (s : State) : State :=
  mkState x (selectedMarket s) (selectedCommodity s) (metrics s) (trades s) (logs s) (pnlHistory s) (pnlTimestamps s) (pnlFullTimestamps s) (chartTimeRange s) (account_update s) (agentV2Status s) (auditTrail s) (market_data s) (dataEngineStatus s) (executionMode s).
Definition set_metrics (x : JsVal) (s : State) : State :=
  mkState (isAuth s) (selectedMarket s) (selectedCommodity s) x (trades s) (logs s) (pnlHistory s) (pnlTimestamps s) (pnlFullTimestamps s) (chartTimeRange s) (account_update s) (agentV2Status s) (auditTrail s) (market_data s) (dataEngineStatus s) (executionMode s).
Definition set_trades (x : JsVal) (s : State) : State :=
  mkState (isAuth s) (selectedMarket s) (selectedCommodity s) (metrics s) x (logs s) (pnlHistory s) (pnlTimestamps s) (pnlFullTimestamps s) (chartTimeRange s) (account_update s) (agentV2Status s) (auditTrail s) (market_data s) (dataEngineStatus s) (executionMode s).
Definition set_logs (x : JsVal) (s : State) : State :=
  mkState (isAuth s) (selectedMarket s) (selectedCommodity s) (metrics s) (trades s) x (pnlHistory s) (pnlTimestamps s) (pnlFullTimestamps s) (chartTimeRange s) (account_update s) (agentV2Status s) (auditTrail s) (market_data s) (dataEngineStatus s) (executionMode s).
Definition set_pnlHistory (x : list JsVal) (s : State) : State :=
  mkState (isAuth s) (selectedMarket s) (selectedCommodity s) (metrics s) (trades s) (logs s) x (pnlTimestamps s) (pnlFullTimestamps s) (chartTimeRange s) (account_update s) (agentV2Status s) (auditTrail s) (market_data s) (dataEngineStatus s) (executionMode s).
Definition set_pnlTimestamps (x : list string) (s : State) : State :=
  mkState (isAuth s) (selectedMarket s) (selectedCommodity s) (metrics s) (trades s) (logs s) (pnlHistory s) x (pnlFullTimestamps s) (chartTimeRange s) (account_update s) (agentV2Status s) (auditTrail s) (market_data s) (dataEngineStatus s) (executionMode s).
Definition set_pnlFullTimestamps (x : list string) (s : State) : State :=
  mkState (isAuth s) (selectedMarket s) (selectedCommodity s) (metrics s) (trades s) (logs s) (pnlHistory s) (pnlTimestamps s) x (chartTimeRange s) (account_update s) (agentV2Status s) (auditTrail s) (market_data s) (dataEngineStatus s) (executionMode s).
Definition set_chartTimeRange (x : string) (s : State) : State :=
  mkState (isAuth s) (selectedMarket s) (selectedCommodity s) (metrics s) (trades s) (logs s) (pnlHistory s) (pnlTimestamps s) (pnlFullTimestamps s) x (account_update s) (agentV2Status s) (auditTrail s) (market_data s) (dataEngineStatus s) (executionMode s).
Definition set_account_update (x : JsVal) (s : State) : State :=
  mkState (isAuth s) (selectedMarket s) (selectedCommodity s) (metrics s) (trades s) (logs s) (pnlHistory s) (pnlTimestamps s) (pnlFullTimestamps s) (chartTimeRange s) x (agentV2Status s) (auditTrail s) (market_data s) (dataEngineStatus s) (executionMode s).
Definition set_agentV2Status (x : JsVal) (s : State) : State :=
  mkState (isAuth s) (selectedMarket s) (selectedCommodity s) (metrics s) (trades s) (logs s) (pnlHistory s) (pnlTimestamps s) (pnlFullTimestamps s) (chartTimeRange s) (account_update s) x (auditTrail s) (market_data s) (dataEngineStatus s) (executionMode s).
Definition set_auditTrail (x : JsVal) (s : State) : State :=
  mkState (isAuth s) (selectedMarket s) (selectedCommodity s) (metrics s) (trades s) (logs s) (pnlHistory s) (pnlTimestamps s) (pnlFullTimestamps s) (chartTimeRange s) (account_update s) (agentV2Status s) x (market_data s) (dataEngineStatus s) (executionMode s).
Definition set_market_data (x : JsVal) (s : State) : State :=
  mkState (isAuth s) (selectedMarket s) (selectedCommodity s) (metrics s) (trades s) (logs s) (pnlHistory s) (pnlTimestamps s) (pnlFullTimestamps s) (chartTimeRange s) (account_update s) (agentV2Status s) (auditTrail s) x (dataEngineStatus s) (executionMode s).
Definition set_dataEngineStatus (x : JsVal) (s : State) : State :=
  mkState (isAuth s) (selectedMarket s) (selectedCommodity s) (metrics s) (trades s) (logs s) (pnlHistory s) (pnlTimestamps s) (pnlFullTimestamps s) (chartTimeRange s) (account_update s) (agentV2Status s) (auditTrail s) (market_data s) x (executionMode s).
Definition set_executionMode (x : JsVal) (s : State) : State :=
  mkState (isAuth s) (selectedMarket s) (selectedCommodity s) (metrics s) (trades s) (logs s) (pnlHistory s) (pnlTimestamps s) (pnlFullTimestamps s) (chartTimeRange s) (account_update s) (agentV2Status s) (auditTrail s) (market_data s) (dataEngineStatus s) x.

(** ** The world: globals and observable effects *)

(** What the mode badge in the page header and the options of the mode
    modal show. [selectedOption] is [None] when every option has been
    deselected, and [Some mode] when, after that, the option of [mode] has
    been looked up to be marked: the mark lands on the option if the page
    has one for that mode ([if (activeOpt)], [if (modalOpt)]). *)
Record ModeDisplay : Type := mkModeDisplay {
  headerMode : JsVal;
  headerData : JsVal;
  selectedOption : option JsVal
}.

Record World : Type := mkWorld {
  state : State;
  isSwitchingMode : bool;
  pnlChart : option ChartData;
  display : ModeDisplay;
  modalOpen : bool;
  drawn : nat;
  requests : list string;
  alerts : list string;
  console : list string;
  reloads : nat;
  resyncs : nat
}.

(** The world right after the script is loaded. *)
Definition page_load : World :=
  mkWorld initial_state false None (mkModeDisplay JUndefined JUndefined None)
          false 0 [] [] [] 0 0.

Definition with_state (f : State -> State) (w : World) : World :=
  mkWorld (f (state w)) (isSwitchingMode w) (pnlChart w) (display w) (modalOpen w) (drawn w) (requests w) (alerts w) (console w) (reloads w) (resyncs w).
Definition set_isSwitchingMode (b : bool) (w : World) : World :=
  mkWorld (state w) b (pnlChart w) (display w) (modalOpen w) (drawn w) (requests w) (alerts w) (console w) (reloads w) (resyncs w).
Definition set_pnlChart (c : option ChartData) (w : World) : World :=
  mkWorld (state w) (isSwitchingMode w) c (display w) (modalOpen w) (drawn w) (requests w) (alerts w) (console w) (reloads w) (resyncs w).
Definition set_display (d : ModeDisplay) (w : World) : World :=
  mkWorld (state w) (isSwitchingMode w) (pnlChart w) d (modalOpen w) (drawn w) (requests w) (alerts w) (console w) (reloads w) (resyncs w).
Definition set_modalOpen (b : bool) (w : World) : World :=
  mkWorld (state w) (isSwitchingMode w) (pnlChart w) (display w) b (drawn w) (requests w) (alerts w) (console w) (reloads w) (resyncs w).
Definition set_drawn (n : nat) (w : World) : World :=
  mkWorld (state w) (isSwitchingMode w) (pnlChart w) (display w) (modalOpen w) n (requests w) (alerts w) (console w) (reloads w) (resyncs w).
Definition log_request (url : string) (w : World) : World :=
  mkWorld (state w) (isSwitchingMode w) (pnlChart w) (display w) (modalOpen w) (drawn w) (requests w ++ [url]) (alerts w) (console w) (reloads w) (resyncs w).
Definition log_alert (msg : string) (w : World) : World :=
  mkWorld (state w) (isSwitchingMode w) (pnlChart w) (display w) (modalOpen w) (drawn w) (requests w) (alerts w ++ [msg]) (console w) (reloads w) (resyncs w).
Definition log_console (msg : string) (w : World) : World :=
  mkWorld (state w) (isSwitchingMode w) (pnlChart w) (display w) (modalOpen w) (drawn w) (requests w) (alerts w) (console w ++ [msg]) (reloads w) (resyncs w).
Definition request_reload (w : World) : World :=
  mkWorld (state w) (isSwitchingMode w) (pnlChart w) (display w) (modalOpen w) (drawn w) (requests w) (alerts w) (console w) (S (reloads w)) (resyncs w).
Definition request_resync (w : World) : World :=
  mkWorld (state w) (isSwitchingMode w) (pnlChart w) (display w) (modalOpen w) (drawn w) (requests w) (alerts w) (console w) (reloads w) (S (resyncs w)).

(** ** Computations that may throw *)

Inductive Result (A : Type) : Type :=
  | Ok (a : A)
  | Throw (e : JsError).
Arguments Ok {A} a.
Arguments Throw {A} e.

Definition JS (A : Type) : Type := World -> Result A * World.

Definition ret {A} (a : A) : JS A := fun w => (Ok a, w).

Definition bind {A B} (m : JS A) (k : A -> JS B) : JS B :=
  fun w => match m w with
           | (Ok a, w') => k a w'
           | (Throw e, w') => (Throw e, w')
           end.

Definition throw {A} (e : JsError) : JS A := fun w => (Throw e, w).

(** [try { body } catch (e) { handler }]. *)
Definition try_catch {A} (body : JS A) (handler : JsError -> JS A) : JS A :=
  fun w => match body w with
           | (Ok a, w') => (Ok a, w')
           | (Throw e, w') => handler e w'
           end.

(** [try { body } finally { cleanup }], for a cleanup that cannot throw. *)
Definition try_finally {A} (body : JS A) (cleanup : World -> World) : JS A :=
  fun w => let '(r, w') := body w in (r, cleanup w').

Definition get : JS World := fun w => (Ok w, w).
Definition modify (f : World -> World) : JS unit := fun w => (Ok tt, f w).
Definition update (f : State -> State) : JS unit := modify (with_state f).
Definition when (b : bool) (m : JS unit) : JS unit := if b then m else ret tt.

Notation "'let*' x := m 'in' k" := (bind m (fun x => k))
  (at level 10, x name, m at level 100, k at level 200, only parsing).
Notation "'run*' m 'in' k" := (bind m (fun _ => k))
  (at level 10, m at level 100, k at level 200, only parsing).

(** The world a computation ends in, whatever its result. *)
Definition run {A} (m : JS A) (w : World) : World := snd (m w).

(** ** What the host provides *)

(** The random source, the clock formatting and the number formatting of
    the browser. [Math_random_at n] is the result of the [n]-th call of
    [Math.random()] since the page was loaded; instants are milliseconds
    since the epoch. *)
Class Host : Type := {
  Math_random_at : nat -> Q;
  fullTimeOf : Z -> string;
  compressedTimeOf : Z -> string;
  shortDateOf : Z -> string;
  localeStringOf : Z -> string;
  string_to_number : string -> option Q;
  parseFloat : string -> option Q;
  object_to_number : JsVal -> option Q;
  toFixed2 : option Q -> string;
  toLocaleString_en_IN : JsVal -> string;
  to_display_string : JsVal -> string
}.

(** A response as the script sees it: [res.ok], [res.status] and the
    outcome of [res.json()] (the parsed value, or the error it rejects
    with when the body is not JSON). *)
Record Response : Type := mkResponse {
  ok : bool;
  status : nat;
  body : JsError + JsVal
}.

(** A [fetch] either rejects (network failure, abort) or resolves. *)
Inductive FetchOutcome : Type :=
  | Rejected (e : JsError)
  | Responded (r : Response).

Definition fetch (url : string) (o : FetchOutcome) : JS Response :=
  run* modify (log_request url) in
  match o with
  | Rejected e => throw e
  | Responded r => ret r
  end.

Definition json (r : Response) : JS JsVal :=
  match body r with
  | inl e => throw e
  | inr v => ret v
  end.

(** What the page holds when a handler runs. [dashboardRenders] and
    [chartRenders] say whether the element updates of the dashboard and of
    the chart container run to completion (they throw on a missing
    element). *)
Record Page : Type := mkPage {
  modalGrid : bool;
  headerElements : bool;
  perfTabHidden : option bool;
  chartRenders : bool;
  dashboardRenders : State -> bool;
  rangeButton : string -> bool
}.

(** ** The chart: history window and placeholder data *)

Record RangeCfg : Type := mkCfg { points : Z; step : Z }.

Definition rangeConfig : list (string * RangeCfg) :=
  [ ("1D", mkCfg 500 1);
    ("5D", mkCfg 1500 2);
    ("1M", mkCfg 3000 5);
    ("3M", mkCfg 5000 10);
    ("6M", mkCfg 8000 20);
    ("1Y", mkCfg 12000 50) ].

(** [rangeConfig] is an object literal, so a lookup that misses its own
    keys continues on [Object.prototype]. *)
Definition Object_prototype_members : list string :=
  [ "constructor"; "__defineGetter__"; "__defineSetter__"; "hasOwnProperty";
    "__lookupGetter__"; "__lookupSetter__"; "isPrototypeOf";
    "propertyIsEnumerable"; "toString"; "valueOf"; "__proto__";
    "toLocaleString" ].

(** The value of [rangeConfig[k]] when it is not undefined: an entry of
    the literal, or an inherited member (a function, or the prototype
    object for [__proto__]), which is truthy and has neither [points] nor
    [step]. *)
Inductive CfgValue : Type :=
  | OwnEntry (c : RangeCfg)
  | InheritedMember.

Definition rangeConfig_get (k : string) : option CfgValue :=
  match assoc k rangeConfig with
  | Some c => Some (OwnEntry c)
  | None =>
      if existsb (String.eqb k) Object_prototype_members
      then Some InheritedMember else None
  end.

(** [cfg.points] and [cfg.step]; [None] is undefined. *)
Definition cfg_points (c : CfgValue) : option Z :=
  match c with OwnEntry c => Some (points c) | InheritedMember => None end.
Definition cfg_step (c : CfgValue) : option Z :=
  match c with OwnEntry c => Some (step c) | InheritedMember => None end.

(** [Math.max(0, length - limit)]; with an undefined limit the
    difference is NaN and so is the maximum ([None]). *)
Definition start_index (len : nat) (limit : option Z) : option Z :=
  match limit with
  | Some l => Some (Z.max 0 (Z.of_nat len - l))
  | None => None
  end.

(** [arr.slice(start)] for a start that is a non-negative integer or
    NaN; NaN counts as 0. The result is a new array. *)
Definition js_slice {A} (start : option Z) (l : list A) : list A :=
  drop (Z.to_nat (default 0%Z start)) l.

(** [arr.filter((_, i) => p(i))], positions counted from [i]. *)
Fixpoint filter_from {A} (p : nat -> bool) (i : nat) (l : list A) : list A :=
  match l with
  | [] => []
  | x :: rest =>
      if p i then x :: filter_from p (S i) rest else filter_from p (S i) rest
  end.

Definition js_filter_index {A} (p : nat -> bool) (l : list A) : list A :=
  filter_from p 0 l.

(** [step > 1]; false for an undefined step. *)
Definition step_gt_1 (s : option Z) : bool :=
  match s with Some n => (1 <? n)%Z | None => false end.

(** [i % step === 0]. *)
Definition on_stride (s : option Z) (i : nat) : bool :=
  match s with Some n => (Z.of_nat i mod n =? 0)%Z | None => false end.

Definition Math_random `{Host} : JS Q :=
  fun w => (Ok (Math_random_at (drawn w)), set_drawn (S (drawn w)) w).

Definition pointsCount : nat := 100.

(** The body of the [for] loop of [mockHistoricalData], [k] iterations
    from index [i] on. *)
Fixpoint mock_loop `{Host} (k i : nat) (now : Z) (base : Q) (acc : ChartData)
  : JS ChartData :=
  match k with
  | 0 => ret acc
  | S k' =>
      let* r := Math_random in
      let base' := (base + (r - (45 # 100)) * 50)%Q in
      let d := (now - Z.of_nat (pointsCount - i) * 3600000)%Z in
      mock_loop k' (S i) now base'
        (mkChartData (labels acc ++ [shortDateOf d])
                     (data acc ++ [JNum base'])
                     (fullTimestamps acc ++ [localeStringOf d]))
  end.

Definition mockHistoricalData `{Host} (range : string) (now : Z) : JS ChartData :=
  mock_loop pointsCount 0 now 500%Q (mkChartData [] [] []).

Definition getFilteredChartData `{Host} (now : Z) : JS ChartData :=
  let* w := get in
  let st := state w in
  let cfg := default (OwnEntry (mkCfg 500 1)) (rangeConfig_get (chartTimeRange st)) in
  let limit := cfg_points cfg in
  let step := cfg_step cfg in
  let history := pnlHistory st in
  let timestamps := pnlTimestamps st in
  let fullTs := pnlFullTimestamps st in
  if (length history <? 50) && negb (String.eqb (chartTimeRange st) "1D")
  then mockHistoricalData (chartTimeRange st) now
  else
    let startIdx := start_index (length history) limit in
    let slicedData := js_slice startIdx history in
    let slicedTimestamps := js_slice startIdx timestamps in
    let slicedFullTimestamps := js_slice startIdx fullTs in
    if step_gt_1 step
    then ret (mkChartData (js_filter_index (on_stride step) slicedTimestamps)
                          (js_filter_index (on_stride step) slicedData)
                          (js_filter_index (on_stride step) slicedFullTimestamps))
    else ret (mkChartData slicedTimestamps slicedData slicedFullTimestamps).

(** [refreshChartData]: the chart object receives the view; without a
    chart the first member access throws. *)
Definition refreshChartData `{Host} (pg : Page) (now : Z) : JS unit :=
  let* view := getFilteredChartData now in
  let* w := get in
  match pnlChart w with
  | None => throw (TypeError "Cannot read properties of null (reading 'data')")
  | Some _ =>
      run* modify (set_pnlChart (Some view)) in
      if chartRenders pg then ret tt
      else throw (TypeError "Cannot read properties of null")
  end.

(** [setChartTimeRange]: the state is updated first; marking the button
    of the range throws when the page has no button for it. *)
Definition setChartTimeRange `{Host} (pg : Page) (now : Z) (range : string) : JS unit :=
  run* update (set_chartTimeRange range) in
  if negb (rangeButton pg range)
  then throw (TypeError "Cannot read properties of null (reading 'classList')")
  else
    let* w := get in
    match pnlChart w with
    | None => ret tt
    | Some _ => refreshChartData pg now
    end.

(** ** The polling tick *)

(** The two copies of the script differ in how the metrics payload is
    stored and in whether the dashboard refresh redraws the mode badge. *)
Inductive Variant : Type := Current | Static.

(** [v.k] where [v] may be null or undefined. *)
Definition prop (v : JsVal) (k : string) : JS JsVal :=
  match v with
  | JUndefined =>
      throw (TypeError ("Cannot read properties of undefined (reading '" +:+ k +:+ "')"))
  | JNull =>
      throw (TypeError ("Cannot read properties of null (reading '" +:+ k +:+ "')"))
  | _ => ret (member v k)
  end.

(** [mode.toLowerCase()]: only a string has the method. *)
Definition toLowerCase_check (mode : JsVal) : JS unit :=
  match mode with
  | JStr _ => ret tt
  | JUndefined =>
      throw (TypeError "Cannot read properties of undefined (reading 'toLowerCase')")
  | JNull =>
      throw (TypeError "Cannot read properties of null (reading 'toLowerCase')")
  | _ => throw (TypeError "mode.toLowerCase is not a function")
  end.

(** The feed label the header shows for a mode; [None] leaves the label
    as it is. *)
Definition feed_label (mode dataStatus : JsVal) : option JsVal :=
  if is_string "MOCK" mode then Some (JStr "INTERNAL FEED")
  else if is_string "SIMULATION" mode then Some (JStr "HISTORICAL REPLAY")
  else if is_string "PAPER" mode || is_string "REAL" mode
       then Some (if truthy dataStatus then dataStatus else JStr "LIVE DATA")
  else None.

Definition updateExecutionModeUI (pg : Page) (mode dataStatus : JsVal) : JS unit :=
  run* when (headerElements pg)
            (modify (fun w => set_display
               (mkModeDisplay mode (headerData (display w)) (selectedOption (display w))) w)) in
  run* when (modalGrid pg)
            (run* modify (fun w => set_display
               (mkModeDisplay (headerMode (display w)) (headerData (display w)) None) w) in
             run* toLowerCase_check mode in
             modify (fun w => set_display
               (mkModeDisplay (headerMode (display w)) (headerData (display w)) (Some mode)) w)) in
  run* when (headerElements pg)
            (match feed_label mode dataStatus with
             | Some l => modify (fun w => set_display
                 (mkModeDisplay (headerMode (display w)) l (selectedOption (display w))) w)
             | None => ret tt
             end) in
  let* w := get in
  run* when (truthy (metrics (state w)))
            (update (fun s => set_metrics (with_member (metrics s) "execution_mode" mode) s)) in
  when (truthy dataStatus) (modify (log_console "[DATA CONNECTION]")).

(** [updateMarketHeader()] up to its first [await]: the request for the
    selected market is issued, to the route of the copy of the script. The
    rest runs later and touches neither the snapshot nor the history. *)
Definition market_route (v : Variant) : string :=
  match v with
  | Current => "/api/v1/market/data/"
  | Static => "/api/v1/market/ohlc/"
  end.

Definition updateMarketHeader_start (v : Variant) : JS unit :=
  let* w := get in
  when (truthy (metrics (state w)))
       (modify (log_request (market_route v +:+ selectedMarket (state w)))).

Definition updateDashboardUI (v : Variant) (pg : Page) : JS unit :=
  let* w := get in
  if negb (truthy (metrics (state w))) then ret tt
  else
    run* match v with
         | Current =>
             when (truthy (executionMode (state w)))
                  (updateExecutionModeUI pg (executionMode (state w))
                                         (dataEngineStatus (state w)))
         | Static => ret tt
         end in
    run* updateMarketHeader_start v in
    let* w' := get in
    if dashboardRenders pg (state w') then ret tt
    else throw (TypeError "Cannot read properties of null").

(** The listener registered for [ACCOUNT_UPDATE]; [detail] is
    [event.detail]. *)
Definition accountUpdateListener (v : Variant) (pg : Page) (detail : JsVal) : JS unit :=
  if truthy detail && negb (is_undefined (member detail "balance")) then
    let* w := get in
    run* when (truthy (metrics (state w)))
              (update (fun s => set_metrics
                 (with_member (metrics s) "total_capital" (member detail "balance")) s)) in
    updateDashboardUI v pg
  else ret tt.

(** [window.dispatchEvent]: listeners run at once; what a listener throws
    is reported, not passed on to the dispatcher. *)
Definition dispatchEvent (listener : JS unit) : JS unit :=
  try_catch listener (fun _ => modify (log_console "Uncaught error in listener")).

(** [fetchRiskRules()] up to its first [await]. *)
Definition fetchRiskRules_start : JS unit :=
  modify (log_request "/api/v1/risk/rules").

Record TickInput : Type := mkTickInput {
  mResp : FetchOutcome;
  tResp : FetchOutcome;
  lResp : FetchOutcome;
  aResp : FetchOutcome;
  sResp : FetchOutcome;
  dResp : FetchOutcome;
  now : Z;
  page : Page
}.

Definition MAX_HISTORY : nat := 900.

(** [arr.push(x)] and [arr.shift()] as the new contents of the array. *)
Definition js_push {A} (l : list A) (x : A) : list A := l ++ [x].
Definition js_shift {A} (l : list A) : list A := tail l.

(** How a successful metrics response is stored. *)
Definition apply_metrics (v : Variant) (mRes : Response) : JS unit :=
  match v with
  | Current =>
      let* payload := json mRes in
      let* inner := prop payload "metrics" in
      run* update (set_metrics (js_or inner payload)) in
      run* when (truthy (member payload "market_data"))
                (update (set_market_data (member payload "market_data"))) in
      run* when (truthy (member payload "data_engine_status"))
                (update (set_dataEngineStatus (member payload "data_engine_status"))) in
      let* w := get in
      let* own := prop (metrics (state w)) "execution_mode" in
      update (set_executionMode (js_or own (member payload "execution_mode")))
  | Static =>
      let* payload := json mRes in
      update (set_metrics payload)
  end.

(** [if (pnlChart && !tab.classList.contains('hidden')) refreshChartData()]. *)
Definition redrawVisibleChart `{Host} (pg : Page) (now : Z) : JS unit :=
  let* w := get in
  match pnlChart w with
  | None => ret tt
  | Some _ =>
      match perfTabHidden pg with
      | None => throw (TypeError "Cannot read properties of null (reading 'classList')")
      | Some hidden => when (negb hidden) (refreshChartData pg now)
      end
  end.

(** The block guarded by [if (state.metrics)]: one point is appended to
    each of the three arrays, the oldest point is dropped when the values
    array has grown past [MAX_HISTORY], and a visible chart is redrawn. *)
Definition trackPnl `{Host} (pg : Page) (now : Z) : JS unit :=
  let* w := get in
  if negb (truthy (metrics (state w))) then ret tt
  else
    let fullTime := fullTimeOf now in
    let compressedTime := compressedTimeOf now in
    run* update (fun s => set_pnlHistory (js_push (pnlHistory s) (member (metrics s) "daily_pnl")) s) in
    run* update (fun s => set_pnlTimestamps (js_push (pnlTimestamps s) compressedTime) s) in
    run* update (fun s => set_pnlFullTimestamps (js_push (pnlFullTimestamps s) fullTime) s) in
    let* w1 := get in
    run* when (MAX_HISTORY <? length (pnlHistory (state w1)))
              (run* update (fun s => set_pnlHistory (js_shift (pnlHistory s)) s) in
               run* update (fun s => set_pnlTimestamps (js_shift (pnlTimestamps s)) s) in
               update (fun s => set_pnlFullTimestamps (js_shift (pnlFullTimestamps s)) s)) in
    redrawVisibleChart pg now.

(** [if (res.ok) state.field = await res.json()]. *)
Definition store (r : Response) (set : JsVal -> State -> State) : JS unit :=
  when (ok r) (let* x := json r in update (set x)).

(** The balance response is stored and broadcast at once. *)
Definition storeBalance (v : Variant) (pg : Page) (aRes : Response) : JS unit :=
  when (ok aRes)
       (let* x := json aRes in
        run* update (set_account_update x) in
        dispatchEvent (accountUpdateListener v pg x)).

(** The first part of the [try] block of [fetchSystemData]: the six
    requests and the assignments of their responses, in the order of the
    source. *)
Definition syncSnapshot (v : Variant) (inp : TickInput) : JS unit :=
  let* mRes := fetch "/api/v1/dashboard/metrics" (mResp inp) in
  let* tRes := fetch "/api/v1/trades/open" (tResp inp) in
  let* lRes := fetch "/api/v1/alerts/logs" (lResp inp) in
  let* aRes := fetch "/api/v1/account/balance" (aResp inp) in
  run* when (ok mRes) (apply_metrics v mRes) in
  run* store tRes set_trades in
  run* store lRes set_logs in
  run* storeBalance v (page inp) aRes in
  let* sRes := fetch "/api/v1/agents/status" (sResp inp) in
  let* dRes := fetch "/api/v1/agents/audit" (dResp inp) in
  run* store sRes set_agentV2Status in
  store dRes set_auditTrail.

(** The last part of the [try] block, after the history step. *)
Definition refreshDashboard (v : Variant) (inp : TickInput) : JS unit :=
  run* updateDashboardUI v (page inp) in
  let* w := get in
  when (isAuth (state w)) fetchRiskRules_start.

(** The body of the [try] block of [fetchSystemData]. *)
Definition fetchSystemData_body `{Host} (v : Variant) (inp : TickInput) : JS unit :=
  run* syncSnapshot v inp in
  run* trackPnl (page inp) (now inp) in
  refreshDashboard v inp.

Definition fetchSystemData `{Host} (v : Variant) (inp : TickInput) : JS unit :=
  let* w := get in
  if negb (isAuth (state w)) then ret tt
  else try_catch (fetchSystemData_body v inp)
                 (fun _ => modify (log_console "API Sync Failed")).

(** [fetchSystemData()] called without [await]: the call runs up to its
    first [await] before the caller goes on, so in a signed-in session the
    metrics request of a new tick is out when the call returns. The rest
    of that tick runs after the caller is done. [resyncs] counts these
    calls. *)
Definition fetchSystemData_call (w : World) : World :=
  let w1 := request_resync w in
  if isAuth (state w1) then log_request "/api/v1/dashboard/metrics" w1 else w1.

(** One tick of the timer, and a run of ticks one after the other. A tick
    is run to its end before the next one starts; ticks that overlap in
    time are outside the model (the history step has no [await] in it, so
    it runs in one piece in any case). [updateDetectedPatterns], which only
    redraws a list, is left out. *)
Definition tick `{Host} (v : Variant) (w : World) (inp : TickInput) : World :=
  run (fetchSystemData v inp) w.

Definition ticks `{Host} (v : Variant) (w : World) (inps : list TickInput) : World :=
  foldl (tick v) w inps.

(** ** Session reset *)

(** [controlSystem(action)]: [confirmed] is the answer to the dialog of
    the reset, [post] the outcome of the request of the other actions and
    [resync] the tick that follows it. *)
Definition controlSystem `{Host} (v : Variant) (action : string) (confirmed : bool)
    (post : FetchOutcome) (resync : TickInput) : JS unit :=
  if String.eqb action "reset" then
    if negb confirmed then ret tt
    else
      run* update (set_logs (JArr [])) in
      run* update (set_pnlHistory []) in
      run* modify (log_alert "Session Reset Initiated.") in
      modify request_reload
  else
    let route := if String.eqb action "start" then "system/start"
                 else if String.eqb action "square_off_all" then "system/square_off_all"
                 else "system/pause" in
    let* _ := fetch ("/api/v1/" +:+ route) post in
    fetchSystemData v resync.

(** ** Switching the execution mode *)

(** [hay.includes(needle)]. *)
Fixpoint includes (needle hay : string) : bool :=
  if String.prefix needle hay then true
  else match hay with
       | EmptyString => false
       | String _ rest => includes needle rest
       end.

(** The message of the [catch] block of [confirmModeSwitch]. *)
Definition switch_error_message (e : JsError) : string :=
  if String.eqb (ename e) "AbortError"
  then "Request timed out. Server took too long to respond."
  else if includes "Failed to fetch" (emessage e) || includes "NetworkError" (emessage e)
  then "Connection error: Could not reach the server. Please check if the server is running."
  else if includes "JSON" (emessage e)
  then "Server response error: Invalid data format received."
  else if negb (String.eqb (emessage e) "")
  then "Mode switch error: " +:+ emessage e
  else "Could not switch execution mode.".

Definition closeModeModal : JS unit := modify (set_modalOpen false).

(** The part of [confirmModeSwitch] that runs at the click, up to the
    [await] of the request. The result tells whether a request is now
    outstanding. [confirmed] is the answer the user gives if the dialog
    for REAL is shown. *)
Definition confirmModeSwitch_call (pg : Page) (mode : string) (confirmed : bool)
    (w : World) : bool * World :=
  if isSwitchingMode w then
    (false, log_alert "Mode change unavailable at this time (Operation in progress)" w)
  else if String.eqb mode "REAL" && negb confirmed then (false, w)
  else
    let w1 := set_isSwitchingMode true w in
    let w2 := if modalGrid pg
              then set_display (mkModeDisplay (headerMode (display w1))
                                              (headerData (display w1))
                                              (Some (JStr mode))) w1
              else w1 in
    (true, log_request "/api/v1/system/mode" w2).

(** [res.json().catch(() => ({ detail: `HTTP ${res.status}` }))]. *)
Definition error_payload (res : Response) : JsVal :=
  match body res with
  | inl _ => JObj [("detail", JStr ("HTTP " +:+ pretty (status res)))]
  | inr v => v
  end.

(** The text [new Error(x)] gets for its message. *)
Definition error_text `{Host} (x : JsVal) : string :=
  match x with
  | JStr s => s
  | _ => to_display_string x
  end.

(** The [try] block once the request has settled with outcome [o]. *)
Definition confirmModeSwitch_try `{Host} (pg : Page) (mode : string) (o : FetchOutcome)
  : JS unit :=
  let* res := match o with
              | Rejected e => throw e
              | Responded r => ret r
              end in
  if negb (ok res) then
    let errorData := error_payload res in
    let* detail := prop errorData "detail" in
    throw (PlainError (error_text
             (js_or detail (JStr ("Server error: " +:+ pretty (status res))))))
  else
    let* payload := json res in
    let* st := prop payload "status" in
    if is_string "success" st then
      run* updateExecutionModeUI pg (member payload "mode") (member payload "data_status") in
      run* closeModeModal in
      run* modify (log_console "[MODE SWITCH]") in
      modify fetchSystemData_call
    else
      let reason := js_or (member payload "detail")
                          (js_or (member payload "message") (JStr "Unknown error")) in
      modify (log_alert ("Mode switch blocked: " +:+ error_text reason)).

(** The rest of [confirmModeSwitch], run when the request has come to
    its end with outcome [o]: [fetch] has rejected, or the response has
    arrived and the reading of its body has ended (decoded, or with an
    error). The [try] block, its [catch] and its [finally]. A response
    whose body never ends never gets here, see [Switch]. *)
Definition confirmModeSwitch_settle `{Host} (pg : Page) (mode : string) (o : FetchOutcome)
  : JS unit :=
  try_finally
    (try_catch (confirmModeSwitch_try pg mode o)
               (fun e => run* modify (log_console "[MODE SWITCH ERROR]") in
                         modify (log_alert (switch_error_message e))))
    (set_isSwitchingMode false).

(** The switch as a machine: the world and the attempts whose request
    has been issued and has not come to its end yet. [Settle pg o] is the
    end of the oldest of them, with outcome [o]. *)
Record Machine : Type := mkMachine {
  world : World;
  outstanding : list string
}.

Inductive Event : Type :=
  | Click (pg : Page) (mode : string) (confirmed : bool)
  | Settle (pg : Page) (o : FetchOutcome).

Definition machine_step `{Host} (m : Machine) (ev : Event) : Machine :=
  match ev with
  | Click pg mode confirmed =>
      let '(issued, w') := confirmModeSwitch_call pg mode confirmed (world m) in
      mkMachine w' (if issued then outstanding m ++ [mode] else outstanding m)
  | Settle pg o =>
      match outstanding m with
      | [] => m
      | mode :: rest => mkMachine (run (confirmModeSwitch_settle pg mode o) (world m)) rest
      end
  end.

Definition machine_steps `{Host} (m : Machine) (evs : list Event) : Machine :=
  foldl machine_step m evs.

Definition machine_start (w : World) : Machine := mkMachine w [].

(** *** An attempt between the click and its end *)

(** An outstanding attempt first waits for its response, with the 10 s
    timer armed ([setTimeout(() => controller.abort(), 10000)] before
    [await fetch]); when the response arrives the timer is cleared
    ([clearTimeout(timeoutId)]) and the attempt waits for the body of the
    response ([await res.json()]). [awaited] holds [res.ok] and
    [res.status] of the response whose body is being read, and [None]
    while no response has arrived. *)
Record Switch : Type := mkSwitch {
  machine : Machine;
  awaited : option (bool * nat)
}.

(** What can happen to the switch: a click on a mode option; the request
    failing on the network; the timer of the outstanding attempt firing;
    the response arriving, its body still to come; the reading of the body
    coming to its end, with the value decoded or with an error. *)
Inductive Signal : Type :=
  | Press (pg : Page) (mode : string) (confirmed : bool)
  | RequestFails (pg : Page) (e : JsError)
  | TimerFires (pg : Page)
  | ResponseArrives (res_ok : bool) (res_status : nat)
  | BodyEnds (pg : Page) (b : JsError + JsVal).

(** The error [fetch] rejects with when its controller aborts. *)
Definition abort_error : JsError := mkError "AbortError" "The user aborted a request.".

(** A rejected request and a fired timer count only while the attempt
    waits for its response: once the response has arrived the [await] of
    the request is over and the timer is cleared. A body counts only once
    the response has arrived. *)
Definition switch_step `{Host} (s : Switch) (sg : Signal) : Switch :=
  match sg with
  | Press pg mode confirmed =>
      mkSwitch (machine_step (machine s) (Click pg mode confirmed)) (awaited s)
  | RequestFails pg e =>
      match awaited s with
      | None => mkSwitch (machine_step (machine s) (Settle pg (Rejected e))) None
      | Some _ => s
      end
  | TimerFires pg =>
      match awaited s with
      | None => mkSwitch (machine_step (machine s) (Settle pg (Rejected abort_error))) None
      | Some _ => s
      end
  | ResponseArrives res_ok res_status =>
      match awaited s, outstanding (machine s) with
      | None, _ :: _ => mkSwitch (machine s) (Some (res_ok, res_status))
      | _, _ => s
      end
  | BodyEnds pg b =>
      match awaited s with
      | Some (res_ok, res_status) =>
          mkSwitch (machine_step (machine s)
                      (Settle pg (Responded (mkResponse res_ok res_status b))))
                   None
      | None => s
      end
  end.

Definition switch_steps `{Host} (s : Switch) (sgs : list Signal) : Switch :=
  foldl switch_step s sgs.

Definition switch_start (w : World) : Switch := mkSwitch (machine_start w) None.

(** A signal other than the end of a body. *)
Definition leaves_body_pending (sg : Signal) : bool :=
  match sg with
  | BodyEnds _ _ => false
  | _ => true
  end.

(** The clicks among the signals. *)
Definition presses (sgs : list Signal) : nat :=
  length (List.filter (fun sg => match sg with Press _ _ _ => true | _ => false end) sgs).

(** ** The price box of the market header *)

(** Numbers that may be NaN ([None]). *)
Definition to_number `{Host} (v : JsVal) : option Q :=
  match v with
  | JUndefined => None
  | JNull => Some 0%Q
  | JBool b => Some (if b then 1%Q else 0%Q)
  | JNum q => Some q
  | JStr s => string_to_number s
  | JArr _ | JObj _ => object_to_number v
  end.

Definition num_op (f : Q -> Q -> Q) (a b : option Q) : option Q :=
  match a, b with
  | Some x, Some y => Some (f x y)
  | _, _ => None
  end.

Definition Qlt_bool (x y : Q) : bool := negb (Qle_bool y x).

(** [a > b] and [a >= b]; a comparison with NaN is false. *)
Definition num_gt (a b : option Q) : bool :=
  match a, b with Some x, Some y => Qlt_bool y x | _, _ => false end.
Definition num_ge (a b : option Q) : bool :=
  match a, b with Some x, Some y => Qle_bool y x | _, _ => false end.

(** [v !== n] for a number [n]. *)
Definition strict_ne_number (v : JsVal) (n : option Q) : bool :=
  match v, n with
  | JNum q, Some x => negb (Qeq_bool q x)
  | _, _ => true
  end.

(** What the elements of a box show. *)
Inductive LtpContent : Type :=
  | NoContent
  | LoadingShimmer
  | PriceText (text : string).

Inductive LabelContent : Type :=
  | NoLabel
  | PlainLabel (symbol : JsVal)
  | BadgeLabel (symbol : JsVal) (badge : string) (text : JsVal).

Record PriceBox : Type := mkPriceBox {
  labelEl : LabelContent;
  ltpEl : LtpContent;
  chgEl : string;
  chgBackground : string;
  chgColor : string;
  ltpColor : string;
  lastLtp : option string;
  staleText : bool;
  pulseBackground : string;
  flashClass : option string;
  commodityExtra : option string;
  fromTemplate : bool
}.

(** The box the callback creates when there is none at its index: it has
    the label, the price, the change and the pulse element. *)
Definition new_box : PriceBox :=
  mkPriceBox NoLabel NoContent "" "" "" "" None false "" None None true.

(** The box drawn for a closed market. It carries the class of a price
    box and has a label and a price element, but neither a change element
    nor a pulse. *)
Definition closed_placeholder (st : State) : PriceBox :=
  mkPriceBox (PlainLabel (JStr (selectedMarket st))) (PriceText "MARKET CLOSED")
             "" "" "" "" None false "" None None false.

(** The [filter(Boolean).join(' | ')] of the two texts. *)
Definition join_extra (bidAsk oiText : string) : string :=
  if String.eqb bidAsk "" then oiText
  else if String.eqb oiText "" then bidAsk
  else bidAsk +:+ " | " +:+ oiText.

Definition no_change_element : JsError :=
  TypeError "Cannot set properties of null (setting 'textContent')".

(** The callback of [dataItems.forEach] in [updateMarketHeader]: the
    outcome and the box as the callback leaves it. On a box without a
    change element the first write to that element throws, after the price
    element has been written. *)
Definition renderPriceItem `{Host} (st : State) (item : JsVal) (box : PriceBox)
  : Result unit * PriceBox :=
  match item with
  | JUndefined | JNull =>
      (Throw (TypeError "Cannot read properties of null (reading 'instrument')"), box)
  | _ =>
      let symbol := js_or (member item "instrument") (JStr (selectedMarket st)) in
      let ltp := if is_zero_number (member item "ltp") then JNull else member item "ltp" in
      let close := js_or (member item "close") (js_or ltp (JNum 1)) in
      let change := if negb (is_null ltp) && negb (is_undefined ltp)
                    then num_op Qminus (to_number ltp) (to_number close)
                    else Some 0%Q in
      let pct := if num_gt (to_number close) (Some 0%Q) && negb (is_null ltp)
                 then toFixed2 (num_op Qmult (num_op Qdiv change (to_number close))
                                             (Some 100%Q))
                 else "--" in
      let itemStatus := js_or (member item "status")
                              (js_or (member item "data_status") (JStr "LIVE")) in
      if is_null ltp || is_undefined ltp || is_string "LOADING" itemStatus then
        if fromTemplate box then
          (Ok tt,
           mkPriceBox (PlainLabel symbol) LoadingShimmer "--%" "rgba(255,255,255,0.05)"
                      (chgColor box) (ltpColor box) (lastLtp box) (staleText box)
                      (pulseBackground box) (flashClass box) (commodityExtra box) true)
        else
          (Throw no_change_element,
           mkPriceBox (labelEl box) LoadingShimmer (chgEl box) (chgBackground box)
                      (chgColor box) (ltpColor box) (lastLtp box) (staleText box)
                      (pulseBackground box) (flashClass box) (commodityExtra box) false)
      else
        let oldLtp := match lastLtp box with
                      | Some s => if String.eqb s "" then Some 0%Q else parseFloat s
                      | None => Some 0%Q
                      end in
        let flash := if num_gt oldLtp (Some 0%Q) && strict_ne_number ltp oldLtp
                     then Some (if num_gt (to_number ltp) oldLtp
                                then "price-flash-up" else "price-flash-down")
                     else flashClass box in
        let up := num_ge change (Some 0%Q) in
        let status_view :=
          if is_string "STALE" itemStatus || is_string "MARKET_CLOSED" itemStatus
          then (true, "var(--warning)", BadgeLabel symbol "badge warning" itemStatus)
          else if is_string "VIRTUAL" itemStatus
          then (false, "var(--accent)", BadgeLabel symbol "badge" (JStr "VIRTUAL"))
          else (false, "var(--success)",
                if String.eqb (selectedMarket st) "COMMODITY"
                   && truthy (member item "data_source")
                   && negb (is_string "CACHE" (member item "data_source"))
                then BadgeLabel symbol "badge success" (member item "data_source")
                else PlainLabel symbol) in
        let extra :=
          if String.eqb (selectedMarket st) "COMMODITY"
             && truthy (member item "bid") && truthy (member item "ask")
          then
            let bidAsk :=
              if num_gt (to_number (member item "bid")) (Some 0%Q)
                 && num_gt (to_number (member item "ask")) (Some 0%Q)
              then "B:" +:+ toLocaleString_en_IN (member item "bid")
                   +:+ " A:" +:+ toLocaleString_en_IN (member item "ask")
              else "" in
            let oiText :=
              if num_gt (to_number (member item "open_interest")) (Some 0%Q)
              then "OI:" +:+ toLocaleString_en_IN (member item "open_interest")
              else "" in
            Some (join_extra bidAsk oiText)
          else commodityExtra box in
        if fromTemplate box then
          (Ok tt,
           mkPriceBox (snd status_view) (PriceText (toLocaleString_en_IN ltp))
                      ((if up then "+" else "") +:+ pct +:+ "%")
                      (if up then "rgba(0,255,157,0.1)" else "rgba(255,62,62,0.1)")
                      (if up then "var(--success)" else "var(--danger)")
                      (if up then "var(--success)" else "var(--danger)")
                      (Some (to_display_string ltp)) (fst (fst status_view))
                      (snd (fst status_view)) flash extra true)
        else
          (Throw no_change_element,
           mkPriceBox (snd status_view) (PriceText (toLocaleString_en_IN ltp))
                      (chgEl box) (chgBackground box) (chgColor box) (ltpColor box)
                      (Some (to_display_string ltp)) (fst (fst status_view))
                      (pulseBackground box) flash (commodityExtra box) false)
  end.

(** [dataItems.forEach(...)] over the boxes of the container: the box at
    the item's index is updated, a missing one is created and appended. A
    throwing item ends the loop; what was drawn before it stays. *)
Fixpoint renderItems `{Host} (st : State) (items : list JsVal) (index : nat)
    (boxes : list PriceBox) : Result unit * list PriceBox :=
  match items with
  | [] => (Ok tt, boxes)
  | item :: rest =>
      let '(r, b) := renderPriceItem st item (default new_box (boxes !! index)) in
      let boxes' := if decide (index < length boxes)
                    then <[index := b]> boxes else boxes ++ [b] in
      match r with
      | Ok _ => renderItems st rest (S index) boxes'
      | Throw e => (Throw e, boxes')
      end
  end.

(** [dataItems.filter(item => item.instrument === state.selectedCommodity)]. *)
Fixpoint filter_commodity (st : State) (items : list JsVal) : Result (list JsVal) :=
  match items with
  | [] => Ok []
  | JUndefined :: _ | JNull :: _ =>
      Throw (TypeError "Cannot read properties of null (reading 'instrument')")
  | item :: rest =>
      match filter_commodity st rest with
      | Throw e => Throw e
      | Ok kept =>
          Ok (if is_string (selectedCommodity st) (member item "instrument")
              then item :: kept else kept)
      end
  end.

(** The part of [updateMarketHeader] that runs once the response body
    [response] is there, on the boxes of the price container. The two
    commodity feed fields it also writes are not part of [State]. *)
Definition updateMarketHeader_render `{Host} (st : State) (response : JsVal)
    (boxes : list PriceBox) : Result unit * list PriceBox :=
  match response with
  | JUndefined | JNull =>
      (Throw (TypeError "Cannot read properties of null (reading 'status')"), boxes)
  | _ =>
      if is_string "MARKET_CLOSED" (member response "status")
      then (Ok tt, [closed_placeholder st])
      else if is_string "DATA_UNAVAILABLE" (member response "status")
      then (Ok tt, boxes)
      else if is_string "success" (member response "status") then
        let dataItems := match member response "data" with
                         | JArr items => items
                         | _ => [response]
                         end in
        match (if String.eqb (selectedMarket st) "COMMODITY"
               then filter_commodity st dataItems else Ok dataItems) with
        | Throw e => (Throw e, boxes)
        | Ok items =>
            renderItems st items 0
              (if length boxes =? length items then boxes else [])
        end
      else (Ok tt, boxes)
  end.

(** ** Vocabulary of the properties *)

(** The three parallel arrays of the P&L history. *)
Definition Buffer : Type := list JsVal * list string * list string.

Definition buffer (w : World) : Buffer :=
  (pnlHistory (state w), pnlTimestamps (state w), pnlFullTimestamps (state w)).

Definition buffer_length (w : World) : nat := length (pnlHistory (state w)).

Definition aligned (w : World) : Prop :=
  length (pnlTimestamps (state w)) = length (pnlHistory (state w))
  /\ length (pnlFullTimestamps (state w)) = length (pnlHistory (state w)).

(** One point appended to each array, then the oldest point dropped from
    each when the values array has grown past [MAX_HISTORY]. *)
Definition push_trim (b : Buffer) (x : JsVal) (ct ft : string) : Buffer :=
  let '(h, t, f) := b in
  if MAX_HISTORY <? length (js_push h x)
  then (js_shift (js_push h x), js_shift (js_push t ct), js_shift (js_push f ft))
  else (js_push h x, js_push t ct, js_push f ft).

(** The invariant of the history buffer. *)
Definition within_capacity (w : World) : Prop :=
  aligned w /\ buffer_length w <= MAX_HISTORY.

(** The session starts when the login succeeds. *)
Definition session_start : World := with_state (set_isAuth true) page_load.

(** The read endpoints whose response replaces one field of the state. *)
Inductive Endpoint : Type := Trades | Logs | Balance | AgentStatus | Audit.

Definition field_of (e : Endpoint) (s : State) : JsVal :=
  match e with
  | Trades => trades s
  | Logs => logs s
  | Balance => account_update s
  | AgentStatus => agentV2Status s
  | Audit => auditTrail s
  end.

Definition response_of (e : Endpoint) (inp : TickInput) : FetchOutcome :=
  match e with
  | Trades => tResp inp
  | Logs => lResp inp
  | Balance => aResp inp
  | AgentStatus => sResp inp
  | Audit => dResp inp
  end.



(** A request that is rejected, and an OK response whose body does not
    decode. *)
Definition rejected (o : FetchOutcome) : bool :=
  match o with Rejected _ => true | Responded _ => false end.



(** A request that resolves, with a body that decodes if it is OK. *)
Definition sound (o : FetchOutcome) : bool :=
  match o with
  | Rejected _ => false
  | Responded r => negb (ok r) || match body r with inl _ => false | inr _ => true end
  end.

(** The metrics payload the current script can store: reading
    [data.metrics] throws on a null payload. *)
Definition storable (v : Variant) (o : FetchOutcome) : bool :=
  match v, o with
  | Current, Responded r =>
      negb (ok r) || match body r with
                     | inr JNull | inr JUndefined => false
                     | _ => true
                     end
  | _, _ => true
  end.

(** A tick in which nothing throws before the history step. *)
Definition clean (v : Variant) (inp : TickInput) : bool :=
  sound (mResp inp) && storable v (mResp inp) && sound (tResp inp) && sound (lResp inp)
  && sound (aResp inp) && sound (sResp inp) && sound (dResp inp).

(** Every request of the tick resolves, and every body of an OK response
    decodes. *)
Definition answered (inp : TickInput) : bool :=
  sound (mResp inp) && sound (tResp inp) && sound (lResp inp) && sound (aResp inp)
  && sound (sResp inp) && sound (dResp inp).

(** Whether a computation returned. *)
Definition returned {A} (r : Result A) : bool :=
  match r with
  | Ok _ => true
  | Throw _ => false
  end.

(** Whether the tick started in [w] gets to its history step with a
    metrics snapshot known: the session is signed in, the snapshot part of
    the tick ends without throwing, and [state.metrics] is then set. The
    value of the point it then appends is the [daily_pnl] of that
    snapshot. *)
Definition appends_point (v : Variant) (inp : TickInput) (w : World) : bool :=
  isAuth (state w) && returned (fst (syncSnapshot v inp w))
  && truthy (metrics (state (run (syncSnapshot v inp) w))).

Definition appended_value (v : Variant) (inp : TickInput) (w : World) : JsVal :=
  member (metrics (state (run (syncSnapshot v inp) w))) "daily_pnl".

(** The value a field holds after its response [o] has been applied to
    the previous value [old]. *)
Definition applied (o : FetchOutcome) (old : JsVal) : JsVal :=
  match o with
  | Responded r => if ok r then match body r with inr x => x | inl _ => old end else old
  | Rejected _ => old
  end.

(** The metrics value the script assigns for a payload. *)
Definition metrics_of_payload (v : Variant) (payload : JsVal) : JsVal :=
  match v with
  | Current => js_or (member payload "metrics") payload
  | Static => payload
  end.

Definition applied_metrics (v : Variant) (o : FetchOutcome) (old : JsVal) : JsVal :=
  match o with
  | Responded r =>
      if ok r then match body r with inr x => metrics_of_payload v x | inl _ => old end
      else old
  | Rejected _ => old
  end.

(** An object without the members named in [ks]; other values as they
    are. *)
Definition without_members (ks : list string) (v : JsVal) : JsVal :=
  match v with
  | JObj fs => JObj (filter (fun kv => existsb (String.eqb (fst kv)) ks = false) fs)
  | _ => v
  end.

(** Two values that differ at most in the members named in [ks]. *)
Definition same_but (ks : list string) (a b : JsVal) : Prop :=
  without_members ks a = without_members ks b.

(** The members of [state.metrics] that the balance listener and the mode
    badge write. *)
Definition written_through : list string := ["total_capital"; "execution_mode"].

(** The metrics object up to the members written through. *)
Definition metrics_core (w : World) : JsVal :=
  without_members written_through (metrics (state w)).

(** The downsampling algorithm in the words of the specification: take
    the most recent [limit] points (all of them if there are fewer), then
    keep every [stride]-th point of that window, starting with its first. *)
Definition most_recent {A} (limit : nat) (l : list A) : list A :=
  reverse (take limit (reverse l)).

Fixpoint every_nth_after {A} (stride skip : nat) (l : list A) : list A :=
  match l with
  | [] => []
  | x :: rest =>
      match skip with
      | 0 => x :: every_nth_after stride (stride - 1) rest
      | S k => every_nth_after stride k rest
      end
  end.

Definition every_nth {A} (stride : nat) (l : list A) : list A :=
  every_nth_after stride 0 l.

Definition spec_downsample {A} (limit stride : nat) (l : list A) : list A :=
  every_nth stride (most_recent limit l).

Definition spec_view (limit stride : nat) (st : State) : ChartData :=
  mkChartData (spec_downsample limit stride (pnlTimestamps st))
              (spec_downsample limit stride (pnlHistory st))
              (spec_downsample limit stride (pnlFullTimestamps st)).

Definition ceil_div (a b : nat) : nat := (a + b - 1) / b.

Definition supported_ranges : list string := ["1D"; "5D"; "1M"; "3M"; "6M"; "1Y"].

(** The window and the stride of a range, as numbers of points. *)
Definition config_of (range : string) : RangeCfg :=
  default (mkCfg 500 1) (assoc range rangeConfig).
Definition point_limit (range : string) : nat := Z.to_nat (points (config_of range)).
Definition stride_step (range : string) : nat := Z.to_nat (step (config_of range)).

(** The branch [getFilteredChartData] takes. *)
Definition synthetic_branch (st : State) : bool :=
  (length (pnlHistory st) <? 50) && negb (String.eqb (chartTimeRange st) "1D").

(** A computation keeps an observation [f] of the world when [f] reads
    the same after it as before, whether it returns or throws. *)
Definition keeps {A B} (f : World -> B) (m : JS A) : Prop :=
  forall w, f (run m w) = f w.

(** A world update that the observation [f] does not see. *)
Definition blind_to {B} (f : World -> B) (g : World -> World) : Prop :=
  forall w, f (g w) = f w.

(** The invariant of the mode switch: the flag is set exactly while one
    request is outstanding, and there is never more than one. *)
Definition single_flight (m : Machine) : Prop :=
  (isSwitchingMode (world m) = true /\ exists mode, outstanding m = [mode])
  \/ (isSwitchingMode (world m) = false /\ outstanding m = []).

(** The requests for a mode change among the requests issued. *)
Definition mode_requests (w : World) : nat :=
  length (filter (fun u => u = "/api/v1/system/mode") (requests w)).

(** The number of points of a view, and whether its first value is the
    number [q]. *)
Definition view_points (r : Result ChartData) : option nat :=
  match r with
  | Ok view => Some (length (data view))
  | Throw _ => None
  end.

Definition first_value_is (q : Q) (r : Result ChartData) : bool :=
  match r with
  | Ok view => match data view with
               | JNum x :: _ => Qeq_bool x q
               | _ => false
               end
  | Throw _ => false
  end.

(** ** A host to run the model on concrete inputs *)

Definition show_number (q : option Q) : string :=
  match q with
  | Some x => pretty (Qfloor x)
  | None => "NaN"
  end.

Definition show_value (v : JsVal) : string :=
  match v with
  | JUndefined => "undefined"
  | JNull => "null"
  | JBool b => if b then "true" else "false"
  | JNum q => pretty (Qfloor q)
  | JStr s => s
  | JArr _ => ""
  | JObj _ => "[object Object]"
  end.

(** The first hundred draws of the random source are 0, the later ones
    one half. *)
Definition sample_host : Host := {|
  Math_random_at n := if n <? 100 then 0%Q else (1 # 2)%Q;
  fullTimeOf z := pretty z;
  compressedTimeOf z := pretty z;
  shortDateOf z := pretty z;
  localeStringOf z := pretty z;
  string_to_number _ := None;
  parseFloat _ := None;
  object_to_number _ := None;
  toFixed2 := show_number;
  toLocaleString_en_IN := show_value;
  to_display_string := show_value
|}.

Definition sample_page : Page :=
  mkPage true true (Some true) true (fun _ => true)
         (fun range => existsb (String.eqb range) supported_ranges).

Definition ok_json (v : JsVal) : FetchOutcome := Responded (mkResponse true 200 (inr v)).
Definition http_error (code : nat) : FetchOutcome :=
  Responded (mkResponse false code (inr (JObj [("detail", JStr "Internal Server Error")]))).
Definition network_down : FetchOutcome := Rejected (TypeError "Failed to fetch").
Definition timed_out : FetchOutcome :=
  Rejected (mkError "AbortError" "The user aborted a request.").

(** An open position as the trades endpoint lists it. *)
Definition sample_position : JsVal :=
  JObj [("instrument", JStr "NIFTY24JANFUT"); ("pnl", JNum 120)].

(** A tick at instant 0 in which every endpoint but metrics answers 200
    with a small payload; the metrics outcome is the argument. *)
Definition sample_tick (m : FetchOutcome) : TickInput :=
  mkTickInput m (ok_json (JArr [sample_position])) (ok_json (JArr []))
              (ok_json (JObj [("balance", JNum 7)])) (ok_json (JObj []))
              (ok_json (JArr [])) 0 sample_page.

(** A session with [n] recorded points, looking at [range]. *)
Definition world_with_history (n : nat) (range : string) : World :=
  with_state (fun s => set_chartTimeRange range
                         (set_pnlFullTimestamps (replicate n "Jan 1, 09:15:00")
                           (set_pnlTimestamps (replicate n "09:15:00")
                             (set_pnlHistory (replicate n (JNum 10)) s))))
             session_start.

(** Two payloads for one instrument: no price yet, and a live price. *)
Definition item_no_price : JsVal :=
  JObj [("instrument", JStr "NIFTY"); ("ltp", JNum 0); ("close", JNum 22000)].
Definition item_live_price : JsVal :=
  JObj [("instrument", JStr "NIFTY"); ("ltp", JNum 22110); ("close", JNum 22000)].

(** A session that has already received metrics with a daily P&L of 10. *)
Definition sample_metrics : JsVal :=
  JObj [("daily_pnl", JNum 10); ("total_capital", JNum 100000)].

(** A session whose history is full: 900 points, the oldest with the
    value 1 and every other with the value 10. *)
Definition full_world : World :=
  with_state (fun s => set_pnlFullTimestamps (replicate 900 "Jan 1, 09:15:00")
                         (set_pnlTimestamps (replicate 900 "09:15:00")
                           (set_pnlHistory (JNum 1 :: replicate 899 (JNum 10))
                             (set_metrics sample_metrics s))))
             session_start.

Definition sample_world : World :=
  with_state (fun s => set_pnlFullTimestamps ["Jan 1, 09:15:00"]
                         (set_pnlTimestamps ["09:15:00"]
                           (set_pnlHistory [JNum 10]
                             (set_metrics sample_metrics s))))
             session_start.

(** ** Vocabulary of the further properties *)


(** The index in the buffer of the first point of the window of a range,
    for a buffer of [n] points. *)
Definition window_start (range : string) (n : nat) : nat := n - point_limit range.

(** What a tick never touches. *)
Definition session_controls (w : World)
  : bool * string * string * string * bool * bool * list string * nat * nat :=
  (isAuth (state w), selectedMarket (state w), selectedCommodity (state w),
   chartTimeRange (state w), isSwitchingMode w, modalOpen w, alerts w, reloads w,
   resyncs w).

(** A page whose performance tab is on screen, a tick on a given page and
    a world in which the chart has been created. *)
Definition visible_page : Page :=
  mkPage true true (Some false) true (fun _ => true)
         (fun range => existsb (String.eqb range) supported_ranges).

Definition with_page (pg : Page) (inp : TickInput) : TickInput :=
  mkTickInput (mResp inp) (tResp inp) (lResp inp) (aResp inp) (sResp inp) (dResp inp)
              (now inp) pg.

Definition charted (w : World) : World := set_pnlChart (Some (mkChartData [] [] [])) w.


(** The outcome of a mode request that the backend accepted: an OK
    response whose body decodes to a payload with status [success]. *)
Definition accepted_payload (o : FetchOutcome) : option JsVal :=
  match o with
  | Responded r =>
      if ok r then
        match body r with
        | inr payload => if is_string "success" (member payload "status")
                         then Some payload else None
        | inl _ => None
        end
      else None
  | Rejected _ => None
  end.

(** What a settled mode request can touch besides the mode itself. *)
Definition switch_effects (w : World) : nat * list string * bool :=
  (resyncs w, alerts w, modalOpen w).

(** What no mode request has touched when its handler ends. *)
Definition switch_untouched (w : World) : nat * Buffer * option ChartData * nat :=
  (reloads w, buffer w, pnlChart w, drawn w).

(** The requests that a call of [fetchSystemData()] sends before it
    returns to its caller: the metrics request of the tick it starts, in a
    signed-in session. *)
Definition started_poll (w : World) : list string :=
  if isAuth (state w) then ["/api/v1/dashboard/metrics"] else [].

(** The error the [try] block of [confirmModeSwitch] throws for a
    response that is not OK. *)
Definition http_failure `{Host} (res : Response) : JsError :=
  match error_payload res with
  | JUndefined => TypeError "Cannot read properties of undefined (reading 'detail')"
  | JNull => TypeError "Cannot read properties of null (reading 'detail')"
  | errorData =>
      PlainError (error_text (js_or (member errorData "detail")
                                    (JStr ("Server error: " +:+ pretty (status res)))))
  end.

(** The reason shown when the backend answers without [success]. *)
Definition blocked_reason `{Host} (payload : JsVal) : string :=
  error_text (js_or (member payload "detail")
                    (js_or (member payload "message") (JStr "Unknown error"))).

(** Decimal digits, and strings made of them. *)
Fixpoint char_in (c : Ascii.ascii) (s : string) : bool :=
  match s with
  | EmptyString => false
  | String c' rest => Ascii.eqb c c' || char_in c rest
  end.

Definition is_digit (c : Ascii.ascii) : bool := char_in c "0123456789".

Fixpoint all_chars (p : Ascii.ascii -> bool) (s : string) : bool :=
  match s with
  | EmptyString => true
  | String c rest => p c && all_chars p rest
  end.

(** The symbol a box is labelled with, and the symbol the callback of
    [updateMarketHeader] computes for a payload. *)
Definition label_symbol (b : PriceBox) : option JsVal :=
  match labelEl b with
  | NoLabel => None
  | PlainLabel symbol => Some symbol
  | BadgeLabel symbol _ _ => Some symbol
  end.

Definition item_symbol (st : State) (item : JsVal) : JsVal :=
  js_or (member item "instrument") (JStr (selectedMarket st)).

(** The payloads a successful response puts on screen: the entries of
    [response.data] when it is an array, the response itself otherwise, and
    for the commodity market only the entries of the selected commodity. *)
Definition displayed_items (st : State) (response : JsVal) : Result (list JsVal) :=
  let dataItems := match member response "data" with
                   | JArr items => items
                   | _ => [response]
                   end in
  if String.eqb (selectedMarket st) "COMMODITY"
  then filter_commodity st dataItems else Ok dataItems.

(** A container that holds one box without a change element, as the
    placeholder of a closed market is. *)
Definition lone_bare_box (boxes : list PriceBox) : Prop :=
  exists b, boxes = [b] /\ fromTemplate b = false.

(** A host whose [parseFloat] reads the strings of decimal digits (any
    other text reads as NaN), to run the price box over several renders. *)
Fixpoint digit_index (c : Ascii.ascii) (digits : string) (i : Z) : option Z :=
  match digits with
  | EmptyString => None
  | String d rest => if Ascii.eqb c d then Some i else digit_index c rest (i + 1)%Z
  end.

Fixpoint parse_digits (acc : Z) (s : string) : option Z :=
  match s with
  | EmptyString => Some acc
  | String c rest =>
      match digit_index c "0123456789" 0 with
      | Some d => parse_digits (10 * acc + d) rest
      | None => None
      end
  end.

Definition parse_decimal (s : string) : option Q :=
  match s with
  | EmptyString => None
  | _ => option_map inject_Z (parse_digits 0 s)
  end.

Definition decimal_host : Host := {|
  Math_random_at n := 0%Q;
  fullTimeOf z := pretty z;
  compressedTimeOf z := pretty z;
  shortDateOf z := pretty z;
  localeStringOf z := pretty z;
  string_to_number := parse_decimal;
  parseFloat := parse_decimal;
  object_to_number _ := None;
  toFixed2 := show_number;
  toLocaleString_en_IN := show_value;
  to_display_string := show_value
|}.

(** A market response that lists the two sample payloads. *)
Definition sample_market_response : JsVal :=
  JObj [("status", JStr "success"); ("data", JArr [item_live_price; item_no_price])].

Definition item_higher_price : JsVal :=
  JObj [("instrument", JStr "NIFTY"); ("ltp", JNum 22150); ("close", JNum 22000)].

(** ** The trades and the audit trail of the dashboard *)

Definition set_selectedMarket (x : string) (s : State) : State :=
  mkState (isAuth s) x (selectedCommodity s) (metrics s) (trades s) (logs s) (pnlHistory s) (pnlTimestamps s) (pnlFullTimestamps s) (chartTimeRange s) (account_update s) (agentV2Status s) (auditTrail s) (market_data s) (dataEngineStatus s) (executionMode s).
Definition set_selectedCommodity (x : string) (s : State) : State :=
  mkState (isAuth s) (selectedMarket s) x (metrics s) (trades s) (logs s) (pnlHistory s) (pnlTimestamps s) (pnlFullTimestamps s) (chartTimeRange s) (account_update s) (agentV2Status s) (auditTrail s) (market_data s) (dataEngineStatus s) (executionMode s).

Definition MARKET_SYMBOLS : list (string * list string) :=
  [ ("NIFTY", ["NIFTY"]);
    ("BANKNIFTY", ["BANKNIFTY"]);
    ("SENSEX", ["SENSEX"]);
    ("COMMODITY", ["CRUDEOIL"; "GOLD"; "SILVER"; "NATGASMINI"]) ].

(** [relevantSymbols] in [updateDashboardUI]. [MARKET_SYMBOLS] is an
    object literal: for a market that is the name of a member of
    [Object.prototype] the lookup gives that member, which is truthy and
    not an array ([None]). *)
Definition relevantSymbols (st : State) : option (list string) :=
  if String.eqb (selectedMarket st) "COMMODITY" then Some [selectedCommodity st]
  else match assoc (selectedMarket st) MARKET_SYMBOLS with
       | Some symbols => Some symbols
       | None =>
           if existsb (String.eqb (selectedMarket st)) Object_prototype_members
           then None else Some [selectedMarket st]
       end.

(** [t.instrument.includes(s)]: a substring test on a string, a
    membership test on an array, a [TypeError] on anything else. *)
Definition instrument_includes (t : JsVal) (s : string) : Result bool :=
  match t with
  | JUndefined =>
      Throw (TypeError "Cannot read properties of undefined (reading 'instrument')")
  | JNull => Throw (TypeError "Cannot read properties of null (reading 'instrument')")
  | _ =>
      match member t "instrument" with
      | JStr name => Ok (includes s name)
      | JArr items => Ok (existsb (is_string s) items)
      | JUndefined =>
          Throw (TypeError "Cannot read properties of undefined (reading 'includes')")
      | JNull => Throw (TypeError "Cannot read properties of null (reading 'includes')")
      | _ => Throw (TypeError "t.instrument.includes is not a function")
      end
  end.

(** [symbols.some(s => t.instrument.includes(s))]. *)
Fixpoint some_symbol (t : JsVal) (symbols : list string) : Result bool :=
  match symbols with
  | [] => Ok false
  | s :: rest =>
      match instrument_includes t s with
      | Throw e => Throw e
      | Ok true => Ok true
      | Ok false => some_symbol t rest
      end
  end.

(** The callback of [state.trades.filter] over the trades in order. *)
Fixpoint filter_trades (symbols : option (list string)) (ts : list JsVal)
  : Result (list JsVal) :=
  match ts with
  | [] => Ok []
  | t :: rest =>
      match symbols with
      | None => Throw (TypeError "relevantSymbols.some is not a function")
      | Some ss =>
          match some_symbol t ss with
          | Throw e => Throw e
          | Ok keep =>
              match filter_trades symbols rest with
              | Throw e => Throw e
              | Ok kept => Ok (if keep then t :: kept else kept)
              end
          end
      end
  end.

(** [filteredTrades] in [updateDashboardUI]: the open positions the
    summaries and the positions table of the selected market are made of. *)
Definition filteredTrades (st : State) : Result (list JsVal) :=
  match trades st with
  | JArr ts => filter_trades (relevantSymbols st) ts
  | JUndefined =>
      Throw (TypeError "Cannot read properties of undefined (reading 'filter')")
  | JNull => Throw (TypeError "Cannot read properties of null (reading 'filter')")
  | _ => Throw (TypeError "state.trades.filter is not a function")
  end.

(** [arr.find(p)] for a callback that may throw. *)
Fixpoint js_find (p : JsVal -> Result bool) (l : list JsVal) : Result JsVal :=
  match l with
  | [] => Ok JUndefined
  | x :: rest =>
      match p x with
      | Throw e => Throw e
      | Ok true => Ok x
      | Ok false => js_find p rest
      end
  end.

(** [[...v]]: the elements of an array, the characters of a string (its
    bytes here: no callback in the script looks at the text of such an
    element), a [TypeError] on a value that is not iterable. *)
Definition spread (v : JsVal) : Result (list JsVal) :=
  match v with
  | JArr items => Ok items
  | JStr s => Ok (map (fun c => JStr (String c EmptyString)) (String.list_ascii_of_string s))
  | _ => Throw (TypeError "state.auditTrail is not iterable")
  end.

(** [[...state.auditTrail].reverse().find(p)]. *)
Definition last_event (p : JsVal -> Result bool) (st : State) : Result JsVal :=
  match spread (auditTrail st) with
  | Throw e => Throw e
  | Ok events => js_find p (reverse events)
  end.

(** [e.agent === agent] and [e.agent === agent && e.symbol === symbol]. *)
Definition agent_is (agent : string) (e : JsVal) : Result bool :=
  match e with
  | JUndefined => Throw (TypeError "Cannot read properties of undefined (reading 'agent')")
  | JNull => Throw (TypeError "Cannot read properties of null (reading 'agent')")
  | _ => Ok (is_string agent (member e "agent"))
  end.

Definition agent_symbol_is (agent symbol : string) (e : JsVal) : Result bool :=
  match e with
  | JUndefined => Throw (TypeError "Cannot read properties of undefined (reading 'agent')")
  | JNull => Throw (TypeError "Cannot read properties of null (reading 'agent')")
  | _ => Ok (is_string agent (member e "agent") && is_string symbol (member e "symbol"))
  end.

Definition lastSignal (st : State) : Result JsVal :=
  last_event (agent_symbol_is "StructurePatternAgent" (selectedMarket st)) st.
Definition lastContext (st : State) : Result JsVal :=
  last_event (agent_symbol_is "MarketContextAgent" (selectedMarket st)) st.
Definition lastAdvice (st : State) : Result JsVal :=
  last_event (agent_is "GuidanceAgent") st.

(** Three open positions and a short audit trail. *)
Definition sample_trades : JsVal :=
  JArr [ JObj [("instrument", JStr "NIFTY24JANFUT"); ("pnl", JNum 120)];
         JObj [("instrument", JStr "BANKNIFTY24JANFUT"); ("pnl", JNum (-40))];
         JObj [("instrument", JStr "SENSEX24JANFUT"); ("pnl", JNum 15)] ].

Definition sample_audit_trail : JsVal :=
  JArr [ JNull;
         JObj [("agent", JStr "GuidanceAgent"); ("payload", JObj [("advice", JStr "hold")])];
         JObj [("agent", JStr "MarketContextAgent"); ("symbol", JStr "NIFTY")];
         JObj [("agent", JStr "GuidanceAgent"); ("payload", JObj [("advice", JStr "exit")])];
         JObj [("agent", JStr "AuditLogger")] ].

(** A trade whose instrument is a text that contains the symbol. *)
Definition names_symbol (s : string) (t : JsVal) : bool :=
  match member t "instrument" with
  | JStr name => includes s name
  | _ => false
  end.

(** ** Signing in and out *)

(** The login form as [handleLogin] reads it: [userId] is the text of the
    id field after [trim()], [apiKey] the text of the key field as typed. *)
Record LoginForm : Type := mkLoginForm {
  userId : string;
  apiKey : string;
  rememberMe : bool
}.

(** What lives beside the script's own variables: the local storage of the
    browser and the interval timers that [initDashboard] has started. *)
Record Session : Type := mkSession {
  tab : World;
  localStorage : list (string * string);
  pollers : nat
}.

Definition in_tab (f : World -> World) (s : Session) : Session :=
  mkSession (f (tab s)) (localStorage s) (pollers s).

Fixpoint removeItem (k : string) (store : list (string * string)) : list (string * string) :=
  match store with
  | [] => []
  | (k', v) :: rest => if String.eqb k' k then removeItem k rest else (k', v) :: removeItem k rest
  end.

Definition setItem (k v : string) (store : list (string * string)) : list (string * string) :=
  (k, v) :: removeItem k store.

Definition getItem (k : string) (store : list (string * string)) : option string :=
  assoc k store.

(** [s.length]: the number of UTF-16 code units of a text held as UTF-8
    bytes. A continuation byte adds nothing, the lead byte of a four-byte
    sequence stands for a surrogate pair. *)
Fixpoint js_length (s : string) : nat :=
  match s with
  | EmptyString => 0
  | String c rest =>
      let b := Ascii.nat_of_ascii c in
      (if b <? 128 then 1 else if b <? 192 then 0 else if b <? 240 then 1 else 2)
      + js_length rest
  end.

Definition is_word_char (c : Ascii.ascii) : bool :=
  char_in c "abcdefghijklmnopqrstuvwxyzABCDEFGHIJKLMNOPQRSTUVWXYZ0123456789_".

(** [/^[a-zA-Z0-9_]{4,20}$/.test(s)]. *)
Definition idRegex_test (s : string) : bool :=
  all_chars is_word_char s && (4 <=? String.length s) && (String.length s <=? 20).

(** The three checks of [handleLogin], in their order: the alert of a
    form that is refused, [None] for a form that is sent. *)
Definition login_refusal (f : LoginForm) : option string :=
  if String.eqb (userId f) "" || String.eqb (apiKey f) ""
  then Some "Validation Error: Please enter both User ID and API Key"
  else if negb (idRegex_test (userId f)) && negb (includes "@" (userId f))
  then Some "Validation Error: User ID must be 4-20 characters (alphanumeric) or a valid email."
  else if js_length (apiKey f) <? 5
  then Some "Validation Error: API Key/Password must be at least 5 characters."
  else None.

(** [initDashboard()] as far as the session goes: the first
    synchronisation is started, its metrics request out before anything
    else is set up, and one more interval timer runs. *)
Definition initDashboard (s : Session) : Session :=
  mkSession (fetchSystemData_call (tab s)) (localStorage s) (S (pollers s)).

(** The [try] block of [handleLogin] once the request has settled.
    [layers] tells whether the page has the layers and the settings panel
    that a successful login switches. *)
Definition handleLogin_try `{Host} (pg : Page) (layers : bool) (f : LoginForm)
    (o : FetchOutcome) (s : Session) : Result unit * Session :=
  match o with
  | Rejected e => (Throw e, s)
  | Responded res =>
      match body res with
      | inl e => (Throw e, s)
      | inr data =>
          match data with
          | JUndefined =>
              (Throw (TypeError ("Cannot read properties of undefined (reading '"
                                 +:+ (if ok res then "status" else "detail") +:+ "')")), s)
          | JNull =>
              (Throw (TypeError ("Cannot read properties of null (reading '"
                                 +:+ (if ok res then "status" else "detail") +:+ "')")), s)
          | _ =>
              if ok res && is_string "success" (member data "status") then
                let s1 := in_tab (with_state (set_isAuth true)) s in
                let s2 := mkSession (tab s1)
                            (if rememberMe f
                             then setItem "antigravity_user_id" (userId f) (localStorage s1)
                             else removeItem "antigravity_user_id" (localStorage s1))
                            (pollers s1) in
                if negb layers
                then (Throw (TypeError "Cannot read properties of null (reading 'classList')"),
                      s2)
                else if truthy (member data "mode") then
                  match updateExecutionModeUI pg (member data "mode") JUndefined (tab s2) with
                  | (Ok _, w) => (Ok tt, initDashboard (mkSession w (localStorage s2) (pollers s2)))
                  | (Throw e, w) => (Throw e, mkSession w (localStorage s2) (pollers s2))
                  end
                else (Ok tt, initDashboard s2)
              else
                (Ok tt,
                 in_tab (log_alert ("Security Protocol: Access Denied. "
                           +:+ error_text (js_or (member data "detail")
                                 (js_or (member data "reason")
                                        (JStr "Invalid Credentials Provided."))))) s)
          end
      end
  end.

(** [handleLogin()]: [form] is the login form, [None] when the page has
    no such fields; [o] is the outcome of the login request, looked at
    only when the form is sent. *)
Definition handleLogin `{Host} (pg : Page) (layers : bool) (form : option LoginForm)
    (o : FetchOutcome) (s : Session) : Result unit * Session :=
  match form with
  | None => (Throw (TypeError "Cannot read properties of null (reading 'value')"), s)
  | Some f =>
      match login_refusal f with
      | Some msg => (Ok tt, in_tab (log_alert msg) s)
      | None =>
          let s1 := in_tab (log_request "/api/v1/auth/login") s in
          match handleLogin_try pg layers f o s1 with
          | (Ok _, s2) => (Ok tt, s2)
          | (Throw _, s2) =>
              (Ok tt,
               in_tab (log_alert "Institutional Network Error: Unable to reach Command Center.")
                      s2)
          end
      end
  end.

(** The handler of the page load that fills the form from the storage:
    the id field and the remember-me box as it leaves them ([None]: the
    form is left as it is). *)
Definition restoreLogin (s : Session) : option (string * bool) :=
  match getItem "antigravity_user_id" (localStorage s) with
  | Some savedId => if String.eqb savedId "" then None else Some (savedId, true)
  | None => None
  end.

(** [logout()]: the flag is cleared first; the layers and the key field
    are looked up after it. *)
Definition logout (layers form : bool) : JS unit :=
  run* update (set_isAuth false) in
  if negb layers
  then throw (TypeError "Cannot read properties of null (reading 'classList')")
  else if negb form
  then throw (TypeError "Cannot set properties of null (setting 'value')")
  else modify (log_console "User logged out. Stopping agents.").

(** A login that the backend accepts. *)
Definition login_accepted (o : FetchOutcome) : bool :=
  match o with
  | Responded res =>
      ok res && match body res with
                | inr data => is_string "success" (member data "status")
                | inl _ => false
                end
  | Rejected _ => false
  end.

Definition fresh_session : Session := mkSession page_load [] 0.

Definition sample_form : LoginForm := mkLoginForm "trader_01" "s3cretKey" true.

(** ** The keyboard in the symbol search *)

(** The drop-down of the search, on a page that has one: the module
    variable [searchSelectedIdx] ([None] is NaN), whether the drop-down is
    hidden and how many result rows it holds. *)
Record SearchBox : Type := mkSearchBox {
  searchSelectedIdx : option Z;
  dropdownHidden : bool;
  resultItems : nat
}.

Inductive Key : Type := ArrowDown | ArrowUp | Enter | OtherKey.

(** Integer arithmetic under NaN. *)
Definition num_op_Z (f : Z -> Z -> Z) (a b : option Z) : option Z :=
  match a, b with
  | Some x, Some y => Some (f x y)
  | _, _ => None
  end.

(** [a % n] on integers: the remainder has the sign of [a]; a zero
    divisor gives NaN. *)
Definition js_rem (a : option Z) (n : Z) : option Z :=
  match a with
  | Some x => if (n =? 0)%Z then None else Some (Z.rem x n)
  | None => None
  end.

(** [renderSearchResults(results)] for [n] results: the drop-down is
    shown and the selection is reset. *)
Definition renderSearchResults (n : nat) (b : SearchBox) : SearchBox :=
  mkSearchBox (Some (-1)%Z) false n.

(** The [keydown] handler. The result is the row that was clicked, if
    any; clicking a row that does not exist throws. The click of a row
    runs [handleSymbolSelection], which hides the drop-down at once. *)
Definition keydown (k : Key) (b : SearchBox) : Result (option nat) * SearchBox :=
  if dropdownHidden b then (Ok None, b)
  else
    let n := Z.of_nat (resultItems b) in
    match k with
    | ArrowDown =>
        (Ok None,
         mkSearchBox (js_rem (num_op_Z Z.add (searchSelectedIdx b) (Some 1%Z)) n)
                     false (resultItems b))
    | ArrowUp =>
        (Ok None,
         mkSearchBox (js_rem (num_op_Z Z.add
                                (num_op_Z Z.sub (searchSelectedIdx b) (Some 1%Z)) (Some n)) n)
                     false (resultItems b))
    | Enter =>
        match searchSelectedIdx b with
        | Some i =>
            if (-1 <? i)%Z then
              if (i <? n)%Z
              then (Ok (Some (Z.to_nat i)),
                    mkSearchBox (searchSelectedIdx b) true (resultItems b))
              else (Throw (TypeError "Cannot read properties of undefined (reading 'click')"),
                    b)
            else (Ok None, b)
        | None => (Ok None, b)
        end
    | OtherKey => (Ok None, b)
    end.

(** A run of key presses; it stops at the first one that throws. *)
Fixpoint keydowns (ks : list Key) (b : SearchBox) : Result unit * SearchBox :=
  match ks with
  | [] => (Ok tt, b)
  | k :: rest =>
      match keydown k b with
      | (Ok _, b') => keydowns rest b'
      | (Throw e, b') => (Throw e, b')
      end
  end.

(** The selection is a row of the list, or none yet. *)
Definition selection_in_range (b : SearchBox) : Prop :=
  exists i, searchSelectedIdx b = Some i /\ (-1 <= i < Z.of_nat (resultItems b))%Z.

(** The route [controlSystem] posts to for an action other than the
    reset. *)
Definition control_route (action : string) : string :=
  if String.eqb action "start" then "system/start"
  else if String.eqb action "square_off_all" then "system/square_off_all"
  else "system/pause".

(** ** The theme *)

Inductive Icon : Type := NoIcon | Moon | Sun.

(** [state.theme], whether the body carries the class [light-theme], and
    the icon of the toggle. *)
Record Look : Type := mkLook {
  theme : string;
  lightTheme : bool;
  themeIcon : Icon
}.

(** [localStorage.getItem('theme') || 'dark']. *)
Definition savedTheme (store : list (string * string)) : string :=
  match getItem "theme" store with
  | Some t => if String.eqb t "" then "dark" else t
  | None => "dark"
  end.

Definition no_theme_icon : JsError :=
  TypeError "Cannot set properties of null (setting 'textContent')".

(** [initTheme()]; [icon] tells whether the page has the icon element. *)
Definition initTheme (icon : bool) (store : list (string * string)) (l : Look)
  : Result unit * Look :=
  let saved := savedTheme store in
  if String.eqb saved "light" then
    if icon then (Ok tt, mkLook saved true Moon)
    else (Throw no_theme_icon, mkLook saved true (themeIcon l))
  else
    if icon then (Ok tt, mkLook saved false Sun)
    else (Throw no_theme_icon, mkLook saved false (themeIcon l)).

(** [toggleTheme()]; [redraw] is the outcome of re-creating the chart at
    its end ([Ok] when there is no chart). *)
Definition toggleTheme (icon : bool) (redraw : Result unit)
    (ls : Look * list (string * string)) : Result unit * (Look * list (string * string)) :=
  let '(l, store) := ls in
  if String.eqb (theme l) "dark" then
    let store' := setItem "theme" "light" store in
    if icon then (redraw, (mkLook "light" true Moon, store'))
    else (Throw no_theme_icon, (mkLook "light" true (themeIcon l), store'))
  else
    let store' := setItem "theme" "dark" store in
    if icon then (redraw, (mkLook "dark" false Sun, store'))
    else (Throw no_theme_icon, (mkLook "dark" false (themeIcon l), store')).

(** A series of numbers that starts from [base] and moves, at each step,
    by at least -22.5 and by less than 27.5. *)
Fixpoint bounded_walk (base : Q) (l : list JsVal) : Prop :=
  match l with
  | [] => True
  | JNum b :: rest => (- (45 # 2) <= b - base)%Q /\ (b - base < 55 # 2)%Q /\ bounded_walk b rest
  | _ :: _ => False
  end.

(** The instant of the [j]-th point of the placeholder series drawn at
    [now]: one hour per point, the last point one hour before [now]. *)
Definition placeholder_instant (now : Z) (j : nat) : Z :=
  (now - Z.of_nat (pointsCount - j) * 3600000)%Z.

(** The four endpoints a tick requests before it applies any response, in
    the order of the requests, and the position among them of the first
    request that is rejected. *)
Definition early_endpoints : list string :=
  ["/api/v1/dashboard/metrics"; "/api/v1/trades/open"; "/api/v1/alerts/logs";
   "/api/v1/account/balance"].

Definition first_rejected (inp : TickInput) : option nat :=
  if rejected (mResp inp) then Some 0
  else if rejected (tResp inp) then Some 1
  else if rejected (lResp inp) then Some 2
  else if rejected (aResp inp) then Some 3
  else None.

(** * Properties *)

(** ** Observations kept by the building blocks *)

Section Frames.
Context {B : Type} (f : World -> B).

Lemma keeps_ret {A} (a : A) : keeps f (ret a).
Proof. intros w. reflexivity. Qed.

Lemma keeps_throw {A} (e : JsError) : keeps f (@throw A e).
Proof. intros w. reflexivity. Qed.

Lemma keeps_get : keeps f get.
Proof. intros w. reflexivity. Qed.

Lemma keeps_bind {A C} (m : JS A) (k : A -> JS C) :
  keeps f m -> (forall a, keeps f (k a)) -> keeps f (bind m k).
Proof.
  intros Hm Hk w. unfold run, bind. specialize (Hm w). unfold run in Hm.
  destruct (m w) as [[a|e] w1]; simpl in *.
  - rewrite <- Hm. apply Hk.
  - exact Hm.
Qed.

Lemma keeps_try_catch {A} (body : JS A) (handler : JsError -> JS A) :
  keeps f body -> (forall e, keeps f (handler e)) -> keeps f (try_catch body handler).
Proof.
  intros Hb Hh w. unfold run, try_catch. specialize (Hb w). unfold run in Hb.
  destruct (body w) as [[a|e] w1]; simpl in *.
  - exact Hb.
  - rewrite <- Hb. apply Hh.
Qed.

Lemma keeps_try_finally {A} (body : JS A) (cleanup : World -> World) :
  keeps f body -> blind_to f cleanup -> keeps f (try_finally body cleanup).
Proof.
  intros Hb Hc w. unfold run, try_finally. specialize (Hb w). unfold run in Hb.
  destruct (body w) as [r w1]; simpl in *. rewrite Hc. exact Hb.
Qed.

Lemma keeps_modify (g : World -> World) : blind_to f g -> keeps f (modify g).
Proof. intros Hg w. apply Hg. Qed.

Lemma keeps_update (g : State -> State) :
  blind_to f (with_state g) -> keeps f (update g).
Proof. intros Hg w. apply Hg. Qed.

Lemma keeps_when (b : bool) (m : JS unit) : keeps f m -> keeps f (when b m).
Proof. intros Hm. destruct b; [exact Hm | apply keeps_ret]. Qed.

Lemma keeps_fetch (url : string) (o : FetchOutcome) :
  blind_to f (log_request url) -> keeps f (fetch url o).
Proof.
  intros Hg. unfold fetch. apply keeps_bind.
  - apply keeps_modify, Hg.
  - intros _. destruct o; [apply keeps_throw | apply keeps_ret].
Qed.

Lemma keeps_json (r : Response) : keeps f (json r).
Proof. unfold json. destruct (body r); [apply keeps_throw | apply keeps_ret]. Qed.

Lemma keeps_prop (v : JsVal) (k : string) : keeps f (prop v k).
Proof. destruct v; first [apply keeps_throw | apply keeps_ret]. Qed.

Lemma keeps_toLowerCase_check (mode : JsVal) : keeps f (toLowerCase_check mode).
Proof. destruct mode; first [apply keeps_throw | apply keeps_ret]. Qed.
End Frames.

Create HintDb frames.

#[local] Hint Resolve keeps_ret keeps_throw keeps_get keeps_json keeps_prop
  keeps_toLowerCase_check : frames.

(** Splits a computation along its binds and branches, leaving the world
    updates it performs. *)
Ltac frame_step :=
  match goal with
  | |- forall _, _ => intro
  | |- keeps _ (ret _) => apply keeps_ret
  | |- keeps _ (throw _) => apply keeps_throw
  | |- keeps _ get => apply keeps_get
  | |- keeps _ (json _) => apply keeps_json
  | |- keeps _ (prop _ _) => apply keeps_prop
  | |- keeps _ (toLowerCase_check _) => apply keeps_toLowerCase_check
  | |- keeps _ (bind _ _) => apply keeps_bind
  | |- keeps _ (try_catch _ _) => apply keeps_try_catch
  | |- keeps _ (when _ _) => apply keeps_when
  | |- keeps _ (modify _) => apply keeps_modify
  | |- keeps _ (update _) => apply keeps_update
  | |- keeps _ (fetch _ _) => apply keeps_fetch
  | |- keeps _ (match ?x with _ => _ end) => destruct x
  | |- keeps _ _ => solve [auto with frames]
  end.

Ltac frame := repeat frame_step.

(** *** The chart functions only advance the random source *)

Lemma set_drawn_same (w : World) : set_drawn (drawn w) w = w.
Proof. destruct w; reflexivity. Qed.

Lemma mock_loop_run `{Host} (k i : nat) (now : Z) (base : Q) (acc : ChartData) (w : World) :
  run (mock_loop k i now base acc) w = set_drawn (k + drawn w) w.
Proof.
  revert i base acc w. induction k as [|k IH]; intros i base acc w.
  - simpl. symmetry. apply set_drawn_same.
  - unfold run in *. simpl. unfold bind, Math_random. simpl.
    rewrite IH. destruct w; simpl. unfold set_drawn; simpl. f_equal. lia.
Qed.

Lemma mock_loop_ok `{Host} (k i : nat) (now : Z) (base : Q) (acc : ChartData) (w : World) :
  exists c, fst (mock_loop k i now base acc w) = Ok c
            /\ length (labels c) = length (labels acc) + k
            /\ length (data c) = length (data acc) + k
            /\ length (fullTimestamps c) = length (fullTimestamps acc) + k.
Proof.
  revert i base acc w. induction k as [|k IH]; intros i base acc w.
  - exists acc. simpl. repeat split; lia.
  - simpl. unfold bind, Math_random. simpl.
    match goal with
    | |- context [mock_loop k ?i' now ?b' ?acc' ?w'] =>
        destruct (IH i' b' acc' w') as (c & Hc & Hl & Hd & Hf)
    end.
    exists c. simpl in *. rewrite !length_app in *. simpl in *.
    repeat split; [exact Hc | lia | lia | lia].
Qed.

Lemma mockHistoricalData_run `{Host} (range : string) (now : Z) (w : World) :
  run (mockHistoricalData range now) w = set_drawn (pointsCount + drawn w) w.
Proof. unfold mockHistoricalData. apply mock_loop_run. Qed.

Lemma run_bind_get {A} (k : World -> JS A) (w : World) :
  run (bind get k) w = run (k w) w.
Proof. reflexivity. Qed.

Lemma getFilteredChartData_run `{Host} (now : Z) (w : World) :
  run (getFilteredChartData now) w
  = set_drawn ((if synthetic_branch (state w) then pointsCount else 0) + drawn w) w.
Proof.
  unfold getFilteredChartData. rewrite run_bind_get.
  cbv beta iota zeta. fold (synthetic_branch (state w)).
  destruct (synthetic_branch (state w)).
  - apply mockHistoricalData_run.
  - destruct (step_gt_1 _); symmetry; apply set_drawn_same.
Qed.

Lemma keeps_getFilteredChartData `{Host} {B} (f : World -> B) (now : Z) :
  (forall n, blind_to f (set_drawn n)) -> keeps f (getFilteredChartData now).
Proof. intros Hf w. rewrite getFilteredChartData_run. apply Hf. Qed.

Lemma keeps_refreshChartData `{Host} {B} (f : World -> B) (pg : Page) (now : Z) :
  (forall n, blind_to f (set_drawn n)) ->
  (forall c, blind_to f (set_pnlChart c)) ->
  keeps f (refreshChartData pg now).
Proof.
  intros Hd Hc. unfold refreshChartData.
  apply keeps_bind; [apply keeps_getFilteredChartData, Hd |].
  frame. apply Hc.
Qed.
(** *** What the dashboard refresh and the snapshot touch *)

Section UiFrames.
Context {B : Type} (f : World -> B).
Hypothesis f_display : forall d, blind_to f (set_display d).
Hypothesis f_request : forall u, blind_to f (log_request u).
Hypothesis f_console : forall u, blind_to f (log_console u).
Hypothesis f_member : forall k x, In k written_through ->
  blind_to f (with_state (fun s => set_metrics (with_member (metrics s) k x) s)).

Ltac ui_leaf :=
  intros ?;
  first [ apply f_display | apply f_request | apply f_console
        | apply f_member; simpl; tauto ].

Lemma keeps_updateExecutionModeUI (pg : Page) (mode dataStatus : JsVal) :
  keeps f (updateExecutionModeUI pg mode dataStatus).
Proof. unfold updateExecutionModeUI. frame; ui_leaf. Qed.

Lemma keeps_updateMarketHeader_start (v : Variant) :
  keeps f (updateMarketHeader_start v).
Proof. unfold updateMarketHeader_start. frame; ui_leaf. Qed.

Lemma keeps_updateDashboardUI (v : Variant) (pg : Page) :
  keeps f (updateDashboardUI v pg).
Proof.
  unfold updateDashboardUI. frame;
    first [ apply keeps_updateExecutionModeUI | apply keeps_updateMarketHeader_start ].
Qed.

Lemma keeps_accountUpdateListener (v : Variant) (pg : Page) (detail : JsVal) :
  keeps f (accountUpdateListener v pg detail).
Proof.
  unfold accountUpdateListener. frame;
    first [ apply keeps_updateDashboardUI | ui_leaf ].
Qed.

Lemma keeps_dispatchEvent (m : JS unit) : keeps f m -> keeps f (dispatchEvent m).
Proof. intros Hm. unfold dispatchEvent. frame; ui_leaf. Qed.

Lemma keeps_refreshDashboard (v : Variant) (inp : TickInput) :
  keeps f (refreshDashboard v inp).
Proof.
  unfold refreshDashboard, fetchRiskRules_start. frame;
    first [ apply keeps_updateDashboardUI | ui_leaf ].
Qed.
End UiFrames.
(** *** Stepping through a computation *)

Lemma run_bind_update {A} (g : State -> State) (k : unit -> JS A) (w : World) :
  run (bind (update g) k) w = run (k tt) (with_state g w).
Proof. reflexivity. Qed.

Lemma run_bind_modify {A} (g : World -> World) (k : unit -> JS A) (w : World) :
  run (bind (modify g) k) w = run (k tt) (g w).
Proof. reflexivity. Qed.

Lemma run_bind_keeps_tail {A C B} (f : World -> B) (m : JS A) (k : A -> JS C) (w : World) :
  (forall a, keeps f (k a)) -> f (run (bind m k) w) = f (run m w).
Proof.
  intros Hk. unfold run, bind. destruct (m w) as [[a|e] w1]; simpl.
  - apply Hk.
  - reflexivity.
Qed.

Lemma run_try_catch_keeps {A B} (f : World -> B) (body : JS A) (h : JsError -> JS A)
    (w : World) :
  (forall e, keeps f (h e)) -> f (run (try_catch body h) w) = f (run body w).
Proof.
  intros Hh. unfold run, try_catch. destruct (body w) as [[a|e] w1]; simpl.
  - reflexivity.
  - apply Hh.
Qed.

(** Either the first part throws and the rest does not run, or the rest
    runs from the world the first part reached. *)
Lemma run_bind_cases {A C} (m : JS A) (k : A -> JS C) (w : World) :
  (exists e, fst (m w) = Throw e /\ run (bind m k) w = run m w)
  \/ (exists a, fst (m w) = Ok a /\ run (bind m k) w = run (k a) (run m w)).
Proof.
  unfold run, bind. destruct (m w) as [[a|e] w1]; simpl; eauto.
Qed.

(** *** The history buffer *)

Ltac blind := repeat intro; reflexivity.

Lemma keeps_redrawVisibleChart `{Host} {B} (f : World -> B) (pg : Page) (now : Z) :
  (forall n, blind_to f (set_drawn n)) ->
  (forall c, blind_to f (set_pnlChart c)) ->
  keeps f (redrawVisibleChart pg now).
Proof.
  intros Hd Hc. unfold redrawVisibleChart. frame.
  apply keeps_refreshChartData; assumption.
Qed.

Lemma syncSnapshot_buffer (v : Variant) (inp : TickInput) :
  keeps buffer (syncSnapshot v inp).
Proof.
  unfold syncSnapshot, apply_metrics, store, storeBalance. frame; try blind.
  apply keeps_dispatchEvent; try blind.
  apply keeps_accountUpdateListener; blind.
Qed.

Lemma refreshDashboard_buffer (v : Variant) (inp : TickInput) :
  keeps buffer (refreshDashboard v inp).
Proof. apply keeps_refreshDashboard; blind. Qed.

Lemma trackPnl_buffer `{Host} (pg : Page) (now : Z) (w : World) :
  buffer (run (trackPnl pg now) w)
  = if truthy (metrics (state w))
    then push_trim (buffer w) (member (metrics (state w)) "daily_pnl")
                   (compressedTimeOf now) (fullTimeOf now)
    else buffer w.
Proof.
  unfold trackPnl. rewrite run_bind_get.
  destruct (truthy (metrics (state w))); simpl negb; cbv iota; [|reflexivity].
  rewrite !run_bind_update, run_bind_get.
  rewrite run_bind_keeps_tail by (intros _; apply keeps_redrawVisibleChart; blind).
  unfold push_trim, buffer. simpl.
  destruct (MAX_HISTORY <? _); reflexivity.
Qed.

Lemma trackPnl_metrics `{Host} (pg : Page) (now : Z) :
  keeps (fun w => metrics (state w)) (trackPnl pg now).
Proof.
  unfold trackPnl. frame; try blind. apply keeps_redrawVisibleChart; blind.
Qed.
(** *** Members of the metrics object *)

Lemma without_members_with_member (ks : list string) (v : JsVal) (k : string) (x : JsVal) :
  In k ks -> without_members ks (with_member v k x) = without_members ks v.
Proof.
  intros Hk. destruct v; try reflexivity. simpl. f_equal.
  assert (Hex : existsb (String.eqb k) ks = true).
  { apply existsb_exists. exists k. split; [exact Hk | apply String.eqb_refl]. }
  induction fields as [|[k' v'] rest IH]; simpl.
  - rewrite filter_cons. simpl. rewrite Hex.
    destruct (decide (true = false)); [discriminate | reflexivity].
  - destruct (String.eqb k' k) eqn:E.
    + apply String.eqb_eq in E. subst k'.
      rewrite !filter_cons. simpl. rewrite Hex.
      destruct (decide (true = false)); [discriminate | reflexivity].
    + rewrite !filter_cons. simpl. rewrite IH. reflexivity.
Qed.

Lemma member_without_members (ks : list string) (v : JsVal) (k : string) :
  existsb (String.eqb k) ks = false -> member (without_members ks v) k = member v k.
Proof.
  intros Hk. destruct v; try reflexivity. simpl. f_equal.
  induction fields as [|[k' v'] rest IH]; simpl; [reflexivity|].
  rewrite filter_cons. simpl.
  destruct (String.eqb k' k) eqn:E.
  - apply String.eqb_eq in E. subst k'. rewrite Hk.
    destruct (decide (false = false)); [|congruence]. simpl.
    rewrite String.eqb_refl. reflexivity.
  - destruct (decide _); simpl; [rewrite E|]; exact IH.
Qed.

Lemma truthy_without_members (ks : list string) (v : JsVal) :
  truthy (without_members ks v) = truthy v.
Proof. destruct v; reflexivity. Qed.

Lemma same_but_member (ks : list string) (a b : JsVal) (k : string) :
  same_but ks a b -> existsb (String.eqb k) ks = false -> member a k = member b k.
Proof.
  intros Hab Hk. rewrite <- (member_without_members ks a k Hk).
  rewrite <- (member_without_members ks b k Hk). unfold same_but in Hab.
  rewrite Hab. reflexivity.
Qed.

Lemma same_but_truthy (ks : list string) (a b : JsVal) :
  same_but ks a b -> truthy a = truthy b.
Proof.
  intros Hab. rewrite <- (truthy_without_members ks a), <- (truthy_without_members ks b).
  unfold same_but in Hab. rewrite Hab. reflexivity.
Qed.

Lemma metrics_core_member (k : string) (x : JsVal) :
  In k written_through ->
  blind_to metrics_core (with_state (fun s => set_metrics (with_member (metrics s) k x) s)).
Proof.
  intros Hk w. unfold metrics_core. simpl.
  apply without_members_with_member, Hk.
Qed.

Lemma refreshDashboard_metrics_core (v : Variant) (inp : TickInput) :
  keeps metrics_core (refreshDashboard v inp).
Proof.
  apply keeps_refreshDashboard; try blind. intros k x. apply metrics_core_member.
Qed.

Lemma dispatch_listener_metrics_core (v : Variant) (pg : Page) (x : JsVal) :
  keeps metrics_core (dispatchEvent (accountUpdateListener v pg x)).
Proof.
  apply keeps_dispatchEvent; try blind.
  apply keeps_accountUpdateListener; try blind. intros k y. apply metrics_core_member.
Qed.

Lemma trackPnl_metrics_core `{Host} (pg : Page) (now : Z) :
  keeps metrics_core (trackPnl pg now).
Proof.
  intros w. unfold metrics_core. f_equal. apply (trackPnl_metrics pg now w).
Qed.

(** *** One tick and the buffer *)

Lemma tick_buffer `{Host} (v : Variant) (w : World) (inp : TickInput) :
  buffer (tick v w inp) = buffer w
  \/ exists mid,
       truthy mid = true
       /\ same_but written_through mid (metrics (state (tick v w inp)))
       /\ buffer (tick v w inp)
          = push_trim (buffer w) (member mid "daily_pnl")
                      (compressedTimeOf (now inp)) (fullTimeOf (now inp)).
Proof.
  unfold tick, fetchSystemData. rewrite run_bind_get.
  destruct (isAuth (state w)); simpl negb; cbv iota; [|left; reflexivity].
  assert (Hh : forall (B : Type) (f : World -> B), (forall u, blind_to f (log_console u)) ->
             forall e : JsError, keeps f (modify (log_console "API Sync Failed"))).
  { intros B f Hf e. apply keeps_modify, Hf. }
  rewrite (run_try_catch_keeps buffer) by (apply Hh; blind).
  assert (Hm : metrics_core (run (try_catch (fetchSystemData_body v inp)
                 (fun _ => modify (log_console "API Sync Failed"))) w)
               = metrics_core (run (fetchSystemData_body v inp) w)).
  { apply (run_try_catch_keeps metrics_core). apply Hh. blind. }
  unfold fetchSystemData_body in *.
  destruct (run_bind_cases (syncSnapshot v inp)
              (fun _ => bind (trackPnl (page inp) (now inp)) (fun _ => refreshDashboard v inp)) w)
    as [(e & _ & Hr) | (a & _ & Hr)]; rewrite Hr in *.
  - left. apply syncSnapshot_buffer.
  - set (w1 := run (syncSnapshot v inp) w) in *.
    rewrite (run_bind_keeps_tail buffer) by (intros _; apply refreshDashboard_buffer).
    rewrite trackPnl_buffer.
    assert (Hb : buffer w1 = buffer w) by apply syncSnapshot_buffer.
    rewrite Hb.
    destruct (truthy (metrics (state w1))) eqn:Ht; [right | left; reflexivity].
    exists (metrics (state w1)). split; [exact Ht | split; [|reflexivity]].
    unfold same_but. fold (metrics_core w1). symmetry.
    etransitivity; [exact Hm|].
    rewrite (run_bind_keeps_tail metrics_core)
      by (intros _; apply refreshDashboard_metrics_core).
    apply trackPnl_metrics_core.
Qed.

Lemma push_trim_lengths (h : list JsVal) (t f : list string) (x : JsVal) (ct ft : string) :
  length t = length h -> length f = length h -> length h <= MAX_HISTORY ->
  let '(h', t', f') := push_trim (h, t, f) x ct ft in
  length t' = length h' /\ length f' = length h' /\ length h' <= MAX_HISTORY.
Proof.
  intros Ht Hf Hh. unfold push_trim, js_push, js_shift.
  destruct (MAX_HISTORY <? length (h ++ [x])) eqn:E.
  - apply Nat.ltb_lt in E. rewrite length_app in E. simpl in E.
    destruct h as [|a h]; [simpl in *; unfold MAX_HISTORY in *; lia|].
    destruct t as [|b t]; [discriminate|]. destruct f as [|c f]; [discriminate|].
    simpl in *. rewrite !length_app in *. simpl in *. lia.
  - apply Nat.ltb_ge in E. rewrite !length_app in *. simpl in *. lia.
Qed.

(** Below capacity the point is appended; at capacity the oldest point
    leaves as the new one enters. *)
Lemma push_trim_fifo (h : list JsVal) (t f : list string) (x : JsVal) (ct ft : string) :
  length t = length h -> length f = length h -> length h <= MAX_HISTORY ->
  (length h < MAX_HISTORY
   /\ push_trim (h, t, f) x ct ft = (h ++ [x], t ++ [ct], f ++ [ft]))
  \/ (length h = MAX_HISTORY
      /\ push_trim (h, t, f) x ct ft = (tail h ++ [x], tail t ++ [ct], tail f ++ [ft])).
Proof.
  intros Ht Hf Hh. unfold push_trim, js_push, js_shift.
  destruct (MAX_HISTORY <? length (h ++ [x])) eqn:E.
  - apply Nat.ltb_lt in E. rewrite length_app in E. simpl in E. right.
    split; [lia|].
    destruct h as [|a h]; [simpl in *; unfold MAX_HISTORY in *; lia|].
    destruct t as [|b t]; [discriminate|]. destruct f as [|c f]; [discriminate|].
    reflexivity.
  - apply Nat.ltb_ge in E. rewrite length_app in E. simpl in E. left.
    split; [lia | reflexivity].
Qed.

Lemma tick_within_capacity `{Host} (v : Variant) (w : World) (inp : TickInput) :
  within_capacity w -> within_capacity (tick v w inp).
Proof.
  intros [[Ht Hf] Hh]. unfold within_capacity, aligned, buffer_length in *.
  destruct (tick_buffer v w inp) as [Hb | (mid & _ & _ & Hb)].
  - unfold buffer in Hb. injection Hb as -> -> ->. auto.
  - pose proof (push_trim_lengths _ _ _ (member mid "daily_pnl")
                  (compressedTimeOf (now inp)) (fullTimeOf (now inp)) Ht Hf Hh) as Hl.
    unfold buffer in Hb at 2. rewrite <- Hb in Hl. unfold buffer in Hl. tauto.
Qed.

(** The history step keeps the invariant from any world, so the order in
    which ticks that overlap in time reach it does not matter. *)
Lemma trackPnl_within_capacity `{Host} (pg : Page) (nw : Z) (w : World) :
  within_capacity w -> within_capacity (run (trackPnl pg nw) w).
Proof.
  intros [[Ht Hf] Hh]. unfold within_capacity, aligned, buffer_length in *.
  pose proof (trackPnl_buffer pg nw w) as Hb.
  destruct (truthy (metrics (state w))).
  - pose proof (push_trim_lengths _ _ _ (member (metrics (state w)) "daily_pnl")
                  (compressedTimeOf nw) (fullTimeOf nw) Ht Hf Hh) as Hl.
    unfold buffer in Hb at 2. rewrite <- Hb in Hl. unfold buffer in Hl. tauto.
  - unfold buffer in Hb. injection Hb as -> -> ->. auto.
Qed.

Lemma ticks_within_capacity `{Host} (v : Variant) (inps : list TickInput) (w : World) :
  within_capacity w -> within_capacity (ticks v w inps).
Proof.
  revert w. induction inps as [|inp inps IH]; intros w Hw; [exact Hw|].
  unfold ticks. simpl. apply IH, tick_within_capacity, Hw.
Qed.



(** *** The snapshot part of a tick *)

Lemma bind_fetch_responded {A} (url : string) (r : Response) (k : Response -> JS A)
    (w : World) :
  bind (fetch url (Responded r)) k w = k r (log_request url w).
Proof. reflexivity. Qed.

Lemma bind_run {A C} (m : JS A) (k : A -> JS C) (w : World) (a : A) :
  fst (m w) = Ok a -> bind m k w = k a (run m w).
Proof.
  unfold bind, run. destruct (m w) as [[a'|e] w1]; simpl; intros Ha; [|discriminate].
  injection Ha as ->. reflexivity.
Qed.


Lemma store_run (r : Response) (set : JsVal -> State -> State) (w : World) :
  run (store r set) w
  = if ok r then match body r with inr x => with_state (set x) w | inl _ => w end else w.
Proof.
  unfold store, when, json, run, bind. destruct (ok r); [|reflexivity].
  destruct (body r); reflexivity.
Qed.

Lemma store_ok (r : Response) (set : JsVal -> State -> State) (w : World) :
  sound (Responded r) = true -> fst (store r set w) = Ok tt.
Proof.
  unfold sound, store, when, json, bind. destruct (ok r); [|reflexivity].
  destruct (body r); simpl; [discriminate | reflexivity].
Qed.



Lemma prop_defined (x : JsVal) (k : string) :
  is_null x = false -> is_undefined x = false -> prop x k = ret (member x k).
Proof. destruct x; simpl; intros; try discriminate; reflexivity. Qed.

Lemma js_or_defined (a b : JsVal) :
  is_null b = false -> is_undefined b = false ->
  is_null (js_or a b) = false /\ is_undefined (js_or a b) = false.
Proof.
  intros Hn Hu. unfold js_or. destruct (truthy a) eqn:Ha; [|auto].
  destruct a; simpl in *; try discriminate; auto.
Qed.

Lemma bind_ret {A C} (a : A) (k : A -> JS C) (w : World) : bind (ret a) k w = k a w.
Proof. reflexivity. Qed.

Lemma bind_update {C} (g : State -> State) (k : unit -> JS C) (w : World) :
  bind (update g) k w = k tt (with_state g w).
Proof. reflexivity. Qed.

Lemma bind_get {C} (k : World -> JS C) (w : World) : bind get k w = k w w.
Proof. reflexivity. Qed.

Lemma bind_when_update {C} (b : bool) (g : State -> State) (k : unit -> JS C) (w : World) :
  bind (when b (update g)) k w = k tt (if b then with_state g w else w).
Proof. destruct b; reflexivity. Qed.

Lemma apply_metrics_ok (v : Variant) (r : Response) (w : World) :
  sound (Responded r) = true -> storable v (Responded r) = true ->
  fst (when (ok r) (apply_metrics v r) w) = Ok tt
  /\ metrics (state (run (when (ok r) (apply_metrics v r)) w))
     = applied_metrics v (Responded r) (metrics (state w)).
Proof.
  unfold sound, storable, applied_metrics, when, run.
  destruct (ok r); [|intros; split; reflexivity]. simpl.
  unfold apply_metrics, json. destruct (body r) as [e|x]; [discriminate|].
  intros _ Hx. destruct v; [|split; reflexivity].
  assert (Hn : is_null x = false) by (destruct x; try reflexivity; discriminate).
  assert (Hu : is_undefined x = false) by (destruct x; try reflexivity; discriminate).
  destruct (js_or_defined (member x "metrics") x Hn Hu) as [Hn' Hu'].
  rewrite bind_ret, (prop_defined x "metrics" Hn Hu), bind_ret, bind_update.
  rewrite !bind_when_update, bind_get.
  match goal with
  | |- context [prop ?m "execution_mode"] =>
      replace (prop m "execution_mode") with (ret (member m "execution_mode"))
  end.
  - rewrite bind_ret. split; [reflexivity|]. simpl.
    destruct (truthy (member x "data_engine_status")), (truthy (member x "market_data"));
      reflexivity.
  - symmetry. apply prop_defined.
    + destruct (truthy (member x "data_engine_status")), (truthy (member x "market_data"));
        exact Hn'.
    + destruct (truthy (member x "data_engine_status")), (truthy (member x "market_data"));
        exact Hu'.
Qed.
Lemma keeps_store {B} (f : World -> B) (r : Response) (set : JsVal -> State -> State) :
  (forall x, blind_to f (with_state (set x))) -> keeps f (store r set).
Proof.
  intros Hf w. rewrite store_run. destruct (ok r); [|reflexivity].
  destruct (body r); [reflexivity | apply Hf].
Qed.

Lemma store_own (proj : State -> JsVal) (r : Response) (set : JsVal -> State -> State)
    (w : World) :
  (forall x s, proj (set x s) = x) ->
  proj (state (run (store r set) w)) = applied (Responded r) (proj (state w)).
Proof.
  intros Hp. rewrite store_run. unfold applied. destruct (ok r); [|reflexivity].
  destruct (body r); [reflexivity | apply Hp].
Qed.

Lemma dispatchEvent_ok (m : JS unit) (w : World) : fst (dispatchEvent m w) = Ok tt.
Proof.
  unfold dispatchEvent, try_catch. destruct (m w) as [[[]|e] w1]; reflexivity.
Qed.

Lemma storeBalance_ok (v : Variant) (pg : Page) (r : Response) (w : World) :
  sound (Responded r) = true -> fst (storeBalance v pg r w) = Ok tt.
Proof.
  unfold sound, storeBalance, when, json. destruct (ok r); [|reflexivity].
  destruct (body r) as [e|x]; simpl; [discriminate|]. intros _.
  rewrite bind_ret, bind_update. apply dispatchEvent_ok.
Qed.

Lemma storeBalance_run (v : Variant) (pg : Page) (r : Response) (w : World) :
  run (storeBalance v pg r) w
  = if ok r
    then match body r with
         | inr x => run (dispatchEvent (accountUpdateListener v pg x))
                        (with_state (set_account_update x) w)
         | inl _ => w
         end
    else w.
Proof.
  unfold storeBalance, when, json, run. destruct (ok r); [|reflexivity].
  destruct (body r); reflexivity.
Qed.

Lemma keeps_storeBalance {B} (f : World -> B) (v : Variant) (pg : Page) (r : Response) :
  (forall x, blind_to f (with_state (set_account_update x))) ->
  (forall x, keeps f (dispatchEvent (accountUpdateListener v pg x))) ->
  keeps f (storeBalance v pg r).
Proof.
  intros Hf Hd w. rewrite storeBalance_run. destruct (ok r); [|reflexivity].
  destruct (body r); [reflexivity|]. rewrite Hd. apply Hf.
Qed.


(** The fields of the five simple endpoints are out of reach of the
    listener and of the dashboard refresh. *)
Lemma dispatch_listener_field (e : Endpoint) (v : Variant) (pg : Page) (x : JsVal) :
  keeps (fun w => field_of e (state w)) (dispatchEvent (accountUpdateListener v pg x)).
Proof.
  apply keeps_dispatchEvent; try blind.
  apply keeps_accountUpdateListener; try blind; destruct e; blind.
Qed.

Lemma storeBalance_own (v : Variant) (pg : Page) (r : Response) (w : World) :
  account_update (state (run (storeBalance v pg r) w))
  = applied (Responded r) (account_update (state w)).
Proof.
  rewrite storeBalance_run. unfold applied. destruct (ok r); [|reflexivity].
  destruct (body r); [reflexivity|].
  apply (dispatch_listener_field Balance).
Qed.

Lemma keeps_apply_metrics {B} (f : World -> B) (v : Variant) (r : Response) :
  (forall x, blind_to f (with_state (set_metrics x))) ->
  (forall x, blind_to f (with_state (set_market_data x))) ->
  (forall x, blind_to f (with_state (set_dataEngineStatus x))) ->
  (forall x, blind_to f (with_state (set_executionMode x))) ->
  keeps f (when (ok r) (apply_metrics v r)).
Proof. intros H1 H2 H3 H4. unfold apply_metrics. frame; auto. Qed.

(** The snapshot part as a chain of its blocks, when every request
    resolves and no block throws. *)
Lemma syncSnapshot_chain (v : Variant) (mr tr lr ar sr dr : Response) (nw : Z) (pg : Page)
    (w : World) :
  let inp := mkTickInput (Responded mr) (Responded tr) (Responded lr) (Responded ar)
                         (Responded sr) (Responded dr) nw pg in
  clean v inp = true ->
  let w0 := log_request "/api/v1/account/balance"
              (log_request "/api/v1/alerts/logs"
                (log_request "/api/v1/trades/open"
                  (log_request "/api/v1/dashboard/metrics" w))) in
  let w1 := run (when (ok mr) (apply_metrics v mr)) w0 in
  let w2 := run (store tr set_trades) w1 in
  let w3 := run (store lr set_logs) w2 in
  let w4 := run (storeBalance v pg ar) w3 in
  let w5 := log_request "/api/v1/agents/audit" (log_request "/api/v1/agents/status" w4) in
  let w6 := run (store sr set_agentV2Status) w5 in
  syncSnapshot v inp w = store dr set_auditTrail w6
  /\ metrics (state w1) = applied_metrics v (Responded mr) (metrics (state w)).
Proof.
  intros inp Hc w0 w1 w2 w3 w4 w5 w6.
  unfold clean in Hc. simpl in Hc. rewrite !andb_true_iff in Hc.
  destruct Hc as [[[[[[Hm Hms] Ht] Hl] Ha] Hs] Hd].
  destruct (apply_metrics_ok v mr w0 Hm Hms) as [Hok Hmet]. split; [|exact Hmet].
  unfold syncSnapshot. simpl. rewrite !bind_fetch_responded.
  fold w0. rewrite (bind_run _ _ w0 tt Hok). fold w1.
  rewrite (bind_run _ _ w1 tt (store_ok tr set_trades _ Ht)). fold w2.
  rewrite (bind_run _ _ w2 tt (store_ok lr set_logs _ Hl)). fold w3.
  rewrite (bind_run _ _ w3 tt (storeBalance_ok v pg ar _ Ha)). fold w4.
  rewrite !bind_fetch_responded. fold w5.
  rewrite (bind_run _ _ w5 tt (store_ok sr set_agentV2Status _ Hs)). fold w6.
  reflexivity.
Qed.

(** A tick in which every request resolves and every OK body decodes:
    nothing throws, every endpoint with an OK response is stored and every
    other field keeps its value. *)
Lemma syncSnapshot_clean (v : Variant) (inp : TickInput) (w : World) :
  clean v inp = true ->
  fst (syncSnapshot v inp w) = Ok tt
  /\ metrics_core (run (syncSnapshot v inp) w)
     = without_members written_through (applied_metrics v (mResp inp) (metrics (state w)))
  /\ forall e, field_of e (state (run (syncSnapshot v inp) w))
               = applied (response_of e inp) (field_of e (state w)).
Proof.
  intros Hc.
  destruct inp as [mo to lo ao so do nw pg].
  assert (Hc' := Hc). unfold clean in Hc'. simpl in Hc'. rewrite !andb_true_iff in Hc'.
  destruct Hc' as [[[[[[Hm Hms] Ht] Hl] Ha] Hs] Hd].
  destruct mo as [|mr]; [discriminate|]. destruct to as [|tr]; [discriminate|].
  destruct lo as [|lr]; [discriminate|]. destruct ao as [|ar]; [discriminate|].
  destruct so as [|sr]; [discriminate|]. destruct do as [|dr]; [discriminate|].
  destruct (syncSnapshot_chain v mr tr lr ar sr dr nw pg w Hc) as [E Hmet].
  cbv zeta in E, Hmet. unfold run at 1 2. rewrite E.
  set (w0 := log_request _ (log_request _ (log_request _ (log_request _ w)))) in *.
  set (w1 := run (when (ok mr) (apply_metrics v mr)) w0) in *.
  set (w2 := run (store tr set_trades) w1) in *.
  set (w3 := run (store lr set_logs) w2) in *.
  set (w4 := run (storeBalance v pg ar) w3) in *.
  set (w5 := log_request _ (log_request _ w4)) in *.
  set (w6 := run (store sr set_agentV2Status) w5) in *.
  fold (run (store dr set_auditTrail) w6).
  split; [apply store_ok, Hd|]. split.
  - rewrite (keeps_store metrics_core dr set_auditTrail) by blind.
    unfold w6. rewrite (keeps_store metrics_core sr set_agentV2Status) by blind.
    change (metrics_core w5) with (metrics_core w4).
    unfold w4. rewrite (keeps_storeBalance metrics_core)
      by (first [blind | intros; apply dispatch_listener_metrics_core]).
    unfold w3. rewrite (keeps_store metrics_core lr set_logs) by blind.
    unfold w2. rewrite (keeps_store metrics_core tr set_trades) by blind.
    unfold metrics_core. rewrite Hmet. reflexivity.
  - intros e.
    assert (H1 : field_of e (state w1) = field_of e (state w)).
    { unfold w1. rewrite (keeps_apply_metrics (fun w => field_of e (state w)))
        by (destruct e; blind). destruct e; reflexivity. }
    destruct e; simpl in *.
    + rewrite (keeps_store (fun w => trades (state w))) by blind.
      unfold w6. rewrite (keeps_store (fun w => trades (state w))) by blind.
      change (trades (state w5)) with (trades (state w4)).
      unfold w4. rewrite (keeps_storeBalance (fun w => trades (state w)))
        by (first [blind | intros; apply (dispatch_listener_field Trades)]).
      unfold w3. rewrite (keeps_store (fun w => trades (state w))) by blind.
      unfold w2. rewrite (store_own trades) by reflexivity. rewrite H1. reflexivity.
    + rewrite (keeps_store (fun w => logs (state w))) by blind.
      unfold w6. rewrite (keeps_store (fun w => logs (state w))) by blind.
      change (logs (state w5)) with (logs (state w4)).
      unfold w4. rewrite (keeps_storeBalance (fun w => logs (state w)))
        by (first [blind | intros; apply (dispatch_listener_field Logs)]).
      unfold w3. rewrite (store_own logs) by reflexivity.
      unfold w2. rewrite (keeps_store (fun w => logs (state w))) by blind.
      rewrite H1. reflexivity.
    + rewrite (keeps_store (fun w => account_update (state w))) by blind.
      unfold w6. rewrite (keeps_store (fun w => account_update (state w))) by blind.
      change (account_update (state w5)) with (account_update (state w4)).
      unfold w4. rewrite storeBalance_own.
      unfold w3. rewrite (keeps_store (fun w => account_update (state w))) by blind.
      unfold w2. rewrite (keeps_store (fun w => account_update (state w))) by blind.
      rewrite H1. reflexivity.
    + rewrite (keeps_store (fun w => agentV2Status (state w))) by blind.
      unfold w6. rewrite (store_own agentV2Status) by reflexivity.
      change (agentV2Status (state w5)) with (agentV2Status (state w4)).
      unfold w4. rewrite (keeps_storeBalance (fun w => agentV2Status (state w)))
        by (first [blind | intros; apply (dispatch_listener_field AgentStatus)]).
      unfold w3. rewrite (keeps_store (fun w => agentV2Status (state w))) by blind.
      unfold w2. rewrite (keeps_store (fun w => agentV2Status (state w))) by blind.
      rewrite H1. reflexivity.
    + rewrite (store_own auditTrail) by reflexivity.
      unfold w6. rewrite (keeps_store (fun w => auditTrail (state w))) by blind.
      change (auditTrail (state w5)) with (auditTrail (state w4)).
      unfold w4. rewrite (keeps_storeBalance (fun w => auditTrail (state w)))
        by (first [blind | intros; apply (dispatch_listener_field Audit)]).
      unfold w3. rewrite (keeps_store (fun w => auditTrail (state w))) by blind.
      unfold w2. rewrite (keeps_store (fun w => auditTrail (state w))) by blind.
      rewrite H1. reflexivity.
Qed.


(** *** The tick as a whole *)

Lemma fetchSystemData_ok `{Host} (v : Variant) (inp : TickInput) (w : World) :
  fst (fetchSystemData v inp w) = Ok tt.
Proof.
  unfold fetchSystemData. rewrite bind_get.
  destruct (isAuth (state w)); simpl; [|reflexivity].
  unfold try_catch. destruct (fetchSystemData_body v inp w) as [[[]|e] w1]; reflexivity.
Qed.


Lemma tick_signed_out `{Host} (v : Variant) (w : World) (inp : TickInput) :
  isAuth (state w) = false -> tick v w inp = w.
Proof. intros Ha. unfold tick, fetchSystemData. rewrite run_bind_get, Ha. reflexivity. Qed.








Lemma clean_answered (v : Variant) (inp : TickInput) :
  clean v inp = answered inp && storable v (mResp inp).
Proof.
  unfold clean, answered.
  destruct (sound (mResp inp)), (storable v (mResp inp)), (sound (tResp inp)),
    (sound (lResp inp)), (sound (aResp inp)), (sound (sResp inp)), (sound (dResp inp));
    reflexivity.
Qed.



(** *** Alignment of the three arrays *)

Lemma push_trim_aligned (h : list JsVal) (t f : list string) (x : JsVal) (ct ft : string) :
  length t = length h -> length f = length h ->
  let '(h', t', f') := push_trim (h, t, f) x ct ft in
  length t' = length h' /\ length f' = length h'.
Proof.
  intros Ht Hf. unfold push_trim, js_push, js_shift.
  destruct (MAX_HISTORY <? length (h ++ [x])).
  - destruct h as [|a h], t as [|b t], f as [|c f]; try discriminate; simpl in *;
      rewrite ?length_app; simpl; lia.
  - rewrite !length_app. simpl. lia.
Qed.

(** The append-then-trim of a tick keeps the three arrays equally long. *)
Lemma tick_aligned `{Host} (v : Variant) (w : World) (inp : TickInput) :
  aligned w -> aligned (tick v w inp).
Proof.
  intros [Ht Hf]. unfold aligned in *.
  destruct (tick_buffer v w inp) as [Hb | (mid & _ & _ & Hb)].
  - unfold buffer in Hb. injection Hb as -> -> ->. auto.
  - pose proof (push_trim_aligned _ _ _ (member mid "daily_pnl")
                  (compressedTimeOf (now inp)) (fullTimeOf (now inp)) Ht Hf) as Hl.
    unfold buffer in Hb at 2. rewrite <- Hb in Hl. exact Hl.
Qed.

Lemma ticks_aligned `{Host} (v : Variant) (inps : list TickInput) (w : World) :
  aligned w -> aligned (ticks v w inps).
Proof.
  revert w. induction inps as [|inp inps IH]; intros w Hw; [exact Hw|].
  unfold ticks. simpl. apply IH, tick_aligned, Hw.
Qed.

Lemma page_load_aligned : aligned page_load.
Proof. split; reflexivity. Qed.

(** What the reset does when it is confirmed: the logs and the values
    array are emptied, the page reload is requested, and the two timestamp
    arrays are left as they are. *)
Lemma controlSystem_reset `{Host} (v : Variant) (post : FetchOutcome) (resync : TickInput)
    (w : World) :
  let w' := run (controlSystem v "reset" true post resync) w in
  pnlHistory (state w') = []
  /\ logs (state w') = JArr []
  /\ pnlTimestamps (state w') = pnlTimestamps (state w)
  /\ pnlFullTimestamps (state w') = pnlFullTimestamps (state w)
  /\ reloads w' = S (reloads w).
Proof. repeat split. Qed.

(** C5. The reset breaks the equal lengths the claim asserts: run on a
    session that has recorded one point, it leaves the values array empty
    and both timestamp arrays with their one entry, and a tick that runs
    before the page is torn down appends to the misaligned arrays. (The
    per-tick part of the claim holds, see [tick_aligned].) *)
Theorem reset_leaves_timestamps :
  let w' := run (controlSystem (H:=sample_host) Current "reset" true network_down
                               (sample_tick (http_error 500))) sample_world in
  let w'' := tick (H:=sample_host) Current w' (sample_tick (http_error 500)) in
  aligned sample_world
  /\ pnlHistory (state w') = []
  /\ pnlTimestamps (state w') = ["09:15:00"]
  /\ pnlFullTimestamps (state w') = ["Jan 1, 09:15:00"]
  /\ ~ aligned w'
  /\ length (pnlHistory (state w'')) = 1
  /\ length (pnlTimestamps (state w'')) = 2
  /\ length (pnlFullTimestamps (state w'')) = 2.
Proof.
  repeat split; try reflexivity.
  intros [E _]. vm_compute in E. discriminate E.
Qed.

(** *** When a point is appended *)



(** *** The buffer is a bounded queue *)

(** What a tick does to the buffer, for every tick. *)
Lemma tick_buffer_exact `{Host} (v : Variant) (w : World) (inp : TickInput) :
  buffer (tick v w inp)
  = if appends_point v inp w
    then push_trim (buffer w) (appended_value v inp w)
                   (compressedTimeOf (now inp)) (fullTimeOf (now inp))
    else buffer w.
Proof.
  unfold appends_point, appended_value, tick, fetchSystemData. rewrite run_bind_get.
  destruct (isAuth (state w)); simpl negb; cbv iota; [|reflexivity]. cbn [andb].
  rewrite (run_try_catch_keeps buffer) by (intros e; apply keeps_modify; blind).
  unfold fetchSystemData_body.
  destruct (run_bind_cases (syncSnapshot v inp)
              (fun _ => bind (trackPnl (page inp) (now inp)) (fun _ => refreshDashboard v inp)) w)
    as [(e & He & Hr) | (a & Ha & Hr)]; rewrite Hr.
  - rewrite He. cbn [returned andb]. apply syncSnapshot_buffer.
  - rewrite Ha. cbn [returned andb].
    rewrite (run_bind_keeps_tail buffer) by (intros _; apply refreshDashboard_buffer).
    rewrite trackPnl_buffer, (syncSnapshot_buffer v inp w). reflexivity.
Qed.

(** In a tick in which nothing throws before the history step, the
    snapshot at the history step is the one the metrics response of the
    tick leaves, up to the two members written through. *)
Lemma appends_point_clean (v : Variant) (inp : TickInput) (w : World) :
  isAuth (state w) = true -> clean v inp = true ->
  let m := applied_metrics v (mResp inp) (metrics (state w)) in
  appends_point v inp w = truthy m /\ appended_value v inp w = member m "daily_pnl".
Proof.
  intros Ha Hc m. destruct (syncSnapshot_clean v inp w Hc) as (Hok & Hm & _).
  assert (Hs : same_but written_through (metrics (state (run (syncSnapshot v inp) w))) m)
    by exact Hm.
  unfold appends_point, appended_value. rewrite Ha, Hok. cbn [returned andb]. split.
  - apply (same_but_truthy _ _ _ Hs).
  - apply (same_but_member _ _ _ "daily_pnl" Hs). reflexivity.
Qed.

(** C4. Along every sequence of ticks the three history arrays stay
    within [MAX_HISTORY] = 900 entries, and the buffer is a queue. A tick
    appends exactly when it reaches its history step with a metrics
    snapshot known (the session is signed in, the snapshot part of the
    tick did not throw and [state.metrics] is set), and then it appends
    exactly one point, the [daily_pnl] of that snapshot with the two
    renderings of the instant of the tick: below capacity the point is
    added at the end and nothing is dropped; at capacity the oldest point
    is dropped from the front as the new one is added at the end, and the
    buffer stays at capacity. Every other tick leaves the buffer as it is.
    In a tick in which every request resolves, every OK body decodes and
    the metrics payload can be stored, the snapshot is the one the metrics
    response of the tick leaves. Holds for both copies of the script. *)
Theorem history_bounded_fifo `{Host} (v : Variant) (w : World)
    (inps : list TickInput) (inp : TickInput) :
  aligned w -> buffer_length w <= MAX_HISTORY ->
  let w1 := ticks v w inps in
  let w2 := tick v w1 inp in
  let x := appended_value v inp w1 in
  let ct := compressedTimeOf (now inp) in
  let ft := fullTimeOf (now inp) in
  MAX_HISTORY = 900
  /\ length (pnlHistory (state w1)) <= MAX_HISTORY
  /\ length (pnlTimestamps (state w1)) <= MAX_HISTORY
  /\ length (pnlFullTimestamps (state w1)) <= MAX_HISTORY
  /\ (appends_point v inp w1 = false -> buffer w2 = buffer w1)
  /\ (appends_point v inp w1 = true -> buffer_length w1 < MAX_HISTORY ->
      buffer w2 = (pnlHistory (state w1) ++ [x],
                   pnlTimestamps (state w1) ++ [ct],
                   pnlFullTimestamps (state w1) ++ [ft]))
  /\ (appends_point v inp w1 = true -> buffer_length w1 = MAX_HISTORY ->
      buffer w2 = (tail (pnlHistory (state w1)) ++ [x],
                   tail (pnlTimestamps (state w1)) ++ [ct],
                   tail (pnlFullTimestamps (state w1)) ++ [ft])
      /\ buffer_length w2 = MAX_HISTORY)
  /\ (isAuth (state w1) = true -> answered inp = true -> storable v (mResp inp) = true ->
      let m := applied_metrics v (mResp inp) (metrics (state w1)) in
      appends_point v inp w1 = truthy m /\ x = member m "daily_pnl").
Proof.
  intros Ha Hl w1 w2 x ct ft.
  assert (Hw1 : within_capacity w1) by (apply ticks_within_capacity; split; assumption).
  destruct Hw1 as [[Ht Hf] Hh]. unfold buffer_length in *.
  pose proof (tick_buffer_exact v w1 inp) as Hb. fold w2 x ct ft in Hb.
  split; [reflexivity|]. split; [exact Hh|]. split; [lia|]. split; [lia|].
  split; [intros Hp; rewrite Hp in Hb; exact Hb|].
  split; [|split].
  - intros Hp Hlt. rewrite Hp in Hb. rewrite Hb. unfold buffer.
    destruct (push_trim_fifo _ _ _ x ct ft Ht Hf Hh) as [[_ E] | [E _]]; [exact E | lia].
  - intros Hp Heq. rewrite Hp in Hb. unfold buffer in Hb at 2.
    destruct (push_trim_fifo _ _ _ x ct ft Ht Hf Hh) as [[E _] | [_ E]]; [lia|].
    rewrite E in Hb. split; [exact Hb|].
    unfold buffer in Hb. injection Hb as Hh2 _ _. rewrite Hh2, length_app.
    destruct (pnlHistory (state w1)) as [|a h]; [simpl in Heq; discriminate Heq|].
    simpl in *. lia.
  - intros Hauth Hans Hst.
    apply appends_point_clean; [exact Hauth|].
    rewrite clean_answered, Hans, Hst. reflexivity.
Qed.

Lemma history_bounded_fifo_witness :
  let inp := sample_tick (ok_json (JObj [("daily_pnl", JNum 42)])) in
  let w1 := ticks (H:=sample_host) Current full_world [] in
  let w2 := tick (H:=sample_host) Current w1 inp in
  aligned full_world
  /\ buffer_length full_world <= MAX_HISTORY
  /\ appends_point Current inp w1 = true
  /\ buffer_length w1 = MAX_HISTORY
  /\ pnlHistory (state w1) = JNum 1 :: replicate 899 (JNum 10)
  /\ appended_value Current inp w1 = JNum 42
  /\ buffer w2
     = (tail (pnlHistory (state w1)) ++ [appended_value Current inp w1],
        tail (pnlTimestamps (state w1)) ++ [@compressedTimeOf sample_host (now inp)],
        tail (pnlFullTimestamps (state w1)) ++ [@fullTimeOf sample_host (now inp)])
  /\ buffer_length w2 = MAX_HISTORY.
Proof.
  intros inp w1 w2.
  assert (Ha : aligned full_world).
  { split; unfold full_world; cbn [with_state state pnlTimestamps pnlFullTimestamps
      pnlHistory set_pnlFullTimestamps set_pnlTimestamps set_pnlHistory set_metrics];
      cbn [length]; rewrite !length_replicate; reflexivity. }
  assert (Hn : buffer_length full_world = MAX_HISTORY).
  { unfold buffer_length, full_world. cbn [with_state state pnlHistory
      set_pnlFullTimestamps set_pnlTimestamps set_pnlHistory set_metrics].
    cbn [length]. rewrite length_replicate. reflexivity. }
  assert (Hl : buffer_length full_world <= MAX_HISTORY) by (rewrite Hn; apply Nat.le_refl).
  assert (Hp : appends_point Current inp w1 = true) by (vm_compute; reflexivity).
  destruct (history_bounded_fifo (H:=sample_host) Current full_world [] inp Ha Hl)
    as (_ & _ & _ & _ & _ & _ & Hfull & _).
  destruct (Hfull Hp Hn) as [Hb Hlen].
  split; [exact Ha|]. split; [exact Hl|]. split; [exact Hp|]. split; [exact Hn|].
  split; [reflexivity|]. split; [vm_compute; reflexivity|]. split; [|exact Hlen].
  exact Hb.
Defined.

(** ** The downsampler *)

Lemma most_recent_drop {A} (limit : nat) (l : list A) :
  most_recent limit l = drop (length l - limit) l.
Proof. unfold most_recent. rewrite take_reverse. apply reverse_involutive. Qed.

(** The window the code cuts is the one the specification describes. *)
Lemma js_slice_most_recent {A} (p : Z) (l : list A) (len : nat) :
  (0 <= p)%Z -> len = length l ->
  js_slice (start_index len (Some p)) l = most_recent (Z.to_nat p) l.
Proof.
  intros Hp ->. rewrite most_recent_drop. unfold js_slice, start_index. simpl.
  f_equal. lia.
Qed.

Lemma on_stride_nat (s i : nat) :
  0 < s -> on_stride (Some (Z.of_nat s)) i = (i mod s =? 0).
Proof.
  intros Hs. unfold on_stride. rewrite <- Nat2Z.inj_mod.
  destruct (i mod s =? 0) eqn:E.
  - apply Nat.eqb_eq in E. rewrite E. reflexivity.
  - apply Nat.eqb_neq in E. apply Z.eqb_neq. lia.
Qed.

(** Keeping the positions that are multiples of the stride is keeping
    every [s]-th element; [skip] is the distance from position [i] to the
    next multiple. *)
Lemma filter_from_every_nth {A} (s : nat) (l : list A) (i skip q : nat) :
  0 < s -> skip < s -> i + skip = q * s ->
  filter_from (fun j => j mod s =? 0) i l = every_nth_after s skip l.
Proof.
  intros Hs. revert i skip q. induction l as [|x rest IH]; intros i skip q Hk Hq; [reflexivity|].
  simpl. destruct skip as [|k].
  - replace (i mod s) with 0.
    + simpl. f_equal. apply (IH (S i) (s - 1) (S q)); simpl; lia.
    + symmetry. rewrite Nat.add_0_r in Hq. subst i. apply Nat.Div0.mod_mul.
  - destruct (i mod s =? 0) eqn:E.
    + exfalso. apply Nat.eqb_eq in E.
      pose proof (Nat.div_mod_eq i s) as Hd. rewrite E in Hd.
      assert (Hlt : i < q * s) by lia.
      assert (Heq : S k = (q - i / s) * s) by nia.
      destruct (q - i / s) as [|n]; simpl in Heq; [discriminate | lia].
    + apply (IH (S i) k q); lia.
Qed.

Lemma filter_from_ext {A} (p p' : nat -> bool) (i : nat) (l : list A) :
  (forall j, p j = p' j) -> filter_from p i l = filter_from p' i l.
Proof.
  intros Hp. revert i. induction l as [|x rest IH]; intros i; [reflexivity|].
  simpl. rewrite Hp, IH. reflexivity.
Qed.

Lemma js_filter_index_every_nth {A} (s : Z) (l : list A) :
  (0 < s)%Z ->
  js_filter_index (on_stride (Some s)) l = every_nth (Z.to_nat s) l.
Proof.
  intros Hs. unfold js_filter_index, every_nth.
  rewrite <- (filter_from_every_nth (Z.to_nat s) l 0 0 0) by lia.
  apply filter_from_ext. intros j.
  replace s with (Z.of_nat (Z.to_nat s)) at 1 by lia.
  apply on_stride_nat. lia.
Qed.

Lemma every_nth_one {A} (l : list A) : every_nth 1 l = l.
Proof.
  unfold every_nth. induction l as [|x rest IH]; [reflexivity|]. simpl. f_equal. exact IH.
Qed.

Lemma length_every_nth_after {A} (s skip : nat) (l : list A) :
  0 < s -> skip < s ->
  length (every_nth_after s skip l) = (length l + s - 1 - skip) / s.
Proof.
  intros Hs. revert skip. induction l as [|x rest IH]; intros skip Hk.
  - simpl. symmetry. apply Nat.div_small. lia.
  - cbn [every_nth_after length]. destruct skip as [|k].
    + cbn [length]. rewrite IH by lia.
      assert (E1 : length rest + s - 1 - (s - 1) = length rest) by lia.
      assert (E2 : S (length rest) + s - 1 - 0 = length rest + 1 * s) by lia.
      rewrite E1, E2, Nat.div_add by lia. lia.
    + rewrite IH by lia. f_equal. lia.
Qed.

Lemma length_every_nth {A} (s : nat) (l : list A) :
  0 < s -> length (every_nth s l) = ceil_div (length l) s.
Proof.
  intros Hs. unfold every_nth, ceil_div. rewrite length_every_nth_after by lia.
  f_equal. lia.
Qed.

Lemma length_most_recent {A} (limit : nat) (l : list A) :
  length (most_recent limit l) = Nat.min (length l) limit.
Proof. rewrite most_recent_drop, length_drop. lia. Qed.

Lemma length_spec_downsample {A} (limit stride : nat) (l : list A) :
  0 < stride ->
  length (spec_downsample limit stride l) = ceil_div (Nat.min (length l) limit) stride.
Proof.
  intros Hs. unfold spec_downsample. rewrite length_every_nth by exact Hs.
  rewrite length_most_recent. reflexivity.
Qed.
Lemma fst_bind_get {A} (k : World -> JS A) (w : World) :
  fst (bind get k w) = fst (k w w).
Proof. reflexivity. Qed.

Lemma getFilteredChartData_synthetic `{Host} (w : World) (nw : Z) :
  synthetic_branch (state w) = true ->
  exists view,
    fst (getFilteredChartData nw w) = Ok view
    /\ length (labels view) = pointsCount
    /\ length (data view) = pointsCount
    /\ length (fullTimestamps view) = pointsCount.
Proof.
  intros Hs. unfold getFilteredChartData. rewrite fst_bind_get.
  cbv beta iota zeta. fold (synthetic_branch (state w)). rewrite Hs.
  unfold mockHistoricalData.
  destruct (mock_loop_ok pointsCount 0 nw 500%Q (mkChartData [] [] []) w)
    as (c & Hc & Hl & Hd & Hf).
  exists c. cbn [labels data fullTimestamps length Nat.add] in Hl, Hd, Hf. auto.
Qed.

Lemma getFilteredChartData_real `{Host} (w : World) (nw : Z) (cfg : RangeCfg) :
  aligned w ->
  rangeConfig_get (chartTimeRange (state w)) = Some (OwnEntry cfg) ->
  (0 <= points cfg)%Z -> (0 < step cfg)%Z ->
  synthetic_branch (state w) = false ->
  fst (getFilteredChartData nw w)
  = Ok (spec_view (Z.to_nat (points cfg)) (Z.to_nat (step cfg)) (state w)).
Proof.
  intros [Ht Hf] Hcfg Hp Hs Hb. unfold getFilteredChartData. rewrite fst_bind_get.
  cbv beta iota zeta. fold (synthetic_branch (state w)). rewrite Hb, Hcfg.
  cbv beta iota.
  change (default (OwnEntry (mkCfg 500 1)) (Some (OwnEntry cfg))) with (OwnEntry cfg).
  cbn [cfg_points cfg_step].
  rewrite (js_slice_most_recent (points cfg) (pnlHistory (state w))) by auto.
  rewrite (js_slice_most_recent (points cfg) (pnlTimestamps (state w))) by auto.
  rewrite (js_slice_most_recent (points cfg) (pnlFullTimestamps (state w))) by auto.
  unfold spec_view, spec_downsample, step_gt_1.
  destruct (1 <? step cfg)%Z eqn:E.
  - rewrite !js_filter_index_every_nth by exact Hs. reflexivity.
  - assert (E1 : step cfg = 1%Z) by lia. rewrite E1.
    change (Z.to_nat 1) with 1. rewrite !every_nth_one. reflexivity.
Qed.

Lemma supported_range_config (range : string) :
  In range supported_ranges ->
  rangeConfig_get range = Some (OwnEntry (config_of range))
  /\ (0 <= points (config_of range))%Z /\ (0 < step (config_of range))%Z.
Proof.
  unfold supported_ranges. simpl.
  intros [<-|[<-|[<-|[<-|[<-|[<-|[]]]]]]]; vm_compute; repeat split; congruence.
Qed.

Lemma ceil_div_one (n : nat) : ceil_div n 1 = n.
Proof. unfold ceil_div. rewrite Nat.div_1_r. lia. Qed.

(** C6. For every buffer whose three arrays are equally long and every
    supported range, the downsampler returns three sequences of one common
    length. In the synthetic branch that length is 100. In the real-data
    branch the view is the most recent [pointLimit] points with every
    [strideStep]-th point kept, of length ceil(min(n, pointLimit) /
    strideStep); so min(n, 500) at 1D, 30 for 60 points at 5D and 240 for
    20000 points at 1Y. *)
Theorem downsample_view `{Host} (w : World) (nw : Z) :
  aligned w -> In (chartTimeRange (state w)) supported_ranges ->
  let range := chartTimeRange (state w) in
  let n := buffer_length w in
  exists view,
    fst (getFilteredChartData nw w) = Ok view
    /\ length (labels view) = length (data view)
    /\ length (fullTimestamps view) = length (data view)
    /\ (synthetic_branch (state w) = true -> length (data view) = 100)
    /\ (synthetic_branch (state w) = false ->
        view = spec_view (point_limit range) (stride_step range) (state w)
        /\ length (data view)
           = ceil_div (Nat.min n (point_limit range)) (stride_step range))
    /\ (range = "1D" -> length (data view) = Nat.min n 500)
    /\ (range = "5D" -> n = 60 -> length (data view) = 30)
    /\ (range = "1Y" -> Z.of_nat n = 20000%Z -> length (data view) = 240).
Proof.
  intros Ha Hin range n.
  destruct (supported_range_config range Hin) as (Hcfg & Hp & Hs).
  destruct (synthetic_branch (state w)) eqn:Hb.
  - destruct (getFilteredChartData_synthetic w nw Hb) as (view & Hv & Hl & Hd & Hf).
    exists view. split; [exact Hv|]. unfold pointsCount in *.
    split; [congruence|]. split; [congruence|]. split; [auto|]. split; [discriminate|].
    unfold synthetic_branch in Hb. apply andb_true_iff in Hb. destruct Hb as [Hlt Hne].
    fold range in Hne. change (length (pnlHistory (state w))) with n in Hlt.
    split; [|split].
    + intros E. rewrite E in Hne. discriminate.
    + intros _ E. rewrite E in Hlt. vm_compute in Hlt. discriminate.
    + intros _ E. apply Nat.ltb_lt in Hlt. lia.
  - exists (spec_view (point_limit range) (stride_step range) (state w)).
    assert (Hlen : forall A (l : list A), length l = n ->
              length (spec_downsample (point_limit range) (stride_step range) l)
              = ceil_div (Nat.min n (point_limit range)) (stride_step range)).
    { intros A l Hl. rewrite length_spec_downsample by (unfold stride_step; lia).
      rewrite Hl. reflexivity. }
    destruct Ha as [Ht Hf].
    split; [apply (getFilteredChartData_real w nw (config_of range)); auto; split; auto|].
    unfold spec_view. simpl labels. simpl data. simpl fullTimestamps.
    rewrite (Hlen _ (pnlHistory (state w)) eq_refl).
    rewrite (Hlen _ (pnlTimestamps (state w)) Ht).
    rewrite (Hlen _ (pnlFullTimestamps (state w)) Hf).
    split; [reflexivity|]. split; [reflexivity|]. split; [discriminate|].
    split; [intros _; split; reflexivity|].
    split; [|split].
    + intros E. rewrite E. change (stride_step "1D") with 1.
      change (point_limit "1D") with (Z.to_nat 500). rewrite ceil_div_one. lia.
    + intros E En. rewrite E, En. vm_compute. reflexivity.
    + intros E En. assert (En' : n = Z.to_nat 20000) by lia.
      rewrite E, En'. vm_compute. reflexivity.
Qed.

Lemma downsample_view_witness :
  aligned (world_with_history 60 "5D")
  /\ In "5D" supported_ranges
  /\ exists view,
       fst (getFilteredChartData (H:=sample_host) 0 (world_with_history 60 "5D")) = Ok view
       /\ length (data view) = 30.
Proof.
  split; [split; reflexivity|]. split; [simpl; tauto|].
  destruct (downsample_view (H:=sample_host) (world_with_history 60 "5D") 0)
    as (view & Hv & _ & _ & _ & _ & _ & H5 & _).
  - split; reflexivity.
  - simpl. tauto.
  - exists view. split; [exact Hv|]. apply H5; reflexivity.
Defined.
(** C7, as amended. No call of the downsampler changes the state, so the
    buffer is never mutated; and in the real-data branch (range 1D, or at
    least 50 points) the output depends on the buffer and the range only:
    two calls on the same state return the same view, whatever the random
    source, its position and the clock. *)
Theorem downsample_pure_on_real_data (H1 H2 : Host) (w1 w2 : World) (n1 n2 : Z) :
  state (run (getFilteredChartData (H:=H1) n1) w1) = state w1
  /\ buffer (run (getFilteredChartData (H:=H1) n1) w1) = buffer w1
  /\ (state w1 = state w2 -> synthetic_branch (state w1) = false ->
      fst (getFilteredChartData (H:=H1) n1 w1) = fst (getFilteredChartData (H:=H2) n2 w2)).
Proof.
  split; [|split].
  - rewrite getFilteredChartData_run. reflexivity.
  - rewrite getFilteredChartData_run. reflexivity.
  - intros Hs Hb. unfold getFilteredChartData. rewrite !fst_bind_get.
    cbv beta iota zeta. rewrite <- Hs. fold (synthetic_branch (state w1)). rewrite Hb.
    cbv beta iota. destruct (step_gt_1 _); reflexivity.
Qed.

Lemma downsample_pure_on_real_data_witness :
  let w := world_with_history 60 "5D" in
  state w = state (set_drawn 3 w)
  /\ synthetic_branch (state w) = false
  /\ fst (getFilteredChartData (H:=sample_host) 0 w)
     = fst (getFilteredChartData (H:=sample_host) 7 (set_drawn 3 w)).
Proof.
  intros w. split; [reflexivity|]. split; [reflexivity|].
  apply (downsample_pure_on_real_data sample_host sample_host w (set_drawn 3 w) 0 7);
    reflexivity.
Defined.

(** C7 as stated fails in the synthetic branch: on an empty buffer at
    range 3M two successive calls, with the state unchanged between them,
    return different series, because each call draws fresh values from
    [Math.random()]. *)
Lemma synthetic_view_differs_between_calls :
  let w := world_with_history 0 "3M" in
  let call1 := getFilteredChartData (H:=sample_host) 0 w in
  let call2 := getFilteredChartData (H:=sample_host) 0 (snd call1) in
  synthetic_branch (state w) = true
  /\ state (snd call1) = state w
  /\ first_value_is (955 # 2) (fst call1) = true
  /\ first_value_is (1005 # 2) (fst call2) = true
  /\ fst call1 <> fst call2.
Proof.
  intros w call1 call2.
  assert (E1 : first_value_is (955 # 2) (fst call1) = true) by (vm_compute; reflexivity).
  assert (E2 : first_value_is (955 # 2) (fst call2) = false) by (vm_compute; reflexivity).
  split; [reflexivity|]. split; [reflexivity|]. split; [exact E1|].
  split; [vm_compute; reflexivity|].
  intros E. rewrite E in E1. rewrite E1 in E2. discriminate E2.
Qed.

(** *** Ranges outside the six supported ones *)

(** With fewer than 50 points every range other than 1D gets the
    placeholder series. *)
Lemma short_buffer_synthetic `{Host} (w : World) (nw : Z) :
  chartTimeRange (state w) <> "1D" -> buffer_length w < 50 ->
  view_points (fst (getFilteredChartData nw w)) = Some 100.
Proof.
  intros Hr Hn.
  destruct (getFilteredChartData_synthetic w nw) as (view & Hv & _ & Hd & _).
  - unfold synthetic_branch. apply andb_true_iff. split.
    + apply Nat.ltb_lt. exact Hn.
    + apply negb_true_iff. apply String.eqb_neq. exact Hr.
  - rewrite Hv. simpl. rewrite Hd. reflexivity.
Qed.

(** At 1D a short buffer is shown as it is. *)
Lemma short_buffer_1D `{Host} (w : World) (nw : Z) :
  aligned w -> chartTimeRange (state w) = "1D" -> buffer_length w < 50 ->
  fst (getFilteredChartData nw w)
  = Ok (mkChartData (pnlTimestamps (state w)) (pnlHistory (state w))
                    (pnlFullTimestamps (state w))).
Proof.
  intros Ha Hr Hn.
  assert (Hcfg : rangeConfig_get (chartTimeRange (state w)) = Some (OwnEntry (mkCfg 500 1)))
    by (rewrite Hr; reflexivity).
  assert (Hb : synthetic_branch (state w) = false)
    by (unfold synthetic_branch; rewrite Hr; apply andb_false_r).
  rewrite (getFilteredChartData_real w nw (mkCfg 500 1) Ha Hcfg) by (simpl; lia || exact Hb).
  destruct Ha as [Ht Hf]. unfold buffer_length in Hn.
  unfold spec_view, spec_downsample. simpl points. simpl step.
  change (Z.to_nat 1) with 1. rewrite !every_nth_one, !most_recent_drop.
  replace (length (pnlTimestamps (state w)) - Z.to_nat 500) with 0 by lia.
  replace (length (pnlHistory (state w)) - Z.to_nat 500) with 0 by lia.
  replace (length (pnlFullTimestamps (state w)) - Z.to_nat 500) with 0 by lia.
  reflexivity.
Qed.

(** A range that is neither supported nor the name of a member of
    [Object.prototype] is cut with the window and the stride of 1D. *)
Lemma unknown_range_uses_1D `{Host} (w : World) (nw : Z) :
  aligned w -> rangeConfig_get (chartTimeRange (state w)) = None ->
  synthetic_branch (state w) = false ->
  fst (getFilteredChartData nw w) = Ok (spec_view 500 1 (state w)).
Proof.
  intros [Ht Hf] Hcfg Hb. unfold getFilteredChartData. rewrite fst_bind_get.
  cbv beta iota zeta. fold (synthetic_branch (state w)). rewrite Hb, Hcfg.
  cbv beta iota.
  change (default (OwnEntry (mkCfg 500 1)) None) with (OwnEntry (mkCfg 500 1)).
  cbn [cfg_points cfg_step points step].
  rewrite (js_slice_most_recent 500 (pnlHistory (state w))) by (auto; lia).
  rewrite (js_slice_most_recent 500 (pnlTimestamps (state w))) by (auto; lia).
  rewrite (js_slice_most_recent 500 (pnlFullTimestamps (state w))) by (auto; lia).
  unfold spec_view, spec_downsample. rewrite !every_nth_one. reflexivity.
Qed.

(** The range is stored even when the page has no button for it. *)
Lemma setChartTimeRange_stores `{Host} (pg : Page) (nw : Z) (range : string) (w : World) :
  chartTimeRange (state (run (setChartTimeRange pg nw range) w)) = range.
Proof.
  unfold setChartTimeRange. rewrite run_bind_update.
  destruct (rangeButton pg range); simpl negb; cbv iota; [|reflexivity].
  rewrite run_bind_get. simpl pnlChart.
  destruct (pnlChart w); [|reflexivity].
  rewrite (keeps_refreshChartData (fun w => chartTimeRange (state w))) by blind.
  reflexivity.
Qed.

(** C10. The fallback to the 1D configuration misses the names that an
    object literal inherits: for the range string [toString] the lookup
    [rangeConfig[range]] finds the inherited function, the limit and the
    step are undefined, and a buffer of 501 points is returned whole, where
    the 1D configuration keeps the most recent 500. *)
Theorem inherited_range_skips_window :
  let odd := world_with_history 501 "toString" in
  let day := world_with_history 501 "1D" in
  ~ In "toString" supported_ranges
  /\ rangeConfig_get "toString" = Some InheritedMember
  /\ view_points (fst (getFilteredChartData (H:=sample_host) 0 odd)) = Some 501
  /\ view_points (fst (getFilteredChartData (H:=sample_host) 0 day)) = Some 500.
Proof.
  split; [|split; [|split]]; try (vm_compute; reflexivity).
  unfold supported_ranges. simpl. intros [E|[E|[E|[E|[E|[E|[]]]]]]]; discriminate E.
Qed.
(** ** The mode switch *)

Lemma confirmModeSwitch_call_in_flight (pg : Page) (mode : string) (confirmed : bool)
    (w : World) :
  isSwitchingMode w = true ->
  confirmModeSwitch_call pg mode confirmed w
  = (false, log_alert "Mode change unavailable at this time (Operation in progress)" w).
Proof. intros Hf. unfold confirmModeSwitch_call. rewrite Hf. reflexivity. Qed.

Lemma confirmModeSwitch_call_declined (pg : Page) (w : World) :
  isSwitchingMode w = false -> confirmModeSwitch_call pg "REAL" false w = (false, w).
Proof. intros Hf. unfold confirmModeSwitch_call. rewrite Hf. reflexivity. Qed.

Lemma confirmModeSwitch_call_issued (pg : Page) (mode : string) (confirmed : bool)
    (w w' : World) :
  confirmModeSwitch_call pg mode confirmed w = (true, w') ->
  isSwitchingMode w = false /\ isSwitchingMode w' = true
  /\ requests w' = requests w ++ ["/api/v1/system/mode"].
Proof.
  unfold confirmModeSwitch_call. destruct (isSwitchingMode w); [discriminate|].
  destruct (String.eqb mode "REAL" && negb confirmed); [discriminate|].
  intros E. injection E as <-. destruct (modalGrid pg); repeat split.
Qed.

Lemma confirmModeSwitch_call_refused (pg : Page) (mode : string) (confirmed : bool)
    (w w' : World) :
  confirmModeSwitch_call pg mode confirmed w = (false, w') ->
  isSwitchingMode w' = isSwitchingMode w /\ requests w' = requests w
  /\ state w' = state w /\ display w' = display w.
Proof.
  unfold confirmModeSwitch_call. destruct (isSwitchingMode w) eqn:Hf.
  - intros E. injection E as <-. repeat split. exact Hf.
  - destruct (String.eqb mode "REAL" && negb confirmed).
    + intros E. injection E as <-. repeat split. exact Hf.
    + destruct (modalGrid pg); discriminate.
Qed.

(** Every way the request can settle ends in the [finally] block. *)
Lemma confirmModeSwitch_settle_clears `{Host} (pg : Page) (mode : string) (o : FetchOutcome)
    (w : World) :
  isSwitchingMode (run (confirmModeSwitch_settle pg mode o) w) = false.
Proof.
  unfold run, confirmModeSwitch_settle, try_finally.
  destruct (try_catch _ _ w) as [r w1]. reflexivity.
Qed.

Lemma machine_step_single_flight `{Host} (m : Machine) (ev : Event) :
  single_flight m -> single_flight (machine_step m ev).
Proof.
  intros Hm. destruct ev as [pg mode confirmed | pg o]; simpl.
  - destruct (confirmModeSwitch_call pg mode confirmed (world m)) as [issued w'] eqn:E.
    destruct issued.
    + apply confirmModeSwitch_call_issued in E. destruct E as (Hf & Hf' & _).
      destruct Hm as [[Hm _] | [_ Hq]]; [congruence|].
      left. simpl. rewrite Hq. split; [exact Hf' | exists mode; reflexivity].
    + apply confirmModeSwitch_call_refused in E. destruct E as (Hf & _).
      unfold single_flight. simpl. rewrite Hf. exact Hm.
  - destruct (outstanding m) as [|mode rest] eqn:Hq.
    + exact Hm.
    + right. simpl. split; [apply confirmModeSwitch_settle_clears|].
      destruct Hm as [[_ [mode' Hq']] | [_ Hq']]; congruence.
Qed.

Lemma machine_steps_single_flight `{Host} (evs : list Event) (m : Machine) :
  single_flight m -> single_flight (machine_steps m evs).
Proof.
  revert m. induction evs as [|ev evs IH]; intros m Hm; [exact Hm|].
  unfold machine_steps. simpl. apply IH, machine_step_single_flight, Hm.
Qed.

(** The part of C2 that holds. From a state with no switch in progress,
    after any sequence of clicks and ended requests at most one attempt is
    outstanding, and the flag is set exactly while one is. A click made
    while the flag is set returns at once: no request is issued and the
    state, the header and the flag are as before. Whatever the outcome of
    the outstanding request (success, rejection by the backend, network
    failure, time-out, undecodable body), its end clears the flag. *)
Lemma mode_switch_single_flight `{Host} (w : World) (evs : list Event) :
  isSwitchingMode w = false ->
  let m := machine_steps (machine_start w) evs in
  length (outstanding m) <= 1
  /\ (isSwitchingMode (world m) = true <-> outstanding m <> [])
  /\ (forall pg mode confirmed,
        isSwitchingMode (world m) = true ->
        let m' := machine_step m (Click pg mode confirmed) in
        outstanding m' = outstanding m
        /\ requests (world m') = requests (world m)
        /\ state (world m') = state (world m)
        /\ display (world m') = display (world m)
        /\ isSwitchingMode (world m') = true)
  /\ (forall pg o, isSwitchingMode (world (machine_step m (Settle pg o))) = false)
  /\ (forall pg mode o w0,
        isSwitchingMode (run (confirmModeSwitch_settle pg mode o) w0) = false).
Proof.
  intros Hw m.
  assert (Hm : single_flight m).
  { apply machine_steps_single_flight. right. split; [exact Hw | reflexivity]. }
  split; [|split; [|split; [|split]]].
  - destruct Hm as [[_ [mode ->]] | [_ ->]]; simpl; lia.
  - destruct Hm as [[Hf [mode ->]] | [Hf ->]]; rewrite Hf; split; congruence.
  - intros pg mode confirmed Hf m'. subst m'. simpl.
    rewrite (confirmModeSwitch_call_in_flight pg mode confirmed (world m) Hf). simpl.
    repeat split. exact Hf.
  - intros pg o. simpl. destruct (outstanding m) as [|mode rest] eqn:Hq.
    + destruct Hm as [[_ [mode Hq']] | [Hf _]]; [congruence | exact Hf].
    + apply confirmModeSwitch_settle_clears.
  - intros pg mode o w0. apply confirmModeSwitch_settle_clears.
Qed.

Lemma mode_switch_single_flight_witness :
  let evs := [Click sample_page "PAPER" false; Click sample_page "MOCK" false] in
  let m := machine_steps (H:=sample_host) (machine_start page_load) evs in
  isSwitchingMode page_load = false
  /\ outstanding m = ["PAPER"]
  /\ mode_requests (world m) = 1
  /\ isSwitchingMode (world (machine_step (H:=sample_host) m (Settle sample_page timed_out)))
     = false.
Proof.
  intros evs m. split; [reflexivity|]. split; [reflexivity|]. split; [reflexivity|].
  destruct (mode_switch_single_flight (H:=sample_host) page_load evs eq_refl)
    as (_ & _ & _ & Hs & _).
  apply Hs.
Defined.

(** C3. Declining the confirmation for REAL ends [confirmModeSwitch] with
    the world exactly as it was: the mode, the flag, every snapshot field
    and the list of requests issued are unchanged, and no attempt becomes
    outstanding. *)
Theorem real_declined_changes_nothing `{Host} (pg : Page) (w : World) (q : list string) :
  isSwitchingMode w = false ->
  confirmModeSwitch_call pg "REAL" false w = (false, w)
  /\ machine_step (mkMachine w q) (Click pg "REAL" false) = mkMachine w q.
Proof.
  intros Hf. split.
  - apply confirmModeSwitch_call_declined, Hf.
  - simpl. rewrite (confirmModeSwitch_call_declined pg w Hf). reflexivity.
Qed.

Lemma real_declined_changes_nothing_witness :
  isSwitchingMode sample_world = false
  /\ confirmModeSwitch_call sample_page "REAL" false sample_world = (false, sample_world)
  /\ requests (snd (confirmModeSwitch_call sample_page "REAL" false sample_world)) = [].
Proof.
  split; [reflexivity|].
  destruct (real_declined_changes_nothing (H:=sample_host) sample_page sample_world []
              eq_refl) as [E _].
  split; [exact E|]. rewrite E. reflexivity.
Defined.

(** *** A response whose body never ends *)

(** The run of a switch is a run of the machine: the signals only decide
    which requests settle, and when. *)
Lemma switch_steps_machine `{Host} (sgs : list Signal) (s : Switch) :
  exists evs, machine (switch_steps s sgs) = machine_steps (machine s) evs.
Proof.
  revert s. induction sgs as [|sg sgs IH]; intros s; [exists []; reflexivity|].
  unfold switch_steps. cbn [foldl]. fold (switch_steps (switch_step s sg) sgs).
  destruct (IH (switch_step s sg)) as [evs E]. rewrite E.
  assert (Hstep : exists pre, machine (switch_step s sg) = machine_steps (machine s) pre).
  { destruct sg as [pg mode confirmed | pg e | pg | res_ok res_status | pg b]; simpl.
    - exists [Click pg mode confirmed]. reflexivity.
    - destruct (awaited s); [exists [] | exists [Settle pg (Rejected e)]]; reflexivity.
    - destruct (awaited s);
        [exists [] | exists [Settle pg (Rejected abort_error)]]; reflexivity.
    - destruct (awaited s), (outstanding (machine s)); exists []; reflexivity.
    - destruct (awaited s) as [[res_ok res_status]|];
        [exists [Settle pg (Responded (mkResponse res_ok res_status b))] | exists []];
        reflexivity. }
  destruct Hstep as [pre ->]. exists (pre ++ evs).
  unfold machine_steps. rewrite foldl_app. reflexivity.
Qed.

(** Whatever the signals, at most one attempt is outstanding and the flag
    is set exactly while one is. *)
Lemma switch_steps_single_flight `{Host} (sgs : list Signal) (w : World) :
  isSwitchingMode w = false ->
  single_flight (machine (switch_steps (switch_start w) sgs)).
Proof.
  intros Hw. destruct (switch_steps_machine sgs (switch_start w)) as [evs ->].
  apply machine_steps_single_flight. right. split; [exact Hw | reflexivity].
Qed.

(** While the body is awaited nothing but its end moves the switch: the
    timer is cleared, a click is refused with its alert. *)
Lemma switch_step_body_pending `{Host} (s : Switch) (sg : Signal) (mode : string)
    (head : bool * nat) :
  leaves_body_pending sg = true ->
  isSwitchingMode (world (machine s)) = true ->
  outstanding (machine s) = [mode] -> awaited s = Some head ->
  let s' := switch_step s sg in
  isSwitchingMode (world (machine s')) = true
  /\ outstanding (machine s') = [mode] /\ awaited s' = Some head
  /\ requests (world (machine s')) = requests (world (machine s))
  /\ state (world (machine s')) = state (world (machine s))
  /\ display (world (machine s')) = display (world (machine s))
  /\ length (alerts (world (machine s')))
     = presses [sg] + length (alerts (world (machine s))).
Proof.
  intros Hsg Hf Hq Ha.
  destruct sg as [pg m confirmed | pg e | pg | res_ok res_status | pg b];
    try discriminate Hsg; cbn [switch_step]; rewrite ?Ha, ?Hq; cbv zeta;
    try (repeat split; assumption).
  cbn [machine_step machine awaited].
  rewrite (confirmModeSwitch_call_in_flight pg m confirmed _ Hf).
  cbn [world outstanding log_alert isSwitchingMode requests state display alerts].
  rewrite length_app. repeat split; try assumption. simpl. lia.
Qed.

Lemma switch_steps_body_pending `{Host} (later : list Signal) (s : Switch) (mode : string)
    (head : bool * nat) :
  Forall (fun sg => leaves_body_pending sg = true) later ->
  isSwitchingMode (world (machine s)) = true ->
  outstanding (machine s) = [mode] -> awaited s = Some head ->
  let s' := switch_steps s later in
  isSwitchingMode (world (machine s')) = true
  /\ outstanding (machine s') = [mode] /\ awaited s' = Some head
  /\ requests (world (machine s')) = requests (world (machine s))
  /\ state (world (machine s')) = state (world (machine s))
  /\ display (world (machine s')) = display (world (machine s))
  /\ length (alerts (world (machine s')))
     = presses later + length (alerts (world (machine s))).
Proof.
  intros Hall. revert s. induction Hall as [|sg later Hsg _ IH]; intros s Hf Hq Ha.
  - cbv zeta. simpl. repeat split; assumption.
  - cbv zeta. unfold switch_steps. cbn [foldl]. fold (switch_steps (switch_step s sg) later).
    destruct (switch_step_body_pending s sg mode head Hsg Hf Hq Ha)
      as (Hf1 & Hq1 & Ha1 & Hr1 & Hs1 & Hd1 & Hl1).
    destruct (IH _ Hf1 Hq1 Ha1) as (Hf2 & Hq2 & Ha2 & Hr2 & Hs2 & Hd2 & Hl2).
    repeat split; try assumption; try congruence.
    rewrite Hl2, Hl1. unfold presses. cbn [List.filter].
    destruct sg; simpl; lia.
Qed.

(** C2. The flag can stay set for good. The 10 s timer guards only the
    wait for the response: while the attempt waits for its response the
    timer ends it, with the time-out alert and the flag cleared. The timer
    is cleared as soon as the response arrives, before its body is read;
    if the body never ends the [finally] block is never reached: whatever
    happens next short of the end of the body (the timer's instant
    passing, any number of clicks, a failing network), the flag stays set,
    the attempt stays outstanding, every click is refused with the alert
    of an operation in progress, and no request is ever issued again. *)
Theorem stalled_body_locks_the_switch `{Host} (w : World) (pg pg' : Page) (mode : string)
    (confirmed res_ok : bool) (res_status : nat) (later : list Signal) :
  isSwitchingMode w = false ->
  (mode = "REAL" -> confirmed = true) ->
  Forall (fun sg => leaves_body_pending sg = true) later ->
  let guarded := switch_steps (switch_start w) [Press pg mode confirmed; TimerFires pg'] in
  let stalled := switch_steps (switch_start w)
                   (Press pg mode confirmed :: ResponseArrives res_ok res_status :: later) in
  (isSwitchingMode (world (machine guarded)) = false
   /\ outstanding (machine guarded) = []
   /\ alerts (world (machine guarded))
      = alerts w ++ ["Request timed out. Server took too long to respond."])
  /\ isSwitchingMode (world (machine stalled)) = true
  /\ outstanding (machine stalled) = [mode]
  /\ awaited stalled = Some (res_ok, res_status)
  /\ requests (world (machine stalled)) = requests w ++ ["/api/v1/system/mode"]
  /\ state (world (machine stalled)) = state w
  /\ length (alerts (world (machine stalled))) = presses later + length (alerts w).
Proof.
  intros Hf Hreal Hall guarded stalled.
  assert (Hcall : exists w1,
            confirmModeSwitch_call pg mode confirmed w = (true, w1)
            /\ isSwitchingMode w1 = true
            /\ requests w1 = requests w ++ ["/api/v1/system/mode"]
            /\ state w1 = state w /\ alerts w1 = alerts w).
  { unfold confirmModeSwitch_call. rewrite Hf.
    destruct (String.eqb mode "REAL") eqn:Em.
    - apply String.eqb_eq in Em. rewrite (Hreal Em). cbn [negb andb].
      eexists. split; [reflexivity|]. destruct (modalGrid pg); repeat split.
    - cbn [andb]. eexists. split; [reflexivity|]. destruct (modalGrid pg); repeat split. }
  destruct Hcall as (w1 & Hc & Hf1 & Hr1 & Hs1 & Ha1).
  split.
  - unfold guarded, switch_steps, switch_start, machine_start.
    cbn [foldl switch_step machine awaited machine_step world outstanding].
    rewrite Hc. cbn [app machine_step world outstanding].
    split; [apply confirmModeSwitch_settle_clears|]. split; [reflexivity|].
    change (run (confirmModeSwitch_settle pg' mode (Rejected abort_error)) w1)
      with (set_isSwitchingMode false
              (log_alert (switch_error_message abort_error)
                 (log_console "[MODE SWITCH ERROR]" w1))).
    cbn [alerts set_isSwitchingMode log_alert log_console]. rewrite Ha1. reflexivity.
  - set (s1 := switch_steps (switch_start w)
                 [Press pg mode confirmed; ResponseArrives res_ok res_status]).
    assert (E1 : s1 = mkSwitch (mkMachine w1 [mode]) (Some (res_ok, res_status))).
    { unfold s1, switch_steps, switch_start, machine_start.
      cbn [foldl switch_step machine awaited machine_step world outstanding].
      rewrite Hc. reflexivity. }
    assert (E : stalled = switch_steps s1 later) by reflexivity.
    rewrite E, E1.
    destruct (switch_steps_body_pending later
                (mkSwitch (mkMachine w1 [mode]) (Some (res_ok, res_status))) mode
                (res_ok, res_status) Hall Hf1 eq_refl eq_refl)
      as (Hf2 & Hq2 & Ha2 & Hr2 & Hs2 & _ & Hl2).
    cbn [machine world] in Hr2, Hs2, Hl2.
    repeat split; try assumption; congruence.
Qed.

Lemma stalled_body_locks_the_switch_witness :
  let later := [TimerFires sample_page; Press sample_page "MOCK" false;
                RequestFails sample_page (TypeError "Failed to fetch");
                Press sample_page "PAPER" false] in
  let stalled := switch_steps (H:=sample_host) (switch_start sample_world)
                   (Press sample_page "PAPER" false :: ResponseArrives true 200 :: later) in
  isSwitchingMode sample_world = false
  /\ Forall (fun sg => leaves_body_pending sg = true) later
  /\ isSwitchingMode (world (machine stalled)) = true
  /\ mode_requests (world (machine stalled)) = 1
  /\ alerts (world (machine stalled))
     = ["Mode change unavailable at this time (Operation in progress)";
        "Mode change unavailable at this time (Operation in progress)"].
Proof.
  intros later stalled.
  assert (Hall : Forall (fun sg => leaves_body_pending sg = true) later)
    by (repeat constructor).
  destruct (stalled_body_locks_the_switch (H:=sample_host) sample_world sample_page
              sample_page "PAPER" false true 200 later eq_refl
              (fun E => ltac:(discriminate E)) Hall)
    as (_ & Hf & _).
  split; [reflexivity|]. split; [exact Hall|]. split; [exact Hf|].
  split; reflexivity.
Defined.

(** ** The price box *)

Lemma zero_ltp_is_object (item : JsVal) :
  is_zero_number (member item "ltp") = true -> exists fs, item = JObj fs.
Proof. destruct item; simpl; try discriminate. eauto. Qed.

Lemma renderPriceItem_zero_ltp `{Host} (st : State) (item : JsVal) (box : PriceBox) :
  is_zero_number (member item "ltp") = true ->
  let '(r, b) := renderPriceItem st item box in
  ltpEl b = LoadingShimmer
  /\ chgEl b = (if fromTemplate box then "--%" else chgEl box)
  /\ lastLtp b = lastLtp box
  /\ flashClass b = flashClass box
  /\ fromTemplate b = fromTemplate box
  /\ r = (if fromTemplate box then Ok tt else Throw no_change_element).
Proof.
  intros Hz. destruct (zero_ltp_is_object item Hz) as [fs ->].
  unfold renderPriceItem. rewrite Hz. cbn [is_null is_undefined orb].
  destruct (fromTemplate box); repeat split.
Qed.

(** C9. A payload whose [ltp] is the number 0 is drawn as the loading
    state: the price element shows the loading shimmer and never a price,
    no percentage is written (the change element shows the placeholder, or
    is left alone on a box that has none), and the last-price attribute and
    the flash are not touched. A payload with a nonzero number for [ltp] and
    a status other than LOADING is drawn with its formatted price and
    recorded as the last price. *)
Theorem zero_ltp_renders_loading `{Host} (st : State) (item : JsVal) (box : PriceBox) :
  (is_zero_number (member item "ltp") = true ->
   ltpEl (snd (renderPriceItem st item box)) = LoadingShimmer
   /\ chgEl (snd (renderPriceItem st item box))
      = (if fromTemplate box then "--%" else chgEl box)
   /\ lastLtp (snd (renderPriceItem st item box)) = lastLtp box
   /\ flashClass (snd (renderPriceItem st item box)) = flashClass box
   /\ (fromTemplate box = true -> fst (renderPriceItem st item box) = Ok tt))
  /\ (forall q,
        member item "ltp" = JNum q -> Qeq_bool q 0 = false ->
        is_string "LOADING"
          (js_or (member item "status") (js_or (member item "data_status") (JStr "LIVE")))
        = false ->
        ltpEl (snd (renderPriceItem st item box)) = PriceText (toLocaleString_en_IN (JNum q))
        /\ lastLtp (snd (renderPriceItem st item box)) = Some (to_display_string (JNum q))).
Proof.
  split.
  - intros Hz. pose proof (renderPriceItem_zero_ltp st item box Hz) as Hr.
    destruct (renderPriceItem st item box) as [r b]. simpl.
    destruct Hr as (Hl & Hc & Hp & Hf & _ & Hres).
    repeat split; try assumption. intros Ht. rewrite Ht in Hres. exact Hres.
  - intros q Hq Hnz Hst.
    assert (Hobj : exists fs, item = JObj fs)
      by (destruct item; simpl in Hq; try discriminate; eauto).
    destruct Hobj as [fs ->].
    unfold renderPriceItem. rewrite Hq. cbn [is_zero_number]. rewrite Hnz.
    cbn [is_null is_undefined orb negb andb]. rewrite Hst.
    destruct (fromTemplate box); split; reflexivity.
Qed.

Lemma zero_ltp_renders_loading_witness :
  is_zero_number (member item_no_price "ltp") = true
  /\ renderPriceItem (H:=sample_host) initial_state item_no_price new_box
     = (Ok tt, mkPriceBox (PlainLabel (JStr "NIFTY")) LoadingShimmer "--%"
                          "rgba(255,255,255,0.05)" "" "" None false "" None None true)
  /\ ltpEl (snd (renderPriceItem (H:=sample_host) initial_state item_no_price
                                 (closed_placeholder initial_state))) = LoadingShimmer
  /\ member item_live_price "ltp" = JNum 22110
  /\ ltpEl (snd (renderPriceItem (H:=sample_host) initial_state item_live_price new_box))
     = PriceText "22110".
Proof.
  destruct (zero_ltp_renders_loading (H:=sample_host) initial_state item_no_price
              (closed_placeholder initial_state)) as [Hzero _].
  destruct (zero_ltp_renders_loading (H:=sample_host) initial_state item_live_price new_box)
    as [_ Hlive].
  split; [reflexivity|]. split; [reflexivity|]. split.
  - apply (Hzero eq_refl).
  - split; [reflexivity|]. apply (Hlive 22110%Q eq_refl eq_refl eq_refl).
Defined.

(** In a list of payloads without a price, each gets a loading box at its
    own index. *)
Lemma renderItems_loading `{Host} (st : State) (items : list JsVal) (boxes : list PriceBox) :
  Forall (fun item => is_zero_number (member item "ltp") = true) items ->
  exists drawn,
    renderItems st items (length boxes) boxes = (Ok tt, boxes ++ drawn)
    /\ length drawn = length items
    /\ Forall (fun b => ltpEl b = LoadingShimmer /\ chgEl b = "--%") drawn.
Proof.
  intros Hall. revert boxes. induction Hall as [|item rest Hz _ IH]; intros boxes.
  - exists []. rewrite app_nil_r. repeat split. constructor.
  - cbn [renderItems].
    rewrite (lookup_ge_None_2 boxes (length boxes)) by lia. cbn [default from_option id].
    pose proof (renderPriceItem_zero_ltp st item new_box Hz) as Hr.
    destruct (renderPriceItem st item new_box) as [r b].
    destruct Hr as (Hl & Hc & _ & _ & _ & ->). cbn [fromTemplate new_box] in *.
    destruct (decide (length boxes < length boxes)) as [Hlt|_]; [lia|].
    destruct (IH (boxes ++ [b])) as (drawn & Hr & Hn & Hd).
    exists (b :: drawn).
    replace (S (length boxes)) with (length (boxes ++ [b]))
      by (rewrite length_app; simpl; lia).
    rewrite Hr, <- app_assoc. simpl. repeat split; [lia|].
    constructor; [split; assumption | exact Hd].
Qed.

(** A successful response that lists instruments without a price fills an
    empty container with loading boxes. *)
Lemma updateMarketHeader_render_loading `{Host} (st : State) (fs : list (string * JsVal))
    (items : list JsVal) :
  selectedMarket st <> "COMMODITY" ->
  assoc "status" fs = Some (JStr "success") ->
  assoc "data" fs = Some (JArr items) ->
  Forall (fun item => is_zero_number (member item "ltp") = true) items ->
  exists drawn,
    updateMarketHeader_render st (JObj fs) [] = (Ok tt, drawn)
    /\ length drawn = length items
    /\ Forall (fun b => ltpEl b = LoadingShimmer /\ chgEl b = "--%") drawn.
Proof.
  intros Hm Hs Hd Hall. unfold updateMarketHeader_render, member. rewrite Hs, Hd.
  cbn [default from_option id is_string]. simpl String.eqb.
  apply String.eqb_neq in Hm. rewrite Hm.
  destruct (renderItems_loading st items [] Hall) as (drawn & Hr & Hn & Hf).
  exists drawn. simpl length in *. destruct (0 =? length items); rewrite Hr; auto.
Qed.

(** * Further properties of the script *)

(** ** The history over a run of ticks *)

Lemma tick_session_controls `{Host} (v : Variant) (w : World) (inp : TickInput) :
  session_controls (tick v w inp) = session_controls w.
Proof.
  unfold tick. revert w. change (keeps session_controls (fetchSystemData v inp)).
  unfold fetchSystemData, fetchSystemData_body, syncSnapshot, apply_metrics, store,
    storeBalance, dispatchEvent, accountUpdateListener, refreshDashboard, trackPnl,
    fetchRiskRules_start, updateDashboardUI, updateMarketHeader_start,
    updateExecutionModeUI.
  frame; try blind; apply keeps_redrawVisibleChart; blind.
Qed.





Lemma most_recent_all {A} (limit : nat) (l : list A) :
  length l <= limit -> most_recent limit l = l.
Proof.
  intros Hl. rewrite most_recent_drop.
  replace (length l - limit) with 0 by lia. reflexivity.
Qed.






(** ** Which points of the buffer a view shows *)

Lemma every_nth_after_lookup {A} (s skip k : nat) (l : list A) :
  0 < s -> every_nth_after s skip l !! k = l !! (skip + k * s).
Proof.
  intros Hs. revert skip k. induction l as [|x rest IH]; intros skip k.
  - simpl. rewrite !lookup_nil. reflexivity.
  - cbn [every_nth_after]. destruct skip as [|j].
    + destruct k as [|k]; [reflexivity|].
      cbn [lookup list_lookup]. rewrite IH.
      replace (0 + S k * s) with (S (s - 1 + k * s)) by lia. reflexivity.
    + rewrite IH. reflexivity.
Qed.

Lemma every_nth_lookup {A} (s k : nat) (l : list A) :
  0 < s -> every_nth s l !! k = l !! (k * s).
Proof. intros Hs. unfold every_nth. rewrite every_nth_after_lookup by exact Hs. reflexivity. Qed.

Lemma spec_downsample_lookup {A} (limit s k : nat) (l : list A) :
  0 < s -> spec_downsample limit s l !! k = l !! (length l - limit + k * s).
Proof.
  intros Hs. unfold spec_downsample.
  rewrite every_nth_lookup, most_recent_drop, lookup_drop by exact Hs. reflexivity.
Qed.

(** X2. In the real-data branch, for each of the six ranges, the [k]-th
    point of the view is the point of the buffer at index
    [start + k * step], where [start] is the first index of the window
    (0 when the buffer has no more points than the window): the labels, the
    values and the tooltip timestamps of a view are read at the same
    indices, the first point shown is the oldest of the window, and nothing
    else of the buffer is shown. *)
Theorem view_point_index `{Host} (w : World) (nw : Z) :
  aligned w -> In (chartTimeRange (state w)) supported_ranges ->
  synthetic_branch (state w) = false ->
  let range := chartTimeRange (state w) in
  let start := window_start range (buffer_length w) in
  exists view,
    fst (getFilteredChartData nw w) = Ok view
    /\ forall k,
         data view !! k = pnlHistory (state w) !! (start + k * stride_step range)
         /\ labels view !! k = pnlTimestamps (state w) !! (start + k * stride_step range)
         /\ fullTimestamps view !! k
            = pnlFullTimestamps (state w) !! (start + k * stride_step range).
Proof.
  intros Ha Hin Hb range start.
  destruct (supported_range_config range Hin) as (Hcfg & Hp & Hs).
  exists (spec_view (point_limit range) (stride_step range) (state w)).
  split; [apply (getFilteredChartData_real w nw (config_of range)); auto|].
  intros k. destruct Ha as [Ht Hf]. unfold spec_view. cbn [data labels fullTimestamps].
  assert (Hs' : 0 < stride_step range) by (unfold stride_step; lia).
  rewrite !spec_downsample_lookup by exact Hs'.
  rewrite Ht, Hf. unfold start, window_start, buffer_length. auto.
Qed.

Lemma view_point_index_witness :
  let w := world_with_history 60 "5D" in
  aligned w /\ In (chartTimeRange (state w)) supported_ranges
  /\ synthetic_branch (state w) = false
  /\ exists view,
       fst (getFilteredChartData (H:=sample_host) 0 w) = Ok view
       /\ data view !! 29 = pnlHistory (state w) !! 58
       /\ data view !! 30 = None.
Proof.
  intros w.
  assert (Ha : aligned w) by (split; reflexivity).
  assert (Hin : In (chartTimeRange (state w)) supported_ranges) by (simpl; tauto).
  split; [exact Ha|]. split; [exact Hin|]. split; [reflexivity|].
  destruct (view_point_index (H:=sample_host) w 0 Ha Hin eq_refl) as (view & Hv & Hk).
  exists view. split; [exact Hv|]. split.
  - destruct (Hk 29) as (E & _). rewrite E. reflexivity.
  - destruct (Hk 30) as (E & _). rewrite E. reflexivity.
Defined.

(** ** Views of a buffer that respects its capacity *)

Lemma spec_downsample_whole {A} (limit s : nat) (l : list A) :
  length l <= limit -> spec_downsample limit s l = every_nth s l.
Proof. intros Hl. unfold spec_downsample. rewrite most_recent_all by exact Hl. reflexivity. Qed.

Lemma long_range_config (range : string) :
  In range supported_ranges -> range <> "1D" ->
  MAX_HISTORY <= point_limit range /\ 2 <= stride_step range.
Proof.
  intros Hin Hne.
  assert (Hz : (900 <= points (config_of range))%Z /\ (2 <= step (config_of range))%Z).
  { unfold supported_ranges in Hin. simpl in Hin.
    destruct Hin as [<-|[<-|[<-|[<-|[<-|[<-|[]]]]]]]; try congruence;
      vm_compute; split; intros E; discriminate E. }
  unfold point_limit, stride_step, MAX_HISTORY. lia.
Qed.

Lemma ceil_div_le (a b s : nat) : 0 < s -> a <= b -> ceil_div a s <= ceil_div b s.
Proof.
  intros Hs Hab. unfold ceil_div. apply Nat.Div0.div_le_mono. lia.
Qed.

(** X3. The buffer never holds more than [MAX_HISTORY] = 900 points, and
    every range other than 1D has a window of at least 1500: on a buffer
    within capacity the window of such a range never cuts anything. With at
    least 50 points the view is every [step]-th point of the whole buffer,
    from the oldest point on, so it has between 1 and 450 points. *)
Theorem long_range_views_sample_whole_buffer `{Host} (w : World) (nw : Z) :
  within_capacity w ->
  In (chartTimeRange (state w)) supported_ranges ->
  chartTimeRange (state w) <> "1D" ->
  50 <= buffer_length w ->
  let s := stride_step (chartTimeRange (state w)) in
  fst (getFilteredChartData nw w)
  = Ok (mkChartData (every_nth s (pnlTimestamps (state w)))
                    (every_nth s (pnlHistory (state w)))
                    (every_nth s (pnlFullTimestamps (state w))))
  /\ window_start (chartTimeRange (state w)) (buffer_length w) = 0
  /\ length (every_nth s (pnlHistory (state w))) = ceil_div (buffer_length w) s
  /\ 1 <= ceil_div (buffer_length w) s <= 450.
Proof.
  intros [[Ht Hf] Hh] Hin Hne Hn s. unfold buffer_length in *.
  destruct (supported_range_config _ Hin) as (Hcfg & Hp & Hs).
  destruct (long_range_config _ Hin Hne) as [Hlim Hstep].
  assert (Hb : synthetic_branch (state w) = false).
  { unfold synthetic_branch. apply andb_false_iff. left. apply Nat.ltb_ge. exact Hn. }
  split; [|split; [|split]].
  - rewrite (getFilteredChartData_real w nw (config_of (chartTimeRange (state w))))
      by (auto; split; auto).
    unfold spec_view. fold (point_limit (chartTimeRange (state w))).
    fold (stride_step (chartTimeRange (state w))). fold s.
    rewrite !spec_downsample_whole by lia. reflexivity.
  - unfold window_start. lia.
  - apply length_every_nth. unfold s. lia.
  - split.
    + unfold ceil_div. apply Nat.div_str_pos. unfold s. lia.
    + transitivity (ceil_div MAX_HISTORY s); [apply ceil_div_le; unfold s; lia|].
      unfold ceil_div, MAX_HISTORY. apply Nat.lt_succ_r.
      apply Nat.Div0.div_lt_upper_bound. unfold s. lia.
Qed.

Lemma long_range_views_sample_whole_buffer_witness :
  let w := world_with_history 60 "1Y" in
  within_capacity w
  /\ In (chartTimeRange (state w)) supported_ranges
  /\ chartTimeRange (state w) <> "1D"
  /\ 50 <= buffer_length w
  /\ view_points (fst (getFilteredChartData (H:=sample_host) 0 w)) = Some 2.
Proof.
  intros w.
  assert (Hw : within_capacity w).
  { split; [split; reflexivity|]. unfold MAX_HISTORY. vm_compute. lia. }
  assert (Hin : In (chartTimeRange (state w)) supported_ranges) by (simpl; tauto).
  assert (Hne : chartTimeRange (state w) <> "1D") by (intros E; discriminate E).
  assert (Hn : 50 <= buffer_length w) by (vm_compute; lia).
  split; [exact Hw|]. split; [exact Hin|]. split; [exact Hne|]. split; [exact Hn|].
  destruct (long_range_views_sample_whole_buffer (H:=sample_host) w 0 Hw Hin Hne Hn)
    as (E & _).
  rewrite E. reflexivity.
Defined.

(** ** The chart on screen follows the history *)

Lemma getFilteredChartData_total `{Host} (nw : Z) (w : World) :
  exists view, fst (getFilteredChartData nw w) = Ok view.
Proof.
  destruct (synthetic_branch (state w)) eqn:Hb.
  - destruct (getFilteredChartData_synthetic w nw Hb) as (view & Hv & _). eauto.
  - unfold getFilteredChartData. rewrite fst_bind_get. cbv beta iota zeta.
    fold (synthetic_branch (state w)). rewrite Hb. cbv iota.
    destruct (step_gt_1 _); eexists; reflexivity.
Qed.

Lemma getFilteredChartData_eq `{Host} (nw : Z) (w : World) :
  exists view,
    getFilteredChartData nw w
    = (Ok view, set_drawn ((if synthetic_branch (state w) then pointsCount else 0)
                           + drawn w) w).
Proof.
  destruct (getFilteredChartData_total nw w) as [view Hv]. exists view.
  pose proof (getFilteredChartData_run nw w) as Hr. unfold run in Hr.
  destruct (getFilteredChartData nw w) as [r w1]. simpl in Hv, Hr. subst r w1.
  reflexivity.
Qed.

Lemma bind_eq {A C} (m : JS A) (k : A -> JS C) (w w1 : World) (a : A) :
  m w = (Ok a, w1) -> bind m k w = k a w1.
Proof. intros E. unfold bind. rewrite E. reflexivity. Qed.

(** Redrawing puts the current view into the chart, whether or not the
    chart library then completes its update. *)
Lemma refreshChartData_chart `{Host} (pg : Page) (nw : Z) (w : World) (c : ChartData) :
  pnlChart w = Some c ->
  exists view,
    fst (getFilteredChartData nw w) = Ok view
    /\ pnlChart (run (refreshChartData pg nw) w) = Some view
    /\ state (run (refreshChartData pg nw) w) = state w
    /\ drawn (run (refreshChartData pg nw) w)
       = (if synthetic_branch (state w) then pointsCount else 0) + drawn w.
Proof.
  intros Hc. destruct (getFilteredChartData_eq nw w) as [view Hv].
  exists view. split; [rewrite Hv; reflexivity|].
  unfold refreshChartData, run. rewrite (bind_eq _ _ _ _ _ Hv), bind_get.
  cbn [pnlChart set_drawn]. rewrite Hc.
  unfold bind, modify. destruct (chartRenders pg); simpl; auto.
Qed.

Lemma syncSnapshot_chart (v : Variant) (inp : TickInput) :
  keeps (fun w => (pnlChart w, drawn w)) (syncSnapshot v inp).
Proof.
  unfold syncSnapshot, apply_metrics, store, storeBalance, dispatchEvent,
    accountUpdateListener, updateDashboardUI, updateMarketHeader_start,
    updateExecutionModeUI.
  frame; blind.
Qed.

Lemma refreshDashboard_chart (v : Variant) (inp : TickInput) :
  keeps (fun w => (pnlChart w, drawn w, buffer w, chartTimeRange (state w)))
        (refreshDashboard v inp).
Proof. apply keeps_refreshDashboard; blind. Qed.

(** The history step on a world whose snapshot is known. *)
Lemma trackPnl_pushed `{Host} (pg : Page) (nw : Z) (w : World) :
  truthy (metrics (state w)) = true ->
  exists w2,
    run (trackPnl pg nw) w = run (redrawVisibleChart pg nw) w2
    /\ pnlChart w2 = pnlChart w /\ drawn w2 = drawn w
    /\ chartTimeRange (state w2) = chartTimeRange (state w).
Proof.
  intros Ht. unfold trackPnl. rewrite run_bind_get, Ht. simpl negb. cbv iota.
  rewrite !run_bind_update, run_bind_get.
  match goal with
  | |- context [when ?b ?m] => destruct b
  end; cbn [when].
  - unfold run at 1. unfold bind at 1. unfold bind at 1. cbn [update modify].
    eexists. split; [reflexivity|]. repeat split.
  - unfold run at 1. unfold bind at 1. cbn [ret].
    eexists. split; [reflexivity|]. repeat split.
Qed.

Lemma redrawVisibleChart_visible `{Host} (pg : Page) (nw : Z) (w : World) (c : ChartData) :
  pnlChart w = Some c -> perfTabHidden pg = Some false ->
  run (redrawVisibleChart pg nw) w = run (refreshChartData pg nw) w.
Proof.
  intros Hc Ht. unfold redrawVisibleChart. rewrite run_bind_get, Hc, Ht. reflexivity.
Qed.

Lemma redrawVisibleChart_idle `{Host} (pg : Page) (nw : Z) (w : World) :
  pnlChart w = None \/ perfTabHidden pg = Some true ->
  run (redrawVisibleChart pg nw) w = w.
Proof.
  intros Hc. unfold redrawVisibleChart. rewrite run_bind_get.
  destruct (pnlChart w); [|reflexivity].
  destruct Hc as [Hc|Ht]; [discriminate | rewrite Ht; reflexivity].
Qed.

Lemma trackPnl_idle `{Host} (pg : Page) (nw : Z) (w : World) :
  pnlChart w = None \/ perfTabHidden pg = Some true ->
  pnlChart (run (trackPnl pg nw) w) = pnlChart w
  /\ drawn (run (trackPnl pg nw) w) = drawn w.
Proof.
  intros Hc. destruct (truthy (metrics (state w))) eqn:Ht.
  - destruct (trackPnl_pushed pg nw w Ht) as (w2 & -> & Hp & Hd & _).
    rewrite redrawVisibleChart_idle by (rewrite Hp; exact Hc). auto.
  - unfold trackPnl. rewrite run_bind_get, Ht. auto.
Qed.

Lemma spec_view_buffer (p s : nat) (w w' : World) :
  buffer w = buffer w' -> spec_view p s (state w) = spec_view p s (state w').
Proof. unfold buffer, spec_view. intros E. injection E as -> -> ->. reflexivity. Qed.

(** X4. A tick and the chart. With a chart created and the performance tab
    on screen, a tick that appends a point hands the chart the view of the
    buffer as the tick leaves it: in the real-data branch the most recent
    window of the new buffer with every [step]-th point kept, the point
    just appended included at range 1D; in the placeholder branch a fresh
    series, which costs 100 draws of the random source at every tick. With
    no chart, or with the tab hidden, a tick leaves the chart and the random
    source alone. *)
Theorem tick_redraws_visible_chart `{Host} (v : Variant) (w : World) (inp : TickInput) :
  let w' := tick v w inp in
  let range := chartTimeRange (state w) in
  (isAuth (state w) = true -> clean v inp = true ->
   truthy (applied_metrics v (mResp inp) (metrics (state w))) = true ->
   pnlChart w <> None -> perfTabHidden (page inp) = Some false ->
   drawn w' = (if synthetic_branch (state w') then pointsCount else 0) + drawn w
   /\ (aligned w -> In range supported_ranges -> synthetic_branch (state w') = false ->
       pnlChart w'
       = Some (spec_view (point_limit range) (stride_step range) (state w'))))
  /\ (pnlChart w = None \/ perfTabHidden (page inp) = Some true ->
      pnlChart w' = pnlChart w /\ drawn w' = drawn w).
Proof.
  intros w' range.
  assert (Hw' : w' = tick v w inp) by reflexivity. clearbody w'.
  set (F := fun w : World => (pnlChart w, drawn w, buffer w, chartTimeRange (state w))).
  assert (Hcatch : forall e : JsError, keeps F (modify (log_console "API Sync Failed")))
    by (intros e; apply keeps_modify; blind).
  split.
  - intros Ha Hc Hm Hchart Htab.
    destruct (pnlChart w) as [c|] eqn:Hpc; [clear Hchart | congruence].
    destruct (syncSnapshot_clean v inp w Hc) as (Hok & Hcore & _).
    set (w1 := run (syncSnapshot v inp) w) in *.
    assert (Hs : same_but written_through (metrics (state w1))
                   (applied_metrics v (mResp inp) (metrics (state w)))) by exact Hcore.
    assert (Ht1 : truthy (metrics (state w1)) = true)
      by (rewrite (same_but_truthy _ _ _ Hs); exact Hm).
    assert (H1 : (pnlChart w1, drawn w1) = (pnlChart w, drawn w))
      by apply (syncSnapshot_chart v inp w).
    injection H1 as Hpc1 Hd1.
    destruct (trackPnl_pushed (page inp) (now inp) w1 Ht1) as (w2 & Hrun & Hp2 & Hd2 & Hr2).
    assert (Hpc2 : pnlChart w2 = Some c) by congruence.
    rewrite (redrawVisibleChart_visible _ _ _ c Hpc2 Htab) in Hrun.
    destruct (refreshChartData_chart (page inp) (now inp) w2 c Hpc2)
      as (view & Hv & Hp3 & Hs3 & Hd3).
    rewrite <- Hrun in Hp3, Hs3, Hd3.
    assert (HF : F w' = F (run (trackPnl (page inp) (now inp)) w1)).
    { rewrite Hw'. unfold tick, fetchSystemData. rewrite run_bind_get, Ha.
      simpl negb. cbv iota.
      rewrite (run_try_catch_keeps F) by exact Hcatch.
      unfold fetchSystemData_body.
      destruct (run_bind_cases (syncSnapshot v inp)
                  (fun _ => bind (trackPnl (page inp) (now inp))
                                 (fun _ => refreshDashboard v inp)) w)
        as [(e & He & _) | (a & _ & Hr)]; [rewrite Hok in He; discriminate|].
      rewrite Hr. fold w1.
      apply run_bind_keeps_tail. intros _. apply refreshDashboard_chart. }
    unfold F in HF. injection HF as HFc HFd HFh HFt HFf HFr.
    assert (Hb2 : buffer w' = buffer w2)
      by (unfold buffer; rewrite HFh, HFt, HFf, Hs3; reflexivity).
    assert (Hsyn : synthetic_branch (state w') = synthetic_branch (state w2)).
    { assert (Hh : pnlHistory (state w') = pnlHistory (state w2))
        by (unfold buffer in Hb2; congruence).
      unfold synthetic_branch. rewrite Hh, HFr, Hs3. reflexivity. }
    split.
    + rewrite HFd, Hd3, Hsyn. congruence.
    + intros Hal Hin Hreal. rewrite HFc, Hp3. f_equal.
      assert (Hal2 : aligned w2).
      { pose proof (tick_aligned v w inp Hal) as Hal'. rewrite <- Hw' in Hal'.
        unfold aligned in *. unfold buffer in Hb2. injection Hb2 as E1 E2 E3.
        rewrite <- E1, <- E2, <- E3. exact Hal'. }
      assert (Hrange : chartTimeRange (state w2) = range).
      { pose proof (tick_session_controls v w inp) as Hk. unfold session_controls in Hk.
        rewrite <- Hw' in Hk. injection Hk as _ _ _ Hk _ _ _ _ _.
        unfold range. rewrite <- Hk, HFr, Hs3. reflexivity. }
      destruct (supported_range_config range Hin) as (Hcfg & Hp & Hst).
      rewrite <- Hrange in Hcfg at 1.
      rewrite (getFilteredChartData_real w2 (now inp) (config_of range) Hal2 Hcfg Hp Hst)
        in Hv by (rewrite <- Hsyn; exact Hreal).
      injection Hv as <-. symmetry. apply spec_view_buffer. exact Hb2.
  - intros Hidle.
    set (G := fun w : World => (pnlChart w, drawn w)).
    assert (HG : G w' = G w); [|unfold G in HG; injection HG; auto].
    rewrite Hw'. unfold tick, fetchSystemData. rewrite run_bind_get.
    destruct (isAuth (state w)); simpl negb; cbv iota; [|reflexivity].
    rewrite (run_try_catch_keeps G) by (intros e; apply keeps_modify; blind).
    unfold fetchSystemData_body.
    pose proof (syncSnapshot_chart v inp w) as H1. cbv beta in H1.
    destruct (run_bind_cases (syncSnapshot v inp)
                (fun _ => bind (trackPnl (page inp) (now inp))
                               (fun _ => refreshDashboard v inp)) w)
      as [(e & _ & Hr) | (a & _ & Hr)]; rewrite Hr; [exact H1|].
    rewrite (run_bind_keeps_tail G)
      by (intros _; apply keeps_refreshDashboard; blind).
    injection H1 as Hp1 Hd1.
    destruct (trackPnl_idle (page inp) (now inp) (run (syncSnapshot v inp) w)) as [Hp Hd].
    { rewrite Hp1. exact Hidle. }
    unfold G. congruence.
Qed.

Lemma tick_redraws_visible_chart_witness :
  let w := charted sample_world in
  let inp := with_page visible_page (sample_tick (ok_json sample_metrics)) in
  isAuth (state w) = true /\ clean Current inp = true
  /\ pnlChart w <> None /\ perfTabHidden (page inp) = Some false
  /\ pnlChart (tick (H:=sample_host) Current w inp)
     = Some (mkChartData ["09:15:00"; "0"] [JNum 10; JNum 10] ["Jan 1, 09:15:00"; "0"]).
Proof.
  intros w inp.
  assert (Hc : pnlChart w <> None) by (intros E; discriminate E).
  split; [reflexivity|]. split; [reflexivity|]. split; [exact Hc|]. split; [reflexivity|].
  destruct (tick_redraws_visible_chart (H:=sample_host) Current w inp) as [Hvis _].
  destruct (Hvis eq_refl eq_refl eq_refl Hc eq_refl) as [_ Hview].
  rewrite Hview.
  - reflexivity.
  - split; reflexivity.
  - simpl. tauto.
  - reflexivity.
Defined.

(** ** The balance response and the capital of the snapshot *)

Lemma assoc_assoc_set (k : string) (x : JsVal) (fs : list (string * JsVal)) :
  assoc k (assoc_set k x fs) = Some x.
Proof.
  induction fs as [|[k' v'] rest IH]; simpl.
  - rewrite String.eqb_refl. reflexivity.
  - destruct (String.eqb k' k) eqn:E; simpl.
    + rewrite String.eqb_refl. reflexivity.
    + rewrite E. exact IH.
Qed.


Lemma member_with_member (fs : list (string * JsVal)) (k : string) (x : JsVal) :
  member (with_member (JObj fs) k x) k = x.
Proof. simpl. rewrite assoc_assoc_set. reflexivity. Qed.









(** ** How a mode request settles *)

Lemma updateExecutionModeUI_effects (pg : Page) (mode dataStatus : JsVal) :
  keeps (fun w => (switch_effects w, switch_untouched w))
        (updateExecutionModeUI pg mode dataStatus).
Proof. unfold updateExecutionModeUI. frame; blind. Qed.

Lemma fetchSystemData_call_state (w : World) :
  state (fetchSystemData_call w) = state w.
Proof. unfold fetchSystemData_call. destruct (isAuth _); reflexivity. Qed.

Lemma fetchSystemData_call_display (w : World) :
  display (fetchSystemData_call w) = display w.
Proof. unfold fetchSystemData_call. destruct (isAuth _); reflexivity. Qed.

Lemma updateExecutionModeUI_requests (pg : Page) (mode dataStatus : JsVal) :
  keeps (fun w => (requests w, isAuth (state w)))
        (updateExecutionModeUI pg mode dataStatus).
Proof. unfold updateExecutionModeUI. frame; blind. Qed.

(** The [try] block, outcome by outcome. *)
Lemma confirmModeSwitch_try_rejected `{Host} (pg : Page) (mode : string) (e : JsError)
    (w : World) :
  confirmModeSwitch_try pg mode (Rejected e) w = (Throw e, w).
Proof. reflexivity. Qed.

Lemma confirmModeSwitch_try_not_ok `{Host} (pg : Page) (mode : string) (res : Response)
    (w : World) :
  ok res = false ->
  confirmModeSwitch_try pg mode (Responded res) w = (Throw (http_failure res), w).
Proof.
  intros Hok. unfold confirmModeSwitch_try, http_failure. rewrite bind_ret, Hok.
  cbn [negb]. destruct (error_payload res); reflexivity.
Qed.

Lemma confirmModeSwitch_try_undecodable `{Host} (pg : Page) (mode : string)
    (res : Response) (e : JsError) (w : World) :
  ok res = true -> body res = inl e ->
  confirmModeSwitch_try pg mode (Responded res) w = (Throw e, w).
Proof.
  intros Hok Hb. unfold confirmModeSwitch_try, json. rewrite bind_ret, Hok, Hb.
  reflexivity.
Qed.

Lemma confirmModeSwitch_try_decoded `{Host} (pg : Page) (mode : string)
    (res : Response) (payload : JsVal) (w : World) :
  ok res = true -> body res = inr payload ->
  confirmModeSwitch_try pg mode (Responded res) w
  = match payload with
    | JUndefined =>
        (Throw (TypeError "Cannot read properties of undefined (reading 'status')"), w)
    | JNull => (Throw (TypeError "Cannot read properties of null (reading 'status')"), w)
    | _ =>
        if is_string "success" (member payload "status")
        then bind (updateExecutionModeUI pg (member payload "mode")
                                         (member payload "data_status"))
                  (fun _ => bind closeModeModal
                     (fun _ => bind (modify (log_console "[MODE SWITCH]"))
                        (fun _ => modify fetchSystemData_call))) w
        else (Ok tt, log_alert ("Mode switch blocked: " +:+ blocked_reason payload) w)
    end.
Proof.
  intros Hok Hb. unfold confirmModeSwitch_try, json, blocked_reason.
  rewrite bind_ret, Hok, Hb. cbn [negb]. rewrite bind_ret.
  destruct payload; try reflexivity; cbn [prop]; rewrite bind_ret;
    match goal with
    | |- context [is_string "success" ?s] => destruct (is_string "success" s)
    end; reflexivity.
Qed.

(** ** Texts that end in a number *)

Lemma pretty_N_char_digit (x : N) : is_digit (pretty_N_char x) = true.
Proof.
  unfold pretty_N_char. destruct x as [|p]; [reflexivity|].
  repeat (destruct p as [p|p|]; try reflexivity).
Qed.

Lemma pretty_N_go_digits (x : N) (s : string) :
  all_chars is_digit s = true -> all_chars is_digit (pretty_N_go x s) = true.
Proof.
  revert s. induction (N.lt_wf_0 x) as [x _ IH]. intros s Hs.
  destruct (decide (x = 0%N)) as [->|Hx].
  - rewrite pretty_N_go_0. exact Hs.
  - rewrite pretty_N_go_step by lia. apply IH.
    + apply N.div_lt; lia.
    + simpl. rewrite pretty_N_char_digit. exact Hs.
Qed.

Lemma pretty_nat_digits (n : nat) : all_chars is_digit (pretty n) = true.
Proof.
  unfold pretty, pretty_nat, pretty, pretty_N.
  destruct (decide (N.of_nat n = 0%N)); [reflexivity|].
  apply pretty_N_go_digits. reflexivity.
Qed.

(** A needle without digits that starts inside [p +:+ d], for a text [d]
    of digits, lies inside [p]. *)
Lemma prefix_before_digits (n p d : string) :
  all_chars (fun c => negb (is_digit c)) n = true -> all_chars is_digit d = true ->
  String.prefix n (p +:+ d) = true -> String.prefix n p = true.
Proof.
  revert p. induction n as [|c n IH]; intros p Hn Hd Hp; [destruct p; reflexivity|].
  simpl in Hn. apply andb_true_iff in Hn. destruct Hn as [Hc Hn].
  destruct p as [|c0 p].
  - change ("" +:+ d) with d in Hp.
    destruct d as [|c1 d]; [discriminate|]. simpl in Hd, Hp.
    apply andb_true_iff in Hd. destruct Hd as [Hc1 _].
    destruct (Ascii.ascii_dec c c1) as [->|]; [|discriminate].
    rewrite Hc1 in Hc. discriminate.
  - change (String c0 p +:+ d) with (String c0 (p +:+ d)) in Hp. simpl in Hp |- *.
    destruct (Ascii.ascii_dec c c0); [|discriminate]. apply (IH p Hn Hd Hp).
Qed.

Lemma includes_digits (n d : string) (c : Ascii.ascii) :
  is_digit c = false -> all_chars is_digit d = true -> includes (String c n) d = false.
Proof.
  intros Hc. induction d as [|c1 d IH]; intros Hd; [reflexivity|].
  simpl in Hd. apply andb_true_iff in Hd. destruct Hd as [Hc1 Hd].
  cbn [includes String.prefix].
  destruct (Ascii.ascii_dec c c1) as [->|]; [rewrite Hc1 in Hc; discriminate|].
  apply IH, Hd.
Qed.

Lemma includes_before_digits (n p d : string) (c : Ascii.ascii) :
  is_digit c = false -> all_chars (fun c => negb (is_digit c)) n = true ->
  all_chars is_digit d = true ->
  includes (String c n) (p +:+ d) = includes (String c n) p.
Proof.
  intros Hc Hn Hd. induction p as [|c0 p IH].
  - change ("" +:+ d) with d. rewrite (includes_digits n d c Hc Hd). reflexivity.
  - change (String c0 p +:+ d) with (String c0 (p +:+ d)).
    cbn [includes].
    destruct (String.prefix (String c n) (String c0 (p +:+ d))) eqn:E.
    + rewrite (prefix_before_digits (String c n) (String c0 p) d); auto.
      simpl. rewrite Hc. exact Hn.
    + destruct (String.prefix (String c n) (String c0 p)) eqn:E2; [|exact IH].
      exfalso. revert E E2. clear. revert c0 p.
      assert (Hg : forall a b, String.prefix a b = true ->
                               String.prefix a (b +:+ d) = true).
      { induction a as [|x a IHa]; intros b Hb; [destruct (b +:+ d); reflexivity|].
        destruct b as [|y b]; [discriminate|].
        change (String y b +:+ d) with (String y (b +:+ d)). simpl in *.
        destruct (Ascii.ascii_dec x y); [apply IHa, Hb | discriminate]. }
      intros c0 p E E2. apply (Hg _ (String c0 p)) in E2.
      change (String c0 p +:+ d) with (String c0 (p +:+ d)) in E2. congruence.
Qed.

(** *** The request settles *)

Lemma settle_after_throw `{Host} (pg : Page) (mode : string) (o : FetchOutcome)
    (w w1 : World) (e : JsError) :
  confirmModeSwitch_try pg mode o w = (Throw e, w1) ->
  confirmModeSwitch_settle pg mode o w
  = (Ok tt, set_isSwitchingMode false
              (log_alert (switch_error_message e)
                 (log_console "[MODE SWITCH ERROR]" w1))).
Proof.
  intros E. unfold confirmModeSwitch_settle, try_finally, try_catch. rewrite E.
  reflexivity.
Qed.

Lemma settle_after_ok `{Host} (pg : Page) (mode : string) (o : FetchOutcome)
    (w w1 : World) :
  confirmModeSwitch_try pg mode o w = (Ok tt, w1) ->
  confirmModeSwitch_settle pg mode o w = (Ok tt, set_isSwitchingMode false w1).
Proof.
  intros E. unfold confirmModeSwitch_settle, try_finally, try_catch. rewrite E.
  reflexivity.
Qed.

(** A request that was not accepted: the [try] block throws in the world
    it started from, or shows the alert of a blocked switch. *)
Lemma confirmModeSwitch_try_refused `{Host} (pg : Page) (mode : string)
    (o : FetchOutcome) (w : World) :
  accepted_payload o = None ->
  (exists e, confirmModeSwitch_try pg mode o w = (Throw e, w))
  \/ (exists msg, confirmModeSwitch_try pg mode o w = (Ok tt, log_alert msg w)).
Proof.
  unfold accepted_payload. destruct o as [e|res].
  - intros _. left. exists e. reflexivity.
  - destruct (ok res) eqn:Hok.
    + destruct (body res) as [e|payload] eqn:Hb.
      * intros _. left. exists e. apply confirmModeSwitch_try_undecodable; assumption.
      * rewrite (confirmModeSwitch_try_decoded pg mode res payload w Hok Hb).
        destruct (is_string "success" (member payload "status")) eqn:Hs; [discriminate|].
        intros _. destruct payload; eauto.
    + intros _. left. eexists. apply confirmModeSwitch_try_not_ok. exact Hok.
Qed.

Lemma confirmModeSwitch_try_accepted `{Host} (pg : Page) (mode : string)
    (o : FetchOutcome) (payload : JsVal) (w : World) :
  accepted_payload o = Some payload ->
  confirmModeSwitch_try pg mode o w
  = bind (updateExecutionModeUI pg (member payload "mode") (member payload "data_status"))
         (fun _ => bind closeModeModal
            (fun _ => bind (modify (log_console "[MODE SWITCH]"))
               (fun _ => modify fetchSystemData_call))) w.
Proof.
  unfold accepted_payload. destruct o as [e|res]; [discriminate|].
  destruct (ok res) eqn:Hok; [|discriminate].
  destruct (body res) as [e|p] eqn:Hb; [discriminate|].
  destruct (is_string "success" (member p "status")) eqn:Hs; [|discriminate].
  intros E. injection E as <-.
  rewrite (confirmModeSwitch_try_decoded pg mode res p w Hok Hb), Hs.
  destruct p; try reflexivity; discriminate.
Qed.

(** X6. However a mode request settles, the rest of [confirmModeSwitch]
    ends without throwing and in exactly one of two ways. Either the switch
    is applied: the modal is closed, no alert is shown and
    [fetchSystemData()] is called, which in a signed-in session sends the
    metrics request of a new tick before the handler ends (the rest of
    that tick, with what it appends and redraws, runs after the handler).
    Or exactly one alert is shown, the modal stays as it was, nothing is
    resynchronised and no request is sent. When the handler ends it has
    not reloaded the page and has not touched the history, the chart or
    the random source. A request that the backend did not accept
    (rejected, not OK, undecodable, or answered without [success]) leaves
    the state and the mode badge exactly as they were. *)
Theorem mode_switch_settles_one_way `{Host} (pg : Page) (mode : string)
    (o : FetchOutcome) (w : World) :
  let w' := run (confirmModeSwitch_settle pg mode o) w in
  fst (confirmModeSwitch_settle pg mode o w) = Ok tt
  /\ switch_untouched w' = switch_untouched w
  /\ ((switch_effects w' = (S (resyncs w), alerts w, false)
       /\ requests w' = requests w ++ started_poll w)
      \/ ((exists msg, switch_effects w' = (resyncs w, alerts w ++ [msg], modalOpen w))
          /\ requests w' = requests w))
  /\ (accepted_payload o = None ->
      state w' = state w /\ display w' = display w /\ requests w' = requests w
      /\ exists msg, switch_effects w' = (resyncs w, alerts w ++ [msg], modalOpen w)).
Proof.
  intros w'. subst w'. unfold run.
  destruct (accepted_payload o) as [payload|] eqn:Hacc.
  - pose proof (confirmModeSwitch_try_accepted pg mode o payload w Hacc) as E.
    pose proof (updateExecutionModeUI_effects pg (member payload "mode")
                  (member payload "data_status") w) as Hk.
    pose proof (updateExecutionModeUI_requests pg (member payload "mode")
                  (member payload "data_status") w) as Hq.
    unfold run, bind in *.
    destruct (updateExecutionModeUI pg (member payload "mode")
                (member payload "data_status") w) as [[[]|e] w1]; simpl in Hk, Hq, E.
    + rewrite (settle_after_ok pg mode o w _ E).
      injection Hq as Hreq Hauth.
      unfold switch_effects, switch_untouched, buffer, started_poll, fetchSystemData_call
        in *.
      injection Hk as Hr Ha Hmo Hrl Hh Ht Hf Hc Hd.
      simpl. rewrite Hauth.
      split; [reflexivity|].
      destruct (isAuth (state w)); simpl; rewrite ?app_nil_r;
        (split; [congruence|]); (split; [|discriminate]); left; split; congruence.
    + rewrite (settle_after_throw pg mode o w w1 e E).
      injection Hq as Hreq Hauth.
      unfold switch_effects, switch_untouched, buffer in *. simpl.
      injection Hk as Hr Ha Hmo Hrl Hh Ht Hf Hc Hd.
      split; [reflexivity|]. split; [congruence|].
      split; [right; split; [eexists; rewrite Hr, Ha, Hmo; reflexivity | exact Hreq]
             | discriminate].
  - destruct (confirmModeSwitch_try_refused pg mode o w Hacc) as [[e E] | [msg E]].
    + rewrite (settle_after_throw pg mode o w w e E). simpl.
      split; [reflexivity|]. split; [reflexivity|].
      split; [right; split; [eexists; reflexivity | reflexivity]|].
      intros _. split; [reflexivity|]. split; [reflexivity|].
      split; [reflexivity|]. eexists; reflexivity.
    + rewrite (settle_after_ok pg mode o w _ E). simpl.
      split; [reflexivity|]. split; [reflexivity|].
      split; [right; split; [eexists; reflexivity | reflexivity]|].
      intros _. split; [reflexivity|]. split; [reflexivity|].
      split; [reflexivity|]. eexists; reflexivity.
Qed.

Lemma mode_switch_settles_one_way_witness :
  let accepted := ok_json (JObj [("status", JStr "success"); ("mode", JStr "PAPER")]) in
  let applied := run (confirmModeSwitch_settle (H:=sample_host) sample_page "PAPER" accepted)
                     sample_world in
  let refused := run (confirmModeSwitch_settle (H:=sample_host) sample_page "PAPER" timed_out)
                     sample_world in
  accepted_payload timed_out = None
  /\ state refused = state sample_world
  /\ requests refused = []
  /\ alerts refused = ["Request timed out. Server took too long to respond."]
  /\ requests applied = ["/api/v1/dashboard/metrics"]
  /\ alerts applied = []
  /\ resyncs applied = 1
  /\ buffer applied = buffer sample_world.
Proof.
  intros accepted applied refused.
  destruct (mode_switch_settles_one_way (H:=sample_host) sample_page "PAPER" timed_out
              sample_world) as (_ & _ & _ & Hrefused).
  destruct (Hrefused eq_refl) as (Hs & _ & Hq & _).
  destruct (mode_switch_settles_one_way (H:=sample_host) sample_page "PAPER" accepted
              sample_world) as (_ & Hu & _ & _).
  split; [reflexivity|]. split; [exact Hs|]. split; [exact Hq|].
  split; [reflexivity|]. split; [reflexivity|]. split; [reflexivity|].
  split; [reflexivity|].
  exact (f_equal (fun x => snd (fst (fst x))) Hu).
Defined.

(** *** What the alert of a failed switch says *)

Lemma switch_error_message_numbered (c : Ascii.ascii) (p d : string) :
  all_chars is_digit d = true ->
  includes "Failed to fetch" (String c p) = false ->
  includes "NetworkError" (String c p) = false ->
  includes "JSON" (String c p) = false ->
  switch_error_message (PlainError (String c p +:+ d))
  = "Mode switch error: " +:+ (String c p +:+ d).
Proof.
  intros Hd H1 H2 H3. unfold switch_error_message, PlainError. cbn [ename emessage].
  change (String.eqb "Error" "AbortError") with false. cbv iota.
  rewrite !includes_before_digits by (first [exact Hd | reflexivity]).
  rewrite H1, H2, H3. cbn [orb].
  change (String c p +:+ d) with (String c (p +:+ d)). reflexivity.
Qed.

Lemma settle_alert_of_throw `{Host} (pg : Page) (mode : string) (o : FetchOutcome)
    (w : World) (e : JsError) :
  confirmModeSwitch_try pg mode o w = (Throw e, w) ->
  alerts (run (confirmModeSwitch_settle pg mode o) w)
  = alerts w ++ [switch_error_message e].
Proof. intros E. unfold run. rewrite (settle_after_throw pg mode o w w e E). reflexivity. Qed.

(** X7. The text of the alert after a switch that failed. A request that
    was aborted (the 10 s time-out) is reported as timed out, whatever the
    message of the error. A response that is not OK and whose body is not
    JSON is reported with its status code, [Mode switch error: HTTP 502];
    one whose JSON body carries no usable [detail] with
    [Mode switch error: Server error: 502]. An OK response that answers
    without [success] is reported as blocked, with the reason it gives. *)
Theorem failed_switch_alert_text `{Host} (pg : Page) (mode : string) (w : World) :
  (forall e, ename e = "AbortError" ->
     alerts (run (confirmModeSwitch_settle pg mode (Rejected e)) w)
     = alerts w ++ ["Request timed out. Server took too long to respond."])
  /\ (forall res e, ok res = false -> body res = inl e ->
        alerts (run (confirmModeSwitch_settle pg mode (Responded res)) w)
        = alerts w ++ ["Mode switch error: HTTP " +:+ pretty (status res)])
  /\ (forall res fs, ok res = false -> body res = inr (JObj fs) ->
        truthy (member (JObj fs) "detail") = false ->
        alerts (run (confirmModeSwitch_settle pg mode (Responded res)) w)
        = alerts w ++ ["Mode switch error: Server error: " +:+ pretty (status res)])
  /\ (forall res fs, ok res = true -> body res = inr (JObj fs) ->
        is_string "success" (member (JObj fs) "status") = false ->
        alerts (run (confirmModeSwitch_settle pg mode (Responded res)) w)
        = alerts w ++ ["Mode switch blocked: " +:+ blocked_reason (JObj fs)]).
Proof.
  split; [|split; [|split]].
  - intros e He.
    rewrite (settle_alert_of_throw pg mode (Rejected e) w e eq_refl).
    unfold switch_error_message. rewrite He. reflexivity.
  - intros res e Hok Hb.
    rewrite (settle_alert_of_throw pg mode (Responded res) w (http_failure res))
      by (apply confirmModeSwitch_try_not_ok; exact Hok).
    unfold http_failure, error_payload. rewrite Hb.
    cbn [member assoc String.eqb Ascii.eqb Bool.eqb default from_option id].
    change (js_or (JStr ("HTTP " +:+ pretty (status res))) ?x)
      with (JStr ("HTTP " +:+ pretty (status res))).
    cbn [error_text].
    rewrite (switch_error_message_numbered _ _ _ (pretty_nat_digits (status res)))
      by reflexivity.
    reflexivity.
  - intros res fs Hok Hb Hd.
    rewrite (settle_alert_of_throw pg mode (Responded res) w (http_failure res))
      by (apply confirmModeSwitch_try_not_ok; exact Hok).
    unfold http_failure, error_payload. rewrite Hb. unfold js_or. rewrite Hd.
    cbn [error_text].
    rewrite (switch_error_message_numbered _ _ _ (pretty_nat_digits (status res)))
      by reflexivity.
    reflexivity.
  - intros res fs Hok Hb Hs. unfold run.
    rewrite (settle_after_ok pg mode (Responded res) w
               (log_alert ("Mode switch blocked: " +:+ blocked_reason (JObj fs)) w)).
    + reflexivity.
    + rewrite (confirmModeSwitch_try_decoded pg mode res (JObj fs) w Hok Hb), Hs.
      reflexivity.
Qed.

Lemma failed_switch_alert_text_witness :
  ok (mkResponse false 502 (inl (mkError "SyntaxError" "Unexpected token <"))) = false
  /\ alerts (run (confirmModeSwitch_settle (H:=sample_host) sample_page "REAL"
                    (Responded (mkResponse false 502
                       (inl (mkError "SyntaxError" "Unexpected token <")))))
                 sample_world)
     = ["Mode switch error: HTTP 502"].
Proof.
  split; [reflexivity|].
  destruct (failed_switch_alert_text (H:=sample_host) sample_page "REAL" sample_world)
    as (_ & Hhttp & _).
  rewrite (Hhttp (mkResponse false 502 (inl (mkError "SyntaxError" "Unexpected token <")))
                 (mkError "SyntaxError" "Unexpected token <") eq_refl eq_refl).
  reflexivity.
Defined.

(** *** The switch is accepted *)

(** The badge once [updateExecutionModeUI] has run to its end. *)
Lemma updateExecutionModeUI_done (pg : Page) (mode dataStatus : JsVal) (w : World) :
  modalGrid pg = false \/ (exists s, mode = JStr s) ->
  exists w1,
    updateExecutionModeUI pg mode dataStatus w = (Ok tt, w1)
    /\ (headerElements pg = true -> headerMode (display w1) = mode)
    /\ (modalGrid pg = true -> selectedOption (display w1) = Some mode)
    /\ (forall fs, metrics (state w) = JObj fs ->
                   member (metrics (state w1)) "execution_mode" = mode)
    /\ same_but ["execution_mode"] (metrics (state w)) (metrics (state w1)).
Proof.
  intros Hmode. unfold updateExecutionModeUI.
  assert (Hcheck : modalGrid pg = true -> toLowerCase_check mode = ret tt).
  { intros Hg. destruct Hmode as [Hf|[s ->]]; [congruence | reflexivity]. }
  destruct (headerElements pg), (modalGrid pg); try rewrite (Hcheck eq_refl);
    destruct (feed_label mode dataStatus); cbn [when];
    repeat (rewrite ?bind_ret, ?bind_get; unfold bind at 1; cbn [modify ret]);
    cbn [state set_display];
    destruct (truthy (metrics (state w))) eqn:Hm; cbn [when];
    repeat (rewrite ?bind_ret, ?bind_get; unfold bind at 1; cbn [modify ret update]);
    destruct (truthy dataStatus); cbn [when modify ret];
    eexists; (split; [reflexivity|]); simpl;
    (split; [intros; first [reflexivity | discriminate]|]);
    (split; [intros; first [reflexivity | discriminate]|]);
    (split; [intros fs Hfs; first [ rewrite Hfs; apply member_with_member
                                  | rewrite Hfs in Hm; discriminate Hm ]|]);
    unfold same_but;
    first [ reflexivity
          | symmetry; apply without_members_with_member; simpl; tauto ].
Qed.

(** A mode that is not a string stops the badge update where the option
    of the modal is looked up. *)
Lemma updateExecutionModeUI_throws (pg : Page) (mode dataStatus : JsVal) (w : World) :
  modalGrid pg = true -> (forall s, mode <> JStr s) ->
  exists e, fst (updateExecutionModeUI pg mode dataStatus w) = Throw e.
Proof.
  intros Hg Hmode. unfold updateExecutionModeUI. rewrite Hg.
  destruct (headerElements pg); cbn [when];
    repeat (rewrite ?bind_ret; unfold bind at 1; cbn [modify ret]);
    destruct mode; cbn [toLowerCase_check throw];
    first [ eexists; reflexivity | exfalso; eapply Hmode; reflexivity ].
Qed.

(** X8. When the backend accepts the switch, the badge follows the answer
    of the backend and not the button that was pressed: the header shows
    [data.mode], the option of that mode is selected in the modal, and
    [state.metrics.execution_mode] is set to it, no other member of the
    snapshot being changed; then the modal is closed and a
    resynchronisation is started. If the answer carries no [mode] string
    and the page has the modal's grid, the accepted switch is reported as
    an error: one alert, the modal left open, no resynchronisation. *)
Theorem accepted_switch_follows_backend `{Host} (pg : Page) (mode : string)
    (o : FetchOutcome) (payload : JsVal) (w : World) :
  accepted_payload o = Some payload ->
  let answered := member payload "mode" in
  let w' := run (confirmModeSwitch_settle pg mode o) w in
  (modalGrid pg = false \/ (exists s, answered = JStr s) ->
   switch_effects w' = (S (resyncs w), alerts w, false)
   /\ (headerElements pg = true -> headerMode (display w') = answered)
   /\ (modalGrid pg = true -> selectedOption (display w') = Some answered)
   /\ (forall fs, metrics (state w) = JObj fs ->
                  member (metrics (state w')) "execution_mode" = answered))
  /\ (modalGrid pg = true -> (forall s, answered <> JStr s) ->
      exists msg, switch_effects w' = (resyncs w, alerts w ++ [msg], modalOpen w))
  /\ same_but ["execution_mode"] (metrics (state w)) (metrics (state w')).
Proof.
  intros Hacc answered w'.
  pose proof (confirmModeSwitch_try_accepted pg mode o payload w Hacc) as E.
  fold answered in E.
  pose proof (updateExecutionModeUI_effects pg answered (member payload "data_status") w)
    as Hk. unfold run in Hk.
  split; [|split].
  - intros Hmode.
    destruct (updateExecutionModeUI_done pg answered (member payload "data_status") w Hmode)
      as (w1 & Hu & Hh & Hsel & Hmem & _).
    rewrite Hu in Hk. unfold bind in E. rewrite Hu in E. simpl in E, Hk.
    unfold w', run. rewrite (settle_after_ok pg mode o w _ E).
    unfold switch_effects, switch_untouched, fetchSystemData_call in *. simpl.
    injection Hk as Hr Ha Hmo _ _ _ _ _ _.
    destruct (isAuth (state w1)); simpl; (split; [congruence|]); auto.
  - intros Hg Hmode.
    destruct (updateExecutionModeUI_throws pg answered (member payload "data_status") w
                Hg Hmode) as [e He].
    unfold bind in E.
    destruct (updateExecutionModeUI pg answered (member payload "data_status") w)
      as [r w1]. simpl in He, Hk. subst r.
    unfold w', run. rewrite (settle_after_throw pg mode o w w1 e E).
    unfold switch_effects, switch_untouched in *. simpl.
    injection Hk as Hr Ha Hmo _ _ _ _ _ _.
    eexists. rewrite Hr, Ha, Hmo. reflexivity.
  - assert (Hcore : forall w1 r,
              updateExecutionModeUI pg answered (member payload "data_status") w = (r, w1) ->
              same_but ["execution_mode"] (metrics (state w)) (metrics (state w1))).
    { intros w1 r Hu.
      assert (Hkeep : keeps (fun w => without_members ["execution_mode"] (metrics (state w)))
                (updateExecutionModeUI pg answered (member payload "data_status"))).
      { unfold updateExecutionModeUI. frame; try blind.
        intros w0. simpl. apply without_members_with_member. simpl. tauto. }
      specialize (Hkeep w). unfold run in Hkeep. rewrite Hu in Hkeep.
      unfold same_but. symmetry. exact Hkeep. }
    unfold bind in E.
    destruct (updateExecutionModeUI pg answered (member payload "data_status") w)
      as [[[]|e] w1] eqn:Hu.
    + unfold w', run. rewrite (settle_after_ok pg mode o w _ E). simpl.
      rewrite fetchSystemData_call_state. apply (Hcore w1 _ eq_refl).
    + unfold w', run. rewrite (settle_after_throw pg mode o w w1 e E). simpl.
      apply (Hcore w1 _ eq_refl).
Qed.

Lemma accepted_switch_follows_backend_witness :
  let o := ok_json (JObj [("status", JStr "success"); ("mode", JStr "MOCK")]) in
  let w' := run (confirmModeSwitch_settle (H:=sample_host) sample_page "PAPER" o)
                sample_world in
  accepted_payload o
  = Some (JObj [("status", JStr "success"); ("mode", JStr "MOCK")])
  /\ headerMode (display w') = JStr "MOCK"
  /\ member (metrics (state w')) "execution_mode" = JStr "MOCK"
  /\ resyncs w' = 1.
Proof.
  intros o w'. split; [reflexivity|].
  destruct (accepted_switch_follows_backend (H:=sample_host) sample_page "PAPER" o
              (JObj [("status", JStr "success"); ("mode", JStr "MOCK")]) sample_world
              eq_refl) as (Hdone & _ & _).
  destruct Hdone as (He & Hh & _ & Hm).
  { right. exists "MOCK". reflexivity. }
  split; [apply Hh; reflexivity|].
  split; [apply (Hm _ eq_refl)|].
  vm_compute. reflexivity.
Defined.

(** ** The boxes of the market header *)

(** A payload drawn without an error has been drawn on a box with all its
    elements, and the box is labelled with the symbol of the payload. *)
Lemma renderPriceItem_ok `{Host} (st : State) (item : JsVal) (box b : PriceBox) :
  renderPriceItem st item box = (Ok tt, b) ->
  fromTemplate box = true /\ fromTemplate b = true
  /\ label_symbol b = Some (item_symbol st item).
Proof.
  intros E. unfold renderPriceItem in E.
  destruct item; try discriminate E;
    repeat match type of E with
           | (if ?c then _ else _) = _ => destruct c eqn:?
           end;
    try discriminate E; injection E as <-; (split; [reflexivity|split; [reflexivity|]]);
    unfold label_symbol, item_symbol; cbn [labelEl];
    repeat match goal with
           | |- context [if ?c then _ else _] => destruct c
           end; reflexivity.
Qed.

(** On a box without a change element every payload throws, and the box
    stays without one. *)
Lemma renderPriceItem_bare `{Host} (st : State) (item : JsVal) (box : PriceBox) :
  fromTemplate box = false ->
  exists e b, renderPriceItem st item box = (Throw e, b) /\ fromTemplate b = false.
Proof.
  intros Hb. unfold renderPriceItem. rewrite Hb.
  destruct item; try (eexists; eexists; split; [reflexivity | exact Hb]);
    match goal with
    | |- context [if ?c then (Throw no_change_element, _) else _] => destruct c
    end; eexists; eexists; split; reflexivity.
Qed.

Lemma insert_after {A} (done rest : list A) (b : A) :
  (if decide (length done < length (done ++ rest))
   then <[length done := b]> (done ++ rest) else (done ++ rest) ++ [b])
  = (done ++ [b]) ++ tail rest.
Proof.
  destruct rest as [|x rest].
  - rewrite app_nil_r. destruct (decide _); [lia|]. rewrite app_nil_r. reflexivity.
  - destruct (decide _) as [_|Hn]; [|rewrite length_app in Hn; simpl in Hn; lia].
    rewrite <- app_assoc. simpl. induction done as [|y done IH]; simpl; [reflexivity|].
    f_equal. exact IH.
Qed.

Lemma lookup_after {A} (done rest : list A) :
  (done ++ rest) !! length done = head rest.
Proof.
  induction done as [|y done IH]; simpl; [destruct rest; reflexivity | exact IH].
Qed.

(** The loop over the payloads, from any point on: the boxes before the
    current index stay, the boxes from there on are drawn one per payload,
    and what the container held beyond the payloads stays. *)
Lemma renderItems_ok `{Host} (st : State) (items : list JsVal) (done rest boxes' : list PriceBox) :
  renderItems st items (length done) (done ++ rest) = (Ok tt, boxes') ->
  exists rendered,
    boxes' = done ++ rendered ++ drop (length items) rest
    /\ Forall2 (fun item b => fromTemplate b = true
                              /\ label_symbol b = Some (item_symbol st item))
               items rendered.
Proof.
  revert done rest boxes'. induction items as [|item items IH]; intros done rest boxes' E.
  - simpl in E. injection E as <-. exists []. simpl. rewrite drop_0. split; [reflexivity|].
    constructor.
  - cbn [renderItems] in E. rewrite lookup_after in E.
    destruct (renderPriceItem st item (default new_box (head rest))) as [r b] eqn:Er.
    rewrite insert_after in E.
    destruct r as [[]|e]; [|discriminate E].
    replace (S (length done)) with (length (done ++ [b])) in E
      by (rewrite length_app; simpl; lia).
    destruct (IH _ _ _ E) as (rendered & -> & Hall).
    destruct (renderPriceItem_ok st item _ b Er) as (_ & Hb & Hl).
    exists (b :: rendered). split.
    + rewrite <- app_assoc. simpl. destruct rest; simpl; rewrite ?drop_nil; reflexivity.
    + constructor; [split; assumption | exact Hall].
Qed.

Lemma filter_commodity_selected (st : State) (items kept : list JsVal) :
  filter_commodity st items = Ok kept ->
  Forall (fun item => is_string (selectedCommodity st) (member item "instrument") = true)
         kept.
Proof.
  revert kept. induction items as [|item items IH]; intros kept E.
  - injection E as <-. constructor.
  - simpl in E.
    destruct (filter_commodity st items) as [kept'|e];
      [|destruct item; discriminate E].
    specialize (IH kept' eq_refl).
    destruct (is_string (selectedCommodity st) (member item "instrument")) eqn:Hs;
      destruct item; try discriminate E; injection E as <-;
      first [exact IH | constructor; [exact Hs | exact IH]].
Qed.

(** X9. When a successful market response is drawn without an error, the
    price container holds exactly one box per payload shown, in the order
    of the payloads, each box complete and labelled with the symbol of its
    payload ([item.instrument], or the selected market when the payload
    names none). For the commodity market the payloads shown are those
    whose instrument is the selected commodity, and no other. *)
Theorem header_shows_one_box_per_item `{Host} (st : State) (fs : list (string * JsVal))
    (boxes boxes' : list PriceBox) :
  is_string "success" (member (JObj fs) "status") = true ->
  updateMarketHeader_render st (JObj fs) boxes = (Ok tt, boxes') ->
  exists items,
    displayed_items st (JObj fs) = Ok items
    /\ length boxes' = length items
    /\ Forall2 (fun item b => fromTemplate b = true
                              /\ label_symbol b = Some (item_symbol st item))
               items boxes'
    /\ (selectedMarket st = "COMMODITY" ->
        Forall (fun item =>
                  is_string (selectedCommodity st) (member item "instrument") = true)
               items).
Proof.
  intros Hs E. unfold updateMarketHeader_render in E.
  assert (Hc : is_string "MARKET_CLOSED" (member (JObj fs) "status") = false).
  { destruct (member (JObj fs) "status"); try reflexivity. simpl in *.
    apply String.eqb_eq in Hs. subst. reflexivity. }
  assert (Hu : is_string "DATA_UNAVAILABLE" (member (JObj fs) "status") = false).
  { destruct (member (JObj fs) "status"); try reflexivity. simpl in *.
    apply String.eqb_eq in Hs. subst. reflexivity. }
  rewrite Hc, Hu, Hs in E.
  fold (displayed_items st (JObj fs)) in E.
  destruct (displayed_items st (JObj fs)) as [items|e] eqn:Hd; [|discriminate E].
  exists items. split; [reflexivity|].
  assert (Hr : exists rendered,
             boxes' = rendered
             /\ Forall2 (fun item b => fromTemplate b = true
                                       /\ label_symbol b = Some (item_symbol st item))
                        items rendered).
  { destruct (length boxes =? length items) eqn:Hl.
    - apply Nat.eqb_eq in Hl.
      destruct (renderItems_ok st items [] boxes boxes' E) as (rendered & -> & Hall).
      exists rendered. rewrite drop_ge by lia. rewrite app_nil_r. auto.
    - destruct (renderItems_ok st items [] [] boxes' E) as (rendered & -> & Hall).
      exists rendered. rewrite drop_nil, app_nil_r. auto. }
  destruct Hr as (rendered & -> & Hall).
  split; [symmetry; apply (Forall2_length _ _ _ Hall)|]. split; [exact Hall|].
  intros Hm. unfold displayed_items in Hd. rewrite Hm in Hd. simpl String.eqb in Hd.
  cbv iota in Hd. apply (filter_commodity_selected st _ _ Hd).
Qed.

Lemma header_shows_one_box_per_item_witness :
  let boxes' := snd (updateMarketHeader_render (H:=sample_host) initial_state
                       sample_market_response []) in
  is_string "success" (member sample_market_response "status") = true
  /\ updateMarketHeader_render (H:=sample_host) initial_state sample_market_response []
     = (Ok tt, boxes')
  /\ length boxes' = 2
  /\ exists items,
       displayed_items initial_state sample_market_response = Ok items
       /\ length boxes' = length items.
Proof.
  intros boxes'.
  assert (E : updateMarketHeader_render (H:=sample_host) initial_state
                sample_market_response [] = (Ok tt, boxes')) by reflexivity.
  split; [reflexivity|]. split; [exact E|]. split; [reflexivity|].
  destruct (header_shows_one_box_per_item (H:=sample_host) initial_state
              [("status", JStr "success"); ("data", JArr [item_live_price; item_no_price])]
              [] boxes' eq_refl E) as (items & Hd & Hl & _).
  exists items. split; assumption.
Defined.

(** X10. The placeholder drawn for a closed market is a price box without
    a change element, and it sticks: as long as the responses that follow
    show exactly one payload, the placeholder is reused as the box of that
    payload, the callback throws at the missing change element and the
    container is left holding that one incomplete box. *)
Theorem closed_market_box_sticks `{Host} (st : State) (fs : list (string * JsVal))
    (boxes : list PriceBox) :
  (is_string "MARKET_CLOSED" (member (JObj fs) "status") = true ->
   updateMarketHeader_render st (JObj fs) boxes = (Ok tt, [closed_placeholder st])
   /\ lone_bare_box [closed_placeholder st])
  /\ (forall item,
        lone_bare_box boxes ->
        is_string "success" (member (JObj fs) "status") = true ->
        displayed_items st (JObj fs) = Ok [item] ->
        exists e boxes',
          updateMarketHeader_render st (JObj fs) boxes = (Throw e, boxes')
          /\ lone_bare_box boxes').
Proof.
  split.
  - intros Hc. unfold updateMarketHeader_render. rewrite Hc.
    split; [reflexivity|]. exists (closed_placeholder st). split; reflexivity.
  - intros item (b & -> & Hb) Hs Hd. unfold updateMarketHeader_render.
    assert (Hc : is_string "MARKET_CLOSED" (member (JObj fs) "status") = false).
    { destruct (member (JObj fs) "status"); try reflexivity. simpl in *.
      apply String.eqb_eq in Hs. subst. reflexivity. }
    assert (Hu : is_string "DATA_UNAVAILABLE" (member (JObj fs) "status") = false).
    { destruct (member (JObj fs) "status"); try reflexivity. simpl in *.
      apply String.eqb_eq in Hs. subst. reflexivity. }
    rewrite Hc, Hu, Hs. fold (displayed_items st (JObj fs)). rewrite Hd.
    cbn [length Nat.eqb renderItems lookup list_lookup default from_option id].
    destruct (renderPriceItem_bare st item b Hb) as (e & b' & -> & Hb').
    exists e, [b']. split; [reflexivity|]. exists b'. split; [reflexivity | exact Hb'].
Qed.

Lemma closed_market_box_sticks_witness :
  let closed := JObj [("status", JStr "MARKET_CLOSED")] in
  let reopened := JObj [("status", JStr "success"); ("data", JArr [item_live_price])] in
  let boxes := snd (updateMarketHeader_render (H:=sample_host) initial_state closed []) in
  lone_bare_box boxes
  /\ displayed_items initial_state reopened = Ok [item_live_price]
  /\ exists e boxes',
       updateMarketHeader_render (H:=sample_host) initial_state reopened boxes
       = (Throw e, boxes')
       /\ lone_bare_box boxes'.
Proof.
  intros closed reopened boxes.
  destruct (closed_market_box_sticks (H:=sample_host) initial_state
              [("status", JStr "MARKET_CLOSED")] []) as [Hclosed _].
  destruct (Hclosed eq_refl) as [_ Hbare].
  destruct (closed_market_box_sticks (H:=sample_host) initial_state
              [("status", JStr "success"); ("data", JArr [item_live_price])] boxes)
    as [_ Hstuck].
  split; [exact Hbare|]. split; [reflexivity|].
  apply (Hstuck item_live_price Hbare eq_refl eq_refl).
Defined.

(** X11. The flash of a price box compares the price with the one the
    previous render left in the box. After a payload with price [p] has
    been drawn, the box remembers the text of [p]; when the host reads that
    text back as [p], the next payload, with price [q], makes the box flash
    up if [q > p] and down if [q < p], and leaves the flash as it was if
    [q = p] or if [p] is not positive. *)
Theorem flash_compares_with_last_render `{Host} (st st' : State) (first second : JsVal)
    (box : PriceBox) (p q : Q) :
  member first "ltp" = JNum p -> Qeq_bool p 0 = false ->
  member second "ltp" = JNum q -> Qeq_bool q 0 = false ->
  is_string "LOADING"
    (js_or (member first "status") (js_or (member first "data_status") (JStr "LIVE")))
  = false ->
  is_string "LOADING"
    (js_or (member second "status") (js_or (member second "data_status") (JStr "LIVE")))
  = false ->
  to_display_string (JNum p) <> "" ->
  parseFloat (to_display_string (JNum p)) = Some p ->
  let b1 := snd (renderPriceItem st first box) in
  let b2 := snd (renderPriceItem st' second b1) in
  lastLtp b1 = Some (to_display_string (JNum p))
  /\ lastLtp b2 = Some (to_display_string (JNum q))
  /\ flashClass b2
     = (if Qlt_bool 0 p && negb (Qeq_bool q p)
        then Some (if Qlt_bool p q then "price-flash-up" else "price-flash-down")
        else flashClass b1).
Proof.
  intros Hp Hpz Hq Hqz Hs1 Hs2 Hne Hparse b1 b2.
  assert (Hfirst : exists fs, first = JObj fs)
    by (destruct first; simpl in Hp; try discriminate; eauto).
  assert (Hsecond : exists fs, second = JObj fs)
    by (destruct second; simpl in Hq; try discriminate; eauto).
  destruct Hfirst as [fs1 ->]. destruct Hsecond as [fs2 ->].
  assert (H1 : lastLtp b1 = Some (to_display_string (JNum p))).
  { unfold b1, renderPriceItem. rewrite Hp. cbn [is_zero_number]. rewrite Hpz.
    cbn [is_null is_undefined orb]. rewrite Hs1.
    destruct (fromTemplate box); reflexivity. }
  split; [exact H1|].
  apply String.eqb_neq in Hne.
  unfold b2, renderPriceItem. rewrite Hq. cbn [is_zero_number]. rewrite Hqz.
  cbn [is_null is_undefined orb]. rewrite Hs2, H1, Hne, Hparse.
  destruct (fromTemplate b1); split; reflexivity.
Qed.

Lemma flash_compares_with_last_render_witness :
  let b1 := snd (renderPriceItem (H:=decimal_host) initial_state item_live_price new_box) in
  let b2 := snd (renderPriceItem (H:=decimal_host) initial_state item_higher_price b1) in
  let b3 := snd (renderPriceItem (H:=decimal_host) initial_state item_higher_price b2) in
  @parseFloat decimal_host (@to_display_string decimal_host (JNum 22110))
  = Some 22110%Q
  /\ flashClass b1 = None
  /\ flashClass b2 = Some "price-flash-up"
  /\ flashClass b3 = Some "price-flash-up".
Proof.
  intros b1 b2 b3.
  assert (Hne : @to_display_string decimal_host (JNum 22110) <> "")
    by (intros E; discriminate E).
  destruct (flash_compares_with_last_render (H:=decimal_host) initial_state initial_state
              item_live_price item_higher_price new_box 22110 22150
              eq_refl eq_refl eq_refl eq_refl eq_refl eq_refl Hne eq_refl)
    as (_ & _ & Hflash).
  split; [reflexivity|]. split; [reflexivity|]. split; [exact Hflash | reflexivity].
Defined.

(** ** The positions and the audit trail behind the dashboard *)

Lemma string_app_assoc (a b c : string) : (a +:+ b) +:+ c = a +:+ (b +:+ c).
Proof.
  induction a as [|x a IH]; [reflexivity|].
  change (String x a +:+ b) with (String x (a +:+ b)).
  change (String x (a +:+ b) +:+ c) with (String x ((a +:+ b) +:+ c)).
  change (String x a +:+ (b +:+ c)) with (String x (a +:+ (b +:+ c))).
  rewrite IH. reflexivity.
Qed.

Lemma prefix_split (n h : string) :
  String.prefix n h = true -> exists post, h = n +:+ post.
Proof.
  revert h. induction n as [|c n IH]; intros h Hp.
  - exists h. reflexivity.
  - destruct h as [|c' h]; [discriminate|]. simpl in Hp.
    destruct (Ascii.ascii_dec c c') as [->|]; [|discriminate].
    destruct (IH h Hp) as [post ->]. exists post. reflexivity.
Qed.

Lemma prefix_app (n post : string) : String.prefix n (n +:+ post) = true.
Proof.
  induction n as [|c n IH]; [destruct post; reflexivity|].
  change (String c n +:+ post) with (String c (n +:+ post)). simpl.
  destruct (Ascii.ascii_dec c c); [exact IH | congruence].
Qed.

(** [hay.includes(needle)] holds exactly when the needle occurs in the
    text. *)
Lemma includes_occurs (n h : string) :
  includes n h = true <-> exists pre post, h = pre +:+ (n +:+ post).
Proof.
  split.
  - induction h as [|c h IH]; intros Hi.
    + cbn [includes] in Hi. destruct (String.prefix n "") eqn:Hp; [|discriminate].
      destruct (prefix_split _ _ Hp) as [post ->]. exists "", post. reflexivity.
    + cbn [includes] in Hi. destruct (String.prefix n (String c h)) eqn:Hp.
      * destruct (prefix_split _ _ Hp) as [post ->]. exists "", post. reflexivity.
      * destruct (IH Hi) as (pre & post & ->). exists (String c pre), post. reflexivity.
  - intros (pre & post & ->). induction pre as [|c pre IH].
    + change ("" +:+ (n +:+ post)) with (n +:+ post).
      destruct (n +:+ post) eqn:E; cbn [includes]; rewrite <- E, prefix_app; reflexivity.
    + change (String c pre +:+ (n +:+ post)) with (String c (pre +:+ (n +:+ post))).
      cbn [includes]. rewrite IH. destruct (String.prefix _ _); reflexivity.
Qed.

Lemma includes_trans (a b t : string) :
  includes a b = true -> includes b t = true -> includes a t = true.
Proof.
  intros Hab Hbt. apply includes_occurs in Hab. apply includes_occurs in Hbt.
  destruct Hab as (p1 & s1 & ->). destruct Hbt as (p2 & s2 & ->).
  apply includes_occurs. exists (p2 +:+ p1), (s1 +:+ s2).
  rewrite !string_app_assoc. reflexivity.
Qed.

Lemma filter_trades_single (s : string) (ts : list JsVal) :
  Forall (fun t => exists name, member t "instrument" = JStr name) ts ->
  filter_trades (Some [s]) ts = Ok (List.filter (names_symbol s) ts).
Proof.
  induction 1 as [|t ts [name Hn] _ IH]; [reflexivity|].
  cbn [filter_trades some_symbol List.filter]. rewrite IH.
  assert (Ht : instrument_includes t s = Ok (names_symbol s t)).
  { unfold instrument_includes, names_symbol. rewrite Hn.
    destruct t; simpl in Hn; try discriminate; reflexivity. }
  rewrite Ht. destruct (names_symbol s t); reflexivity.
Qed.

(** X12. The positions of a market are chosen by substring: a trade
    belongs to the selected market when its instrument contains the symbol
    of the market. So whenever the symbol of one market occurs in the
    symbol of another, as NIFTY does in BANKNIFTY, every position listed
    and summed under the second is also listed and summed under the first,
    in the same order. (Instruments are strings here; on such trades the
    filter never throws.) *)
Theorem substring_market_collects_trades (st : State) (a b sa sb : string)
    (ts : list JsVal) :
  trades st = JArr ts ->
  Forall (fun t => exists name, member t "instrument" = JStr name) ts ->
  relevantSymbols (set_selectedMarket a st) = Some [sa] ->
  relevantSymbols (set_selectedMarket b st) = Some [sb] ->
  includes sa sb = true ->
  exists ka kb,
    filteredTrades (set_selectedMarket a st) = Ok ka
    /\ filteredTrades (set_selectedMarket b st) = Ok kb
    /\ kb `sublist_of` ka.
Proof.
  intros Ht Hall Ha Hb Hab. unfold filteredTrades. cbn [trades set_selectedMarket].
  rewrite Ht, Ha, Hb, !filter_trades_single by exact Hall.
  eexists; eexists. split; [reflexivity|]. split; [reflexivity|].
  clear Ht Ha Hb. induction Hall as [|t ts [name Hn] _ IH]; [constructor|].
  assert (Ea : names_symbol sa t = includes sa name)
    by (unfold names_symbol; rewrite Hn; reflexivity).
  assert (Eb : names_symbol sb t = includes sb name)
    by (unfold names_symbol; rewrite Hn; reflexivity).
  cbn [List.filter]. rewrite Ea, Eb.
  destruct (includes sb name) eqn:Hsb.
  - rewrite (includes_trans sa sb name Hab Hsb). apply sublist_skip, IH.
  - destruct (includes sa name); [apply sublist_cons|]; exact IH.
Qed.

Lemma substring_market_collects_trades_witness :
  let st := set_trades sample_trades initial_state in
  relevantSymbols (set_selectedMarket "NIFTY" st) = Some ["NIFTY"]
  /\ relevantSymbols (set_selectedMarket "BANKNIFTY" st) = Some ["BANKNIFTY"]
  /\ includes "NIFTY" "BANKNIFTY" = true
  /\ option_map (@length JsVal)
       (match filteredTrades (set_selectedMarket "NIFTY" st) with
        | Ok k => Some k | Throw _ => None end) = Some 2
  /\ exists ka kb,
       filteredTrades (set_selectedMarket "NIFTY" st) = Ok ka
       /\ filteredTrades (set_selectedMarket "BANKNIFTY" st) = Ok kb
       /\ kb `sublist_of` ka.
Proof.
  intros st. split; [reflexivity|]. split; [reflexivity|]. split; [reflexivity|].
  split; [reflexivity|].
  apply (substring_market_collects_trades st "NIFTY" "BANKNIFTY" "NIFTY" "BANKNIFTY"
           [ JObj [("instrument", JStr "NIFTY24JANFUT"); ("pnl", JNum 120)];
             JObj [("instrument", JStr "BANKNIFTY24JANFUT"); ("pnl", JNum (-40))];
             JObj [("instrument", JStr "SENSEX24JANFUT"); ("pnl", JNum 15)] ]);
    try reflexivity.
  repeat constructor; eexists; reflexivity.
Defined.

Lemma js_find_skip (p : JsVal -> Result bool) (l1 l2 : list JsVal) :
  Forall (fun y => p y = Ok false) l1 -> js_find p (l1 ++ l2) = js_find p l2.
Proof.
  induction 1 as [|y l1 Hy _ IH]; [reflexivity|]. simpl. rewrite Hy. exact IH.
Qed.

Lemma js_find_found (p : JsVal -> Result bool) (l : list JsVal) (x : JsVal) :
  js_find p l = Ok x ->
  (Forall (fun y => p y = Ok false) l /\ x = JUndefined)
  \/ (exists l1 l2, l = l1 ++ x :: l2 /\ p x = Ok true
                    /\ Forall (fun y => p y = Ok false) l1).
Proof.
  induction l as [|y l IH]; simpl; intros E.
  - injection E as <-. left. split; [constructor | reflexivity].
  - destruct (p y) as [[|]|e] eqn:Hy; [| |discriminate E].
    + injection E as <-. right. exists [], l. repeat split; [exact Hy | constructor].
    + destruct (IH E) as [[Hall ->] | (l1 & l2 & -> & Hx & Hall)].
      * left. split; [constructor; assumption | reflexivity].
      * right. exists (y :: l1), l2. repeat split; [exact Hx | constructor; assumption].
Qed.

(** X13. The signal, context and advice panels look the audit trail up
    from its end: the event they show is the latest one that matches, the
    events before it are not inspected at all (an entry that would make
    the test throw does no harm there), and when no event matches the
    result is [undefined] and the panel is left alone. *)
Theorem last_event_is_latest_match (p : JsVal -> Result bool) (st : State)
    (events : list JsVal) :
  auditTrail st = JArr events ->
  (forall pre x post,
     events = pre ++ x :: post -> p x = Ok true ->
     Forall (fun y => p y = Ok false) post ->
     last_event p st = Ok x)
  /\ (Forall (fun y => p y = Ok false) events -> last_event p st = Ok JUndefined)
  /\ (forall x,
        last_event p st = Ok x ->
        (Forall (fun y => p y = Ok false) events /\ x = JUndefined)
        \/ (exists pre post,
              events = pre ++ x :: post /\ p x = Ok true
              /\ Forall (fun y => p y = Ok false) post)).
Proof.
  intros Ht. unfold last_event, spread. rewrite Ht. split; [|split].
  - intros pre x post -> Hx Hpost.
    rewrite reverse_app, reverse_cons, <- app_assoc.
    rewrite js_find_skip by (apply Forall_reverse; exact Hpost).
    simpl. rewrite Hx. reflexivity.
  - intros Hall. rewrite <- (app_nil_r (reverse events)).
    rewrite js_find_skip by (apply Forall_reverse; exact Hall). reflexivity.
  - intros x E. destruct (js_find_found p _ x E) as [[Hall ->] | (l1 & l2 & El & Hx & Hall)].
    + left. split; [|reflexivity]. apply Forall_reverse in Hall.
      rewrite reverse_involutive in Hall. exact Hall.
    + right. exists (reverse l2), (reverse l1).
      split; [|split; [exact Hx | apply Forall_reverse; exact Hall]].
      rewrite <- (reverse_involutive events), El.
      rewrite reverse_app, reverse_cons, <- app_assoc. reflexivity.
Qed.

Lemma last_event_is_latest_match_witness :
  let st := set_auditTrail sample_audit_trail initial_state in
  auditTrail st = sample_audit_trail
  /\ agent_is "GuidanceAgent" JNull
     = Throw (TypeError "Cannot read properties of null (reading 'agent')")
  /\ lastAdvice st
     = Ok (JObj [("agent", JStr "GuidanceAgent");
                 ("payload", JObj [("advice", JStr "exit")])])
  /\ lastSignal st
     = Throw (TypeError "Cannot read properties of null (reading 'agent')").
Proof.
  intros st. split; [reflexivity|]. split; [reflexivity|].
  destruct (last_event_is_latest_match (agent_is "GuidanceAgent") st _ eq_refl)
    as (Hfound & _).
  split; [|reflexivity].
  apply (Hfound
           [ JNull;
             JObj [("agent", JStr "GuidanceAgent");
                   ("payload", JObj [("advice", JStr "hold")])];
             JObj [("agent", JStr "MarketContextAgent"); ("symbol", JStr "NIFTY")] ]
           _ [JObj [("agent", JStr "AuditLogger")]]);
    [reflexivity | reflexivity | repeat constructor].
Defined.

(** ** Signing in and out *)

Lemma getItem_removeItem (k : string) (store : list (string * string)) :
  getItem k (removeItem k store) = None.
Proof.
  unfold getItem. induction store as [|[k' v] rest IH]; [reflexivity|]. simpl.
  destruct (String.eqb k' k) eqn:E; [exact IH|]. simpl. rewrite E. exact IH.
Qed.

Lemma getItem_setItem (k v : string) (store : list (string * string)) :
  getItem k (setItem k v store) = Some v.
Proof. unfold getItem, setItem. simpl. rewrite String.eqb_refl. reflexivity. Qed.

Lemma updateExecutionModeUI_session (pg : Page) (mode dataStatus : JsVal) :
  keeps (fun w => (isAuth (state w), requests w, alerts w))
        (updateExecutionModeUI pg mode dataStatus).
Proof. unfold updateExecutionModeUI. frame; blind. Qed.

(** A form that passes the checks names a user. *)
Lemma login_refusal_none (f : LoginForm) :
  login_refusal f = None -> String.eqb (userId f) "" = false.
Proof.
  unfold login_refusal. destruct (String.eqb (userId f) ""); [discriminate | reflexivity].
Qed.

(** The [try] block of a login that the backend accepts. When it ends
    without throwing the dashboard has been started, and the first metrics
    request is out. *)
Lemma handleLogin_try_accepted `{Host} (pg : Page) (layers : bool) (f : LoginForm)
    (o : FetchOutcome) (s : Session) :
  login_accepted o = true ->
  let '(r, s') := handleLogin_try pg layers f o s in
  isAuth (state (tab s')) = true
  /\ requests (tab s')
     = requests (tab s) ++ match r with
                           | Ok _ => ["/api/v1/dashboard/metrics"]
                           | Throw _ => []
                           end
  /\ localStorage s'
     = (if rememberMe f
        then setItem "antigravity_user_id" (userId f) (localStorage s)
        else removeItem "antigravity_user_id" (localStorage s))
  /\ (r = Ok tt -> pollers s' = S (pollers s) /\ alerts (tab s') = alerts (tab s))
  /\ (r <> Ok tt -> pollers s' = pollers s /\ alerts (tab s') = alerts (tab s)).
Proof.
  unfold login_accepted, handleLogin_try. destruct o as [e|res]; [discriminate|].
  destruct (ok res); [|discriminate]. destruct (body res) as [e|data]; [discriminate|].
  cbn [andb]. intros Hs.
  destruct data; try discriminate Hs; rewrite Hs;
    (destruct layers; cbn [negb];
     [| simpl; rewrite app_nil_r; repeat split; intros; congruence ]);
    (match goal with
     | |- context [if truthy ?m then _ else _] => destruct (truthy m)
     end; [| simpl; repeat split; intros; congruence ]);
    match goal with
    | |- context [updateExecutionModeUI pg ?m ?d ?w] =>
        pose proof (updateExecutionModeUI_session pg m d w) as Hk; unfold run in Hk;
        destruct (updateExecutionModeUI pg m d w) as [[[]|e] w1]; simpl in Hk;
        injection Hk as Ha Hq Hal
    end;
    unfold initDashboard, fetchSystemData_call; cbn [tab localStorage pollers];
    change (isAuth (state (request_resync w1))) with (isAuth (state w1));
    rewrite ?Ha; simpl; rewrite ?app_nil_r; repeat split; intros; congruence.
Qed.

(** The [try] block of a login that the backend does not accept: it shows
    the denial, or throws in the session it started from. *)
Lemma handleLogin_try_denied `{Host} (pg : Page) (layers : bool) (f : LoginForm)
    (o : FetchOutcome) (s : Session) :
  login_accepted o = false ->
  (exists e, handleLogin_try pg layers f o s = (Throw e, s))
  \/ (exists msg, handleLogin_try pg layers f o s = (Ok tt, in_tab (log_alert msg) s)).
Proof.
  unfold login_accepted, handleLogin_try. destruct o as [e|res]; [left; eauto|].
  destruct (body res) as [e|data]; [left; eauto|].
  intros Hs. destruct data; try (left; eauto; fail); rewrite Hs; right; eauto.
Qed.

(** X14. The login. A form that fails one of the three checks (both
    fields filled; an id of 4 to 20 word characters or one that contains
    [@]; a key of at least 5 characters) is answered with one alert and
    nothing else: no request leaves the page. A form that passes is sent,
    once; the only other request the handler can send is the first metrics
    request, when the login is accepted and the dashboard is started.
    [handleLogin] never throws once the form exists, and it is the
    only way in: [state.isAuth] is set by a response that is OK and says
    [success], and by nothing else; any other outcome shows one alert and
    leaves the state, the storage and the timers as they were. An accepted
    login stores the id for the next visit exactly when remember-me is
    ticked, and removes a stored id otherwise. *)
Theorem login_is_the_only_way_in `{Host} (pg : Page) (layers : bool) (f : LoginForm)
    (o : FetchOutcome) (s : Session) :
  let s' := snd (handleLogin pg layers (Some f) o s) in
  fst (handleLogin pg layers (Some f) o s) = Ok tt
  /\ (forall msg, login_refusal f = Some msg -> s' = in_tab (log_alert msg) s)
  /\ (login_refusal f = None ->
      requests (tab s') = requests (tab s) ++ ["/api/v1/auth/login"]
      \/ (login_accepted o = true /\ pollers s' = S (pollers s)
          /\ requests (tab s')
             = requests (tab s) ++ ["/api/v1/auth/login"; "/api/v1/dashboard/metrics"]))
  /\ (isAuth (state (tab s')) = true ->
      isAuth (state (tab s)) = true
      \/ (login_refusal f = None /\ login_accepted o = true))
  /\ (login_refusal f = None -> login_accepted o = true ->
      isAuth (state (tab s')) = true
      /\ restoreLogin s' = (if rememberMe f then Some (userId f, true) else None))
  /\ (login_accepted o = false ->
      state (tab s') = state (tab s) /\ localStorage s' = localStorage s
      /\ pollers s' = pollers s
      /\ exists msg, alerts (tab s') = alerts (tab s) ++ [msg]).
Proof.
  intros s'. subst s'. unfold handleLogin.
  destruct (login_refusal f) as [msg|] eqn:Hv.
  - simpl. split; [reflexivity|]. split; [intros m E; injection E as <-; reflexivity|].
    split; [discriminate|]. split; [auto|]. split; [discriminate|].
    intros _. repeat split. eauto.
  - set (s1 := in_tab (log_request "/api/v1/auth/login") s).
    destruct (login_accepted o) eqn:Hacc.
    + pose proof (handleLogin_try_accepted pg layers f o s1 Hacc) as Ht.
      destruct (handleLogin_try pg layers f o s1) as [[[]|e] s2];
        destruct Ht as (Ha & Hq & Hst & Hok & Hthrow); simpl;
        (split; [reflexivity|]); (split; [discriminate|]);
        (split;
         [intros _; rewrite Hq; unfold s1; simpl; rewrite <- ?app_assoc, ?app_nil_r;
          first [ left; reflexivity
                | right; split; [reflexivity|]; split; [|reflexivity];
                  destruct (Hok eq_refl) as [Hp _]; exact Hp ]|]);
        (split; [intros _; right; split; reflexivity|]);
        (split; [|discriminate]); intros _ _; (split; [exact Ha|]);
        unfold restoreLogin; cbn [in_tab localStorage]; rewrite Hst; cbn [s1 in_tab localStorage];
        destruct (rememberMe f);
        rewrite ?getItem_setItem, ?getItem_removeItem, ?(login_refusal_none f Hv);
        reflexivity.
    + destruct (handleLogin_try_denied pg layers f o s1 Hacc) as [[e ->] | [msg ->]];
        simpl; (split; [reflexivity|]); (split; [discriminate|]);
        (split; [left; reflexivity|]); (split; [auto|]); (split; [discriminate|]);
        intros _; repeat split; eauto.
Qed.

Lemma login_is_the_only_way_in_witness :
  let accepted := ok_json (JObj [("status", JStr "success"); ("mode", JStr "MOCK")]) in
  let s' := snd (handleLogin (H:=sample_host) sample_page true (Some sample_form)
                   accepted fresh_session) in
  login_refusal sample_form = None
  /\ login_refusal (mkLoginForm "abc" "s3cretKey" false)
     = Some "Validation Error: User ID must be 4-20 characters (alphanumeric) or a valid email."
  /\ login_accepted accepted = true
  /\ isAuth (state (tab s')) = true
  /\ restoreLogin s' = Some ("trader_01", true)
  /\ pollers s' = 1
  /\ requests (tab s') = ["/api/v1/auth/login"; "/api/v1/dashboard/metrics"].
Proof.
  intros accepted s'.
  destruct (login_is_the_only_way_in (H:=sample_host) sample_page true sample_form
              accepted fresh_session) as (_ & _ & _ & _ & Hin & _).
  destruct (Hin eq_refl eq_refl) as [Ha Hr].
  split; [reflexivity|]. split; [reflexivity|]. split; [reflexivity|].
  split; [exact Ha|]. split; [exact Hr|]. split; reflexivity.
Defined.

Lemma ticks_signed_out `{Host} (v : Variant) (inps : list TickInput) (w : World) :
  isAuth (state w) = false -> ticks v w inps = w.
Proof.
  intros Ha. induction inps as [|inp inps IH]; [reflexivity|].
  unfold ticks. simpl. rewrite (tick_signed_out v w inp Ha). exact IH.
Qed.

(** X15. Signing out clears [state.isAuth] before anything that can fail,
    so even on a page without the layers it ends with the flag cleared. It
    stops no timer; what it stops is the work of the timers: from then on
    every tick returns at its first line, whatever the backend would
    answer, so no request is issued and the state, the history and the
    chart stay as [logout] left them. *)
Theorem logout_silences_the_ticks `{Host} (v : Variant) (layers form : bool) (w : World)
    (inps : list TickInput) :
  let w' := run (logout layers form) w in
  isAuth (state w') = false
  /\ requests w' = requests w
  /\ buffer w' = buffer w
  /\ ticks v w' inps = w'
  /\ (forall post resync,
        requests (run (controlSystem v "start" false post resync) w')
        = requests w ++ ["/api/v1/system/start"]).
Proof.
  intros w'.
  assert (Ha : isAuth (state w') = false).
  { unfold w', logout. rewrite run_bind_update.
    destruct layers, form; reflexivity. }
  assert (Hq : requests w' = requests w)
    by (unfold w', logout; rewrite run_bind_update; destruct layers, form; reflexivity).
  split; [exact Ha|]. split; [exact Hq|].
  split; [unfold w', logout; rewrite run_bind_update; destruct layers, form; reflexivity|].
  split; [apply ticks_signed_out, Ha|].
  intros post resync. unfold controlSystem. simpl String.eqb. cbv iota.
  destruct post as [e|r].
  - unfold run, bind, fetch. simpl. rewrite Hq. reflexivity.
  - unfold run. rewrite bind_fetch_responded.
    change (requests (tick v (log_request "/api/v1/system/start" w') resync)
            = requests w ++ ["/api/v1/system/start"]).
    rewrite tick_signed_out by exact Ha. simpl. rewrite Hq. reflexivity.
Qed.

(** ** The keyboard in the symbol search *)

Lemma keydown_in_range (k : Key) (b : SearchBox) :
  0 < resultItems b -> selection_in_range b ->
  exists clicked b',
    keydown k b = (Ok clicked, b')
    /\ selection_in_range b'
    /\ resultItems b' = resultItems b
    /\ (forall r, clicked = Some r -> r < resultItems b /\ dropdownHidden b' = true).
Proof.
  intros Hn (i & Hi & Hr). unfold keydown, selection_in_range.
  destruct (dropdownHidden b) eqn:Hh.
  - exists None, b. repeat split; eauto; discriminate.
  - assert (Hz : (Z.of_nat (resultItems b) =? 0)%Z = false) by (apply Z.eqb_neq; lia).
    destruct k; rewrite ?Hi; cbn [num_op_Z js_rem]; rewrite ?Hz.
    + eexists; eexists. split; [reflexivity|]. cbn [searchSelectedIdx resultItems dropdownHidden].
      split; [|repeat split; discriminate].
      eexists. split; [reflexivity|].
      pose proof (Z.rem_bound_pos (i + 1) (Z.of_nat (resultItems b))). lia.
    + eexists; eexists. split; [reflexivity|]. cbn [searchSelectedIdx resultItems dropdownHidden].
      split; [|repeat split; discriminate].
      eexists. split; [reflexivity|].
      destruct (decide (i = -1)%Z) as [->|Hne].
      * destruct (decide (resultItems b = 1)) as [E|E].
        -- rewrite E. change (Z.of_nat 1) with 1%Z. rewrite Z.rem_1_r. lia.
        -- pose proof (Z.rem_bound_pos (-1 - 1 + Z.of_nat (resultItems b))
                         (Z.of_nat (resultItems b))). lia.
      * pose proof (Z.rem_bound_pos (i - 1 + Z.of_nat (resultItems b))
                      (Z.of_nat (resultItems b))). lia.
    + destruct (-1 <? i)%Z eqn:E1.
      * assert (E2 : (i <? Z.of_nat (resultItems b))%Z = true) by (apply Z.ltb_lt; lia).
        rewrite E2. eexists; eexists. split; [reflexivity|].
        cbn [searchSelectedIdx resultItems dropdownHidden].
        split; [eauto|]. split; [reflexivity|].
        intros r [= <-]. apply Z.ltb_lt in E1. split; [lia | reflexivity].
      * exists None, b. repeat split; eauto; discriminate.
    + exists None, b. repeat split; eauto; discriminate.
Qed.

(** X16. The selection in the search results. While the list holds at
    least one row, no sequence of key presses throws, and the selection
    stays a row of the list (or none yet, as a fresh list leaves it), so
    Enter only ever clicks a row that exists. On a row, arrow down then
    arrow up (and arrow up then arrow down) comes back to the row. On a
    fresh list arrow down selects the first row, while arrow up selects the
    row before the last, not the last one. *)
Theorem search_selection_stays_on_a_row (ks : list Key) (b : SearchBox) :
  0 < resultItems b -> selection_in_range b ->
  (exists b', keydowns ks b = (Ok tt, b') /\ selection_in_range b'
              /\ resultItems b' = resultItems b)
  /\ (dropdownHidden b = false ->
      forall i, searchSelectedIdx b = Some i -> (0 <= i)%Z ->
        searchSelectedIdx (snd (keydown ArrowUp (snd (keydown ArrowDown b)))) = Some i
        /\ searchSelectedIdx (snd (keydown ArrowDown (snd (keydown ArrowUp b)))) = Some i)
  /\ (forall n, 2 <= n ->
        searchSelectedIdx (snd (keydown ArrowDown (renderSearchResults n b))) = Some 0%Z
        /\ searchSelectedIdx (snd (keydown ArrowUp (renderSearchResults n b)))
           = Some (Z.of_nat n - 2)%Z).
Proof.
  intros Hn Hb. split; [|split].
  - revert b Hn Hb. induction ks as [|k ks IH]; intros b Hn Hb.
    + exists b. auto.
    + destruct (keydown_in_range k b Hn Hb) as (clicked & b1 & E & Hb1 & Hn1 & _).
      cbn [keydowns]. rewrite E.
      destruct (IH b1) as (b' & E' & Hb' & Hn'); [lia | exact Hb1|].
      exists b'. split; [exact E'|]. split; [exact Hb' | congruence].
  - intros Hh i Hi Hpos. destruct Hb as (j & Hj & Hr).
    assert (j = i) by congruence. subst j.
    assert (Hz : (Z.of_nat (resultItems b) =? 0)%Z = false) by (apply Z.eqb_neq; lia).
    unfold keydown. rewrite Hh. cbn [snd dropdownHidden searchSelectedIdx resultItems].
    rewrite Hi. cbn [num_op_Z js_rem]. rewrite Hz. cbn [num_op_Z js_rem]. rewrite Hz.
    set (n := Z.of_nat (resultItems b)) in *.
    split; f_equal.
    + destruct (decide (i + 1 = n)%Z) as [E|E].
      * rewrite E, Z.rem_same by lia.
        replace (0 - 1 + n)%Z with (n - 1)%Z by lia.
        rewrite Z.rem_small by lia. lia.
      * rewrite (Z.rem_small (i + 1) n) by lia.
        replace (i + 1 - 1 + n)%Z with (i + 1 * n)%Z by lia.
        rewrite Z.rem_add by (first [lia | nia]). apply Z.rem_small. lia.
    + destruct (decide (i = 0)%Z) as [->|E].
      * replace (0 - 1 + n)%Z with (n - 1)%Z by lia.
        rewrite (Z.rem_small (n - 1) n) by lia.
        replace (n - 1 + 1)%Z with n by lia. apply Z.rem_same. lia.
      * replace (i - 1 + n)%Z with ((i - 1) + 1 * n)%Z by lia.
        rewrite Z.rem_add by (first [lia | nia]). rewrite (Z.rem_small (i - 1) n) by lia.
        replace (i - 1 + 1)%Z with i by lia. apply Z.rem_small. lia.
  - intros n Hn2. unfold keydown, renderSearchResults.
    cbn [snd dropdownHidden searchSelectedIdx resultItems num_op_Z js_rem].
    assert (Hz : (Z.of_nat n =? 0)%Z = false) by (apply Z.eqb_neq; lia).
    rewrite Hz. split; f_equal; rewrite Z.rem_small by lia; lia.
Qed.

Lemma search_selection_stays_on_a_row_witness :
  let b := renderSearchResults 3 (mkSearchBox None true 0) in
  0 < resultItems b /\ selection_in_range b
  /\ keydowns [ArrowUp; Enter] b = (Ok tt, mkSearchBox (Some 1%Z) true 3)
  /\ exists b', keydowns [ArrowDown; ArrowDown; ArrowUp; Enter] b = (Ok tt, b').
Proof.
  intros b.
  assert (Hn : 0 < resultItems b) by (simpl; lia).
  assert (Hb : selection_in_range b) by (exists (-1)%Z; split; [reflexivity | simpl; lia]).
  split; [exact Hn|]. split; [exact Hb|]. split; [reflexivity|].
  destruct (search_selection_stays_on_a_row [ArrowDown; ArrowDown; ArrowUp; Enter] b Hn Hb)
    as ((b' & E & _) & _).
  exists b'. exact E.
Defined.

(** ** Polling and the controls *)

(** X17. Polling touches none of the controls: over any run of ticks,
    whatever the backend answers, the login flag, the selected market,
    commodity and chart range, the mode-switch flag and its modal stay as
    they are, no alert is shown, the page is not reloaded and no
    resynchronisation is started. *)
Theorem polling_leaves_the_controls_alone `{Host} (v : Variant) (inps : list TickInput)
    (w : World) :
  session_controls (ticks v w inps) = session_controls w.
Proof.
  revert w. induction inps as [|inp inps IH]; intros w; [reflexivity|].
  unfold ticks. cbn [foldl]. fold (ticks v (tick v w inp) inps).
  rewrite IH. apply tick_session_controls.
Qed.

Lemma control_route_cases (action : string) :
  control_route action = "system/start"
  \/ control_route action = "system/square_off_all"
  \/ control_route action = "system/pause".
Proof.
  unfold control_route.
  destruct (String.eqb action "start"); [auto|].
  destruct (String.eqb action "square_off_all"); auto.
Qed.

Lemma controlSystem_route `{Host} (v : Variant) (action : string) (confirmed : bool)
    (post : FetchOutcome) (resync : TickInput) :
  action <> "reset" ->
  controlSystem v action confirmed post resync
  = bind (fetch ("/api/v1/" +:+ control_route action) post)
         (fun _ => fetchSystemData v resync).
Proof.
  intros Hne. unfold controlSystem, control_route.
  apply String.eqb_neq in Hne. rewrite Hne. reflexivity.
Qed.

(** X18. The control buttons. Every action other than the reset posts
    once, to start, to square-off or, for any other action name, to pause,
    and asks nothing of the user. The answer is never looked at: any
    response, OK or not, is followed by the same resynchronising tick; only
    a request that fails on the network is different, and then the handler
    throws, nothing having been resynchronised. No alert is shown, the page
    is not reloaded and the history stays within its capacity. *)
Theorem control_actions_ignore_the_answer `{Host} (v : Variant) (action : string)
    (confirmed : bool) (post : FetchOutcome) (resync : TickInput) (w : World) :
  action <> "reset" ->
  let url := "/api/v1/" +:+ control_route action in
  let w' := run (controlSystem v action confirmed post resync) w in
  (action <> "start" -> action <> "square_off_all" -> url = "/api/v1/system/pause")
  /\ (forall e, post = Rejected e ->
        controlSystem v action confirmed post resync w = (Throw e, log_request url w))
  /\ (forall r, post = Responded r ->
        fst (controlSystem v action confirmed post resync w) = Ok tt
        /\ w' = tick v (log_request url w) resync)
  /\ alerts w' = alerts w /\ reloads w' = reloads w
  /\ (within_capacity w -> within_capacity w').
Proof.
  intros Hne url w'. subst w'. rewrite (controlSystem_route v action confirmed post resync Hne).
  fold url. split; [|split; [|split]].
  - intros H1 H2. unfold url, control_route.
    apply String.eqb_neq in H1. apply String.eqb_neq in H2. rewrite H1, H2. reflexivity.
  - intros e ->. reflexivity.
  - intros r ->. unfold run. rewrite bind_fetch_responded.
    split; [apply fetchSystemData_ok | reflexivity].
  - destruct post as [e|r].
    + split; [reflexivity|]. split; [reflexivity|]. intros Hw. exact Hw.
    + unfold run. rewrite bind_fetch_responded.
      change (snd (fetchSystemData v resync (log_request url w)))
        with (tick v (log_request url w) resync).
      pose proof (tick_session_controls v (log_request url w) resync) as Hk.
      unfold session_controls in Hk. injection Hk as _ _ _ _ _ _ Ha Hr _.
      split; [exact Ha|]. split; [exact Hr|].
      intros Hw. apply tick_within_capacity. exact Hw.
Qed.

Lemma control_actions_ignore_the_answer_witness :
  let w500 := run (controlSystem (H:=sample_host) Current "stop" false (http_error 500)
                     (sample_tick (http_error 500))) sample_world in
  "stop" <> "reset"
  /\ within_capacity sample_world
  /\ requests w500
     = [ "/api/v1/system/pause"; "/api/v1/dashboard/metrics"; "/api/v1/trades/open";
         "/api/v1/alerts/logs"; "/api/v1/account/balance"; "/api/v1/market/data/NIFTY";
         "/api/v1/agents/status"; "/api/v1/agents/audit"; "/api/v1/market/data/NIFTY";
         "/api/v1/risk/rules" ]
  /\ within_capacity w500.
Proof.
  intros w500.
  assert (Hne : "stop" <> "reset") by (intros E; discriminate E).
  assert (Hw : within_capacity sample_world).
  { split; [split; reflexivity|]. unfold MAX_HISTORY. vm_compute. lia. }
  destruct (control_actions_ignore_the_answer (H:=sample_host) Current "stop" false
              (http_error 500) (sample_tick (http_error 500)) sample_world Hne)
    as (_ & _ & _ & _ & _ & Hcap).
  split; [exact Hne|]. split; [exact Hw|]. split; [reflexivity | exact (Hcap Hw)].
Defined.

(** ** The theme *)

(** X19. The theme survives a reload. [toggleTheme] leaves the theme
    either light or dark, stores exactly that theme and gives the page the
    matching look, also when the icon of the toggle is missing and the
    handler throws; [initTheme], run at the next load on the storage as the
    toggle left it, restores the same theme and look. Two toggles from
    light or from dark come back to the theme; from any other stored theme
    the first toggle gives dark. *)
Theorem theme_survives_reload (icon icon' : bool) (redraw : Result unit) (l l0 : Look)
    (store : list (string * string)) :
  let '(l1, store1) := snd (toggleTheme icon redraw (l, store)) in
  (theme l1 = "light" \/ theme l1 = "dark")
  /\ getItem "theme" store1 = Some (theme l1)
  /\ lightTheme l1 = String.eqb (theme l1) "light"
  /\ theme (snd (initTheme icon' store1 l0)) = theme l1
  /\ lightTheme (snd (initTheme icon' store1 l0)) = lightTheme l1
  /\ (theme l <> "dark" -> theme l1 = "dark")
  /\ (theme l = "light" \/ theme l = "dark" ->
      theme (fst (snd (toggleTheme icon redraw (l1, store1)))) = theme l).
Proof.
  unfold toggleTheme, initTheme, savedTheme.
  destruct (String.eqb (theme l) "dark") eqn:Ed.
  - apply String.eqb_eq in Ed.
    destruct icon; cbn [snd fst theme lightTheme];
      rewrite !getItem_setItem; simpl String.eqb; cbv iota;
      destruct icon'; cbn [snd fst theme lightTheme];
      repeat split; auto; try congruence; intros [E|E]; congruence.
  - apply String.eqb_neq in Ed.
    destruct icon; cbn [snd fst theme lightTheme];
      rewrite !getItem_setItem; simpl String.eqb; cbv iota;
      destruct icon'; cbn [snd fst theme lightTheme];
      repeat split; auto; try congruence; intros [E|E]; congruence.
Qed.

(** ** Switching the range of the chart *)

(** X20. [setChartTimeRange] stores the range before anything else and
    never touches the history. On a page that has the button of the range,
    a chart that exists is handed the view of the new range at once: in the
    real-data branch the most recent window of that range with every
    [step]-th point kept. On a page without that button the handler throws
    after the range is stored and before the redraw, so the chart keeps the
    view of the range it showed before. Without a chart nothing is drawn. *)
Theorem range_switch_redraws_at_once `{Host} (pg : Page) (nw : Z) (range : string)
    (w : World) :
  let w' := run (setChartTimeRange pg nw range) w in
  chartTimeRange (state w') = range
  /\ buffer w' = buffer w
  /\ (rangeButton pg range = false ->
      pnlChart w' = pnlChart w
      /\ exists e, fst (setChartTimeRange pg nw range w) = Throw e)
  /\ (pnlChart w = None -> pnlChart w' = None)
  /\ (rangeButton pg range = true -> pnlChart w <> None -> aligned w ->
      In range supported_ranges ->
      (50 <= buffer_length w \/ range = "1D") ->
      pnlChart w'
      = Some (spec_view (point_limit range) (stride_step range) (state w))).
Proof.
  intros w'. subst w'. unfold setChartTimeRange. rewrite run_bind_update.
  set (w1 := with_state (set_chartTimeRange range) w).
  destruct (rangeButton pg range) eqn:Hb; cbn [negb]; cbv iota.
  - rewrite run_bind_get. change (pnlChart w1) with (pnlChart w).
    destruct (pnlChart w) as [c|] eqn:Hc.
    + destruct (refreshChartData_chart pg nw w1 c Hc) as (view & Hv & Hp & Hs & _).
      rewrite Hs. split; [reflexivity|]. split; [unfold buffer; rewrite Hs; reflexivity|].
      split; [discriminate|]. split; [discriminate|].
      intros _ _ Hal Hin Hreal. rewrite Hp. f_equal.
      destruct (supported_range_config range Hin) as (Hcfg & Hpt & Hst).
      assert (Hsyn : synthetic_branch (state w1) = false).
      { unfold synthetic_branch. cbn [w1 state with_state pnlHistory chartTimeRange
                                        set_chartTimeRange].
        destruct Hreal as [Hn | ->].
        - apply andb_false_iff. left. apply Nat.ltb_ge. exact Hn.
        - apply andb_false_r. }
      rewrite (getFilteredChartData_real w1 nw (config_of range)) in Hv
        by (first [exact Hal | exact Hcfg | exact Hpt | exact Hst | exact Hsyn]).
      injection Hv as <-. reflexivity.
    + split; [reflexivity|]. split; [reflexivity|]. split; [discriminate|].
      split; [intros _; exact Hc|]. intros _ Hne. congruence.
  - split; [reflexivity|]. split; [reflexivity|].
    split; [intros _; split; [reflexivity | eexists; reflexivity]|].
    split; [intros Hc; exact Hc | discriminate].
Qed.

Lemma range_switch_redraws_at_once_witness :
  let w := charted (world_with_history 60 "1D") in
  let w' := run (setChartTimeRange (H:=sample_host) sample_page 0 "5D") w in
  rangeButton sample_page "5D" = true /\ pnlChart w <> None /\ aligned w
  /\ In "5D" supported_ranges
  /\ chartTimeRange (state w') = "5D"
  /\ option_map (fun c => length (data c)) (pnlChart w') = Some 30.
Proof.
  intros w w'.
  assert (Hc : pnlChart w <> None) by (intros E; discriminate E).
  assert (Ha : aligned w) by (split; reflexivity).
  assert (Hin : In "5D" supported_ranges) by (simpl; tauto).
  destruct (range_switch_redraws_at_once (H:=sample_host) sample_page 0 "5D" w)
    as (Hr & _ & _ & _ & Hview).
  split; [reflexivity|]. split; [exact Hc|]. split; [exact Ha|]. split; [exact Hin|].
  split; [exact Hr|].
  unfold w'. rewrite (Hview eq_refl Hc Ha Hin).
  - reflexivity.
  - left. vm_compute. lia.
Defined.

(** ** The placeholder series *)

Lemma bounded_walk_app (base : Q) (b : Q) (l : list JsVal) :
  (- (45 # 2) <= b - base)%Q -> (b - base < 55 # 2)%Q -> bounded_walk b l ->
  bounded_walk base (JNum b :: l).
Proof. intros H1 H2 H3. simpl. auto. Qed.

Lemma mock_loop_series `{Host} (k i : nat) (nw : Z) (base : Q) (acc : ChartData)
    (w : World) :
  (forall n, (0 <= Math_random_at n)%Q /\ (Math_random_at n < 1)%Q) ->
  exists c gen,
    fst (mock_loop k i nw base acc w) = Ok c
    /\ data c = data acc ++ gen
    /\ length gen = k
    /\ bounded_walk base gen
    /\ labels c = labels acc ++ map (fun j => shortDateOf (placeholder_instant nw j)) (seq i k)
    /\ fullTimestamps c
       = fullTimestamps acc
         ++ map (fun j => localeStringOf (placeholder_instant nw j)) (seq i k).
Proof.
  intros Hr. revert i base acc w. induction k as [|k IH]; intros i base acc w.
  - exists acc, []. simpl. rewrite !app_nil_r. auto 6.
  - cbn [mock_loop]. unfold bind at 1. unfold Math_random at 1.
    set (r := Math_random_at (drawn w)).
    set (base' := (base + (r - (45 # 100)) * 50)%Q).
    match goal with
    | |- context [mock_loop k (S i) nw base' ?acc' ?w'] =>
        destruct (IH (S i) base' acc' w') as (c & gen & Hc & Hd & Hn & Hw & Hl & Hf)
    end.
    exists c, (JNum base' :: gen). split; [exact Hc|].
    cbn [data labels fullTimestamps] in Hd, Hl, Hf.
    rewrite Hd, Hl, Hf, <- !app_assoc. cbn [seq map app].
    split; [reflexivity|]. split; [simpl; rewrite Hn; reflexivity|].
    split; [|split; reflexivity].
    destruct (Hr (drawn w)) as [H0 H1]. fold r in H0, H1.
    apply bounded_walk_app; [| |exact Hw]; unfold base'; lra.
Qed.

(** X21. The placeholder series shown while the history is short. With a
    random source that draws from [0, 1), the view has 100 points whose
    values form a walk from 500 that moves by at least -22.5 and by less
    than 27.5 at each step (numbers are exact rationals here), and whose
    labels and tooltips are the instants from 100 hours before the call to
    one hour before it, one hour apart. The buffer plays no part in it. *)
Theorem placeholder_series_is_an_hourly_walk `{Host} (w : World) (nw : Z) :
  (forall n, (0 <= Math_random_at n)%Q /\ (Math_random_at n < 1)%Q) ->
  synthetic_branch (state w) = true ->
  exists view,
    fst (getFilteredChartData nw w) = Ok view
    /\ length (data view) = 100
    /\ bounded_walk 500 (data view)
    /\ labels view = map (fun j => shortDateOf (placeholder_instant nw j)) (seq 0 100)
    /\ fullTimestamps view
       = map (fun j => localeStringOf (placeholder_instant nw j)) (seq 0 100).
Proof.
  intros Hr Hs.
  destruct (mock_loop_series pointsCount 0 nw 500%Q (mkChartData [] [] []) w Hr)
    as (c & gen & Hc & Hd & Hn & Hw & Hl & Hf).
  exists c. split.
  - unfold getFilteredChartData. rewrite fst_bind_get. cbv beta iota zeta.
    fold (synthetic_branch (state w)). rewrite Hs. exact Hc.
  - cbn [data labels fullTimestamps app] in Hd, Hl, Hf. rewrite Hd, Hl, Hf.
    split; [exact Hn|]. split; [exact Hw|]. split; reflexivity.
Qed.

Lemma placeholder_series_is_an_hourly_walk_witness :
  let w := world_with_history 0 "3M" in
  (forall n, (0 <= @Math_random_at sample_host n)%Q /\ (@Math_random_at sample_host n < 1)%Q)
  /\ synthetic_branch (state w) = true
  /\ exists view,
       fst (getFilteredChartData (H:=sample_host) 360000000 w) = Ok view
       /\ labels view !! 99 = Some "356400000"
       /\ bounded_walk 500 (data view).
Proof.
  intros w.
  assert (Hr : forall n, (0 <= @Math_random_at sample_host n)%Q
                         /\ (@Math_random_at sample_host n < 1)%Q).
  { intros n. simpl. destruct (n <? 100); split; lra. }
  split; [exact Hr|]. split; [reflexivity|].
  destruct (placeholder_series_is_an_hourly_walk (H:=sample_host) w 360000000 Hr eq_refl)
    as (view & Hv & _ & Hw & Hl & _).
  exists view. split; [exact Hv|]. split; [rewrite Hl; reflexivity | exact Hw].
Defined.

(** ** A request that fails *)

Lemma bind_fetch_rejected {A} (url : string) (e : JsError) (k : Response -> JS A)
    (w : World) :
  bind (fetch url (Rejected e)) k w = (Throw e, log_request url w).
Proof. reflexivity. Qed.

Lemma syncSnapshot_rejected (v : Variant) (inp : TickInput) (w : World) (k : nat) :
  first_rejected inp = Some k ->
  exists e,
    syncSnapshot v inp w
    = (Throw e, foldl (fun w' url => log_request url w') w (take (S k) early_endpoints)).
Proof.
  destruct inp as [mo to lo ao so do nw pg]. unfold first_rejected, syncSnapshot.
  cbn [mResp tResp lResp aResp rejected].
  destruct mo as [em|mr];
    [intros [= <-]; exists em; rewrite bind_fetch_rejected; reflexivity|].
  rewrite bind_fetch_responded.
  destruct to as [et|tr];
    [intros [= <-]; exists et; rewrite bind_fetch_rejected; reflexivity|].
  rewrite bind_fetch_responded.
  destruct lo as [el|lr];
    [intros [= <-]; exists el; rewrite bind_fetch_rejected; reflexivity|].
  rewrite bind_fetch_responded.
  destruct ao as [ea|ar]; [|discriminate].
  intros [= <-]. exists ea. rewrite bind_fetch_rejected. reflexivity.
Qed.

Lemma first_rejected_bound (inp : TickInput) (k : nat) :
  first_rejected inp = Some k -> k < 4.
Proof.
  unfold first_rejected.
  repeat match goal with |- context [if ?c then _ else _] => destruct c end;
    intros [= <-]; lia.
Qed.

(** X22. The endpoints are polled one after the other, and a request that
    is rejected is the last one of its tick. When, in an authenticated
    session, the request at position [k] among the first four is the first
    to be rejected, the tick has sent exactly the requests up to that one,
    in the order metrics, trades, logs, balance; the agent endpoints, the
    market data and the risk rules are not requested. The only trace is one
    line on the console: state, chart and alerts are as before the tick. *)
Theorem rejected_request_ends_the_tick `{Host} (v : Variant) (w : World)
    (inp : TickInput) (k : nat) :
  isAuth (state w) = true ->
  first_rejected inp = Some k ->
  requests (tick v w inp) = requests w ++ take (S k) early_endpoints
  /\ console (tick v w inp) = console w ++ ["API Sync Failed"]
  /\ state (tick v w inp) = state w
  /\ pnlChart (tick v w inp) = pnlChart w
  /\ alerts (tick v w inp) = alerts w.
Proof.
  intros Ha Hk. pose proof (first_rejected_bound inp k Hk) as Hb.
  destruct (syncSnapshot_rejected v inp w k Hk) as [e He].
  assert (Hw : tick v w inp
               = log_console "API Sync Failed"
                   (foldl (fun w' url => log_request url w') w
                          (take (S k) early_endpoints))).
  { unfold tick, fetchSystemData. rewrite run_bind_get, Ha.
    cbn [negb]. cbv iota.
    unfold run, try_catch, fetchSystemData_body. unfold bind at 1. rewrite He.
    reflexivity. }
  rewrite Hw. clear Hw He.
  destruct k as [|[|[|[|k]]]]; [| | | |lia];
    cbn; rewrite <- ?app_assoc; auto.
Qed.

Lemma rejected_request_ends_the_tick_witness :
  let inp := mkTickInput (ok_json sample_metrics) (Rejected (PlainError "Failed to fetch"))
                         (ok_json (JArr [])) (ok_json (JObj [])) (ok_json (JObj []))
                         (ok_json (JArr [])) 0 sample_page in
  isAuth (state sample_world) = true
  /\ first_rejected inp = Some 1
  /\ requests (tick (H:=sample_host) Current sample_world inp)
     = ["/api/v1/dashboard/metrics"; "/api/v1/trades/open"]
  /\ console (tick (H:=sample_host) Current sample_world inp) = ["API Sync Failed"].
Proof.
  intros inp. split; [reflexivity|]. split; [reflexivity|].
  destruct (rejected_request_ends_the_tick (H:=sample_host) Current sample_world inp 1
              eq_refl eq_refl) as (Hr & Hc & _).
  split; [exact Hr | exact Hc].
Defined.
